(** * JMX code actions of the Dynatrace extensions add-on

    A shallow embedding of [src/codeActions/jmx.ts] (class
    [JMXActionProvider]) and of its sibling revision, and the properties
    of the key sanitization, the query formatting, the group rollover and
    the insertion action that the specification states about them.

    Strings.  A JavaScript string is modelled as a list of 8-bit
    characters.  The model covers ASCII text: [toLowerCase] maps [A-Z] to
    [a-z] and leaves every other character alone, and the length of a
    string is the number of its characters. *)

From Stdlib Require Import Ascii String DecimalString.
From Stdlib Require Import Arith Bool ZArith Lia List.
Import ListNotations.

Local Open Scope char_scope.
Local Open Scope nat_scope.
Local Open Scope list_scope.

(** ** Strings *)

Definition str := list ascii.

Abbreviation lit := list_ascii_of_string.

Definition code (c : ascii) : nat := nat_of_ascii c.

Definition isUpper (c : ascii) : bool := (65 <=? code c) && (code c <=? 90).
Definition isLower (c : ascii) : bool := (97 <=? code c) && (code c <=? 122).
Definition isDigit (c : ascii) : bool := (48 <=? code c) && (code c <=? 57).

(** [/[a-z]/i]: without the [u] flag the case-insensitive class matches the
    ASCII letters only. *)
Definition isLetter (c : ascii) : bool := isUpper c || isLower c.

Definition toLowerChar (c : ascii) : ascii :=
  if isUpper c then ascii_of_nat (code c + 32) else c.

(** [String.prototype.toLowerCase] *)
Definition toLowerCase (s : str) : str := map toLowerChar s.

Fixpoint str_eqb (a b : str) : bool :=
  match a, b with
  | [], [] => true
  | x :: a', y :: b' => Ascii.eqb x y && str_eqb a' b'
  | _, _ => false
  end.

(** [String.prototype.startsWith] *)
Fixpoint startsWith (s x : str) {struct x} : bool :=
  match x, s with
  | [], _ => true
  | c :: x', d :: s' => Ascii.eqb c d && startsWith s' x'
  | _ :: _, [] => false
  end.

(** [String.prototype.endsWith] *)
Definition endsWith (s x : str) : bool :=
  (length x <=? length s) && str_eqb (skipn (length s - length x) s) x.

(** [String.prototype.includes] *)
Fixpoint includes (s x : str) : bool :=
  startsWith s x || match s with [] => false | _ :: s' => includes s' x end.

(** [s.slice(0, e)]: a negative [e] counts from the end of the string, and
    both bounds are clamped to [0 .. s.length]. *)
Definition slice0 (s : str) (e : Z) : str :=
  let len := Z.of_nat (length s) in
  let final := if (e <? 0)%Z then Z.max (len + e) 0 else Z.min e len in
  firstn (Z.to_nat final) s.

(** [s.replace(/[...]/g, r)] for a character class *)
Definition replaceClass (cls : ascii -> bool) (r : str) (s : str) : str :=
  flat_map (fun c => if cls c then r else [c]) s.

(** [Number.prototype.toString] of a counter *)
Definition toString (n : nat) : str :=
  lit (NilZero.string_of_uint (Nat.to_uint n)).

(** ** Key and query sanitization *)

(** [/[:|,]/]: inside a class the bar is an ordinary character. *)
Definition isColonBarComma (c : ascii) : bool :=
  Ascii.eqb c ":" || Ascii.eqb c "|" || Ascii.eqb c ",".

(** [/[=| ]/] *)
Definition isEqualsBarSpace (c : ascii) : bool :=
  Ascii.eqb c "=" || Ascii.eqb c "|" || Ascii.eqb c " ".

(** [[a-zA-Z0-9_.]] *)
Definition isKeyChar (c : ascii) : bool :=
  isLower c || isUpper c || isDigit c || Ascii.eqb c "_" || Ascii.eqb c ".".

Definition ConvertMetricKey (fullPath : str) : str :=
  let metricKey := replaceClass isColonBarComma ["."] fullPath in
  let metricKey := replaceClass isEqualsBarSpace ["_"] metricKey in
  let metricKey := replaceClass (fun c => negb (isKeyChar c)) [] metricKey in
  metricKey ++ ["."].

(** [query.replace(/=,/g, "=*,")] *)
Fixpoint replaceEqualsComma (s : str) : str :=
  match s with
  | [] => []
  | c :: t =>
      match t with
      | d :: rest =>
          if Ascii.eqb c "=" && Ascii.eqb d ","
          then "=" :: "*" :: "," :: replaceEqualsComma rest
          else c :: replaceEqualsComma t
      | [] => [c]
      end
  end.

Definition formatQuery (fullPath : str) : str :=
  let query := replaceEqualsComma fullPath in
  if endsWith query ["="] then query ++ ["*"] else query.

(** The key of a numeric attribute, lines 138-145 (and 185-192) of
    [createQueryInsertions]. *)
Definition trueMetricKey (fullPath name : str) : str :=
  let metricKey := ConvertMetricKey fullPath in
  let trueMetricKey := metricKey ++ toLowerCase name in
  if 250 <? length trueMetricKey then
    let metricKeyLength := length (toLowerCase name) in
    let trueSize := (249 - Z.of_nat metricKeyLength)%Z in
    let trueMetricKey := slice0 metricKey trueSize in
    trueMetricKey ++ ["."] ++ toLowerCase name
  else trueMetricKey.

(** ** Exceptions *)

Inductive Exn : Type :=
| TypeError        (* a property or method of a value that has none *)
| IllegalLine.     (* [document.lineAt] outside of the document *)

Inductive Result (A : Type) : Type :=
| Ok (a : A)
| Throw (e : Exn).

Arguments Ok {A} a.
Arguments Throw {A} e.

Definition bind {A B : Type} (c : Result A) (k : A -> Result B) : Result B :=
  match c with
  | Ok a => k a
  | Throw e => Throw e
  end.

Notation "x <- c ;; k" := (bind c (fun x => k))
  (at level 61, c at next level, right associativity).

Fixpoint foldM {A S : Type} (f : S -> A -> Result S) (l : list A) (s : S) : Result S :=
  match l with
  | [] => Ok s
  | a :: l' => s' <- f s a ;; foldM f l' s'
  end.

Fixpoint mapM {A B : Type} (f : A -> Result B) (l : list A) : Result (list B) :=
  match l with
  | [] => Ok []
  | a :: l' => b <- f a ;; bs <- mapM f l' ;; Ok (b :: bs)
  end.

Definition isOk {A : Type} (r : Result A) : bool :=
  match r with Ok _ => true | Throw _ => false end.

(** ** Scrape data

    The cached response went through [JSON.parse (JSON.stringify _)] and is
    read without validation, so a field may hold any JSON value or be
    missing.  [JObj] stands for any array or object.  A collection that the
    code enumerates ([jmxData], the [data] of a domain, the [data] of an
    MBean, [properties], [metrics]) is [None] when enumerating it throws
    (a missing or [null] value, or a value that has no entries and cannot
    be iterated), and otherwise the list of what the enumeration yields. *)

Inductive JsValue : Type :=
| JUndefined
| JNull
| JBool (b : bool)
| JNum (n : Z)
| JStr (s : str)
| JObj.

(** The condition of an [if]. *)
Definition truthy (v : JsValue) : bool :=
  match v with
  | JUndefined | JNull => false
  | JBool b => b
  | JNum n => negb (n =? 0)%Z
  | JStr s => negb (str_eqb s [])
  | JObj => true
  end.

(** The receiver of a string method ([v.toLowerCase ()], [v.replace (..)]):
    only a string has the method, anything else raises a [TypeError]. *)
Definition asString (v : JsValue) : Result str :=
  match v with
  | JStr s => Ok s
  | _ => Throw TypeError
  end.

(** The argument of [Object.entries] or the subject of [for .. of]: a missing
    ([undefined] or [null]) collection raises a [TypeError]. *)
Definition present {A : Type} (o : option A) : Result A :=
  match o with
  | Some a => Ok a
  | None => Throw TypeError
  end.

Record Metric : Type := {
  name : JsValue;
  numeric : JsValue
}.

(** [properties] lists the entries in the order of [Object.entries]. *)
Record Element : Type := {
  fullPath : JsValue;
  properties : option (list (str * JsValue));
  metrics : option (list Metric)
}.

Record MBean : Type := { mbean_data : option (list Element) }.

Record Domain : Type := { domain_data : option (list (str * MBean)) }.

Record jmxDataResponse : Type := {
  process_name : option str;
  jmxData : option (list (str * Domain))
}.

(** ** The generated fragment

    [createQueryInsertions] builds [yamlString] by appending pieces of text.
    A [Piece] is one such append (or a run of appends that always come
    together); [renderPiece] is the text it appends. *)

Inductive Piece : Type :=
| GroupsHeader                                  (* first half of line 108 *)
| GroupHeader (groupCount : nat)                (* lines 108-109, 160-161 *)
| SubgroupHeader (rolled : bool) (fullPath query : str)   (* 115-122, 162-169 *)
| PropertyDimension (key : str)                 (* 124-125, 171-172 *)
| AttributeDimension (name : str)               (* 129-130, 176-177 *)
| MetricsHeader                                 (* 133, 180 *)
| GaugeMetric (key name : str)                  (* 146-148, 193-195 *)
| ConstMetric.                                  (* 152-154, 199-201 *)

Definition nl : str := lit (String "010" EmptyString).

Definition renderPiece (p : Piece) : str :=
  match p with
  | GroupsHeader => lit "  groups:" ++ nl
  | GroupHeader groupCount =>
      lit "  - group: group_" ++ toString groupCount ++ nl ++
      lit "    subgroups: " ++ nl
  | SubgroupHeader rolled fullPath query =>
      lit "       - subgroup: " ++ fullPath ++ nl ++
      lit "         query: " ++ query ++ nl ++
      (if rolled then lit "         dimensions : " else lit "         dimensions: ") ++ nl
  | PropertyDimension key =>
      lit "          - key: " ++ toLowerCase key ++ nl ++
      lit "            value: property:" ++ key ++ nl
  | AttributeDimension name =>
      lit "          - key: " ++ toLowerCase name ++ nl ++
      lit "            value: attribute:" ++ name ++ nl
  | MetricsHeader => lit "         metrics: " ++ nl
  | GaugeMetric key name =>
      lit "          - key: " ++ key ++ nl ++
      lit "            type: gauge " ++ nl ++
      lit "            value: attribute:" ++ name ++ nl
  | ConstMetric =>
      lit "          - key: jmx.const.value " ++ nl ++
      lit "            type: gauge " ++ nl ++
      lit "            value: const:1 " ++ nl
  end.

Definition render (ps : list Piece) : str := concat (map renderPiece ps).

(** The first loop over [element.metrics]: the attributes that are not
    numeric become dimensions. *)
Definition dimensionOf (metric : Metric) : Result (list Piece) :=
  if negb (truthy (numeric metric)) then
    n <- asString (name metric) ;; Ok [AttributeDimension n]
  else Ok [].

(** The second loop: the numeric attributes become gauges. *)
Definition gaugeOf (path : str) (metric : Metric) : Result (list Piece) :=
  if truthy (numeric metric) then
    n <- asString (name metric) ;; Ok [GaugeMetric (trueMetricKey path n) n]
  else Ok [].

Definition hasMetric (ms : list Metric) : bool :=
  existsb (fun metric => truthy (numeric metric)) ms.

(** What one element appends after the group bookkeeping; the two branches
    of the source differ in the spelling of the dimensions line only. *)
Definition subgroupPieces (rolled : bool) (element : Element) : Result (list Piece) :=
  path <- asString (fullPath element) ;;
  props <- present (properties element) ;;
  ms <- present (metrics element) ;;
  dims <- mapM dimensionOf ms ;;
  gauges <- mapM (gaugeOf path) ms ;;
  Ok ([SubgroupHeader rolled path (formatQuery path)]
        ++ map (fun kv => PropertyDimension (fst kv)) props
        ++ concat dims
        ++ [MetricsHeader]
        ++ concat gauges
        ++ (if hasMetric ms then [] else [ConstMetric])).

Record GenState : Type := {
  groupCount : nat;
  subgroupCount : nat;
  yamlString : list Piece
}.

Definition initialState : GenState :=
  {| groupCount := 0; subgroupCount := 0;
     yamlString := [GroupsHeader; GroupHeader 0] |}.

(** The body of the innermost loop. *)
Definition addElement (st : GenState) (element : Element) : Result GenState :=
  if subgroupCount st <? 10 then
    body <- subgroupPieces false element ;;
    Ok {| groupCount := groupCount st;
          subgroupCount := subgroupCount st + 1;
          yamlString := yamlString st ++ body |}
  else
    let groupCount' := groupCount st + 1 in
    body <- subgroupPieces true element ;;
    Ok {| groupCount := groupCount';
          subgroupCount := 0 + 1;
          yamlString := yamlString st ++ [GroupHeader groupCount'] ++ body |}.

Definition addMBean (st : GenState) (mbean : str * MBean) : Result GenState :=
  elements <- present (mbean_data (snd mbean)) ;;
  foldM addElement elements st.

Definition addDomain (st : GenState) (domain : str * Domain) : Result GenState :=
  mbeans <- present (domain_data (snd domain)) ;;
  foldM addMBean mbeans st.

(** Lines 106-207: the pieces of [yamlString] when the loops are done. *)
Definition buildYaml (jmxJSON : jmxDataResponse) : Result (list Piece) :=
  domains <- present (jmxData jmxJSON) ;;
  st <- foldM addDomain domains initialState ;;
  Ok (yamlString st).

(** What there is to enumerate in a collection, if anything. *)
Definition entries {A : Type} (o : option (list A)) : list A :=
  match o with
  | Some l => l
  | None => []
  end.

(** The scraped elements in the order the loops visit them. *)
Definition elementsOf (jmxJSON : jmxDataResponse) : list Element :=
  flat_map (fun domain =>
              flat_map (fun mbean => entries (mbean_data (snd mbean)))
                       (entries (domain_data (snd domain))))
           (entries (jmxData jmxJSON)).

(** ** The editor

    The host editor's documents, positions and code actions, as far as the
    provider reads and builds them. *)

Record Position : Type := { line : nat; character : nat }.

Record Range : Type := { start : Position; end_ : Position }.

Record TextDocument : Type := { uri : str; lines : list str }.

Definition lineCount (document : TextDocument) : nat := length (lines document).

(** [document.lineAt (n).text]; the editor rejects a line that the document
    does not have. *)
Definition lineAt (document : TextDocument) (n : nat) : Result str :=
  match nth_error (lines document) n with
  | Some text => Ok text
  | None => Throw IllegalLine
  end.

Fixpoint join (sep : str) (ls : list str) : str :=
  match ls with
  | [] => []
  | [l] => l
  | l :: ls' => l ++ sep ++ join sep ls'
  end.

Definition getText (document : TextDocument) : str := join nl (lines document).

Definition isLineTerminator (c : ascii) : bool :=
  Ascii.eqb c "010" || Ascii.eqb c "013".

(** [/^pat/gm.test (text)] for a literal [pat]: with the [m] flag the caret
    matches at the start of the text and after every line terminator.
    [atStart] tells whether the caret matches where [text] begins. *)
Fixpoint testAtLineStart (pat : str) (atStart : bool) (text : str) : bool :=
  (atStart && startsWith text pat)
  || match text with
     | [] => false
     | c :: text' => testAtLineStart pat (isLineTerminator c) text'
     end.

(** The [index] of [/[a-z]/i.exec (text)], if there is a match. *)
Fixpoint execLetter (text : str) : option nat :=
  match text with
  | [] => None
  | c :: text' => if isLetter c then Some 0 else option_map S (execLetter text')
  end.

Inductive CodeActionKind : Type := QuickFix.

(** [edit.insert (uri, position, newText)] *)
Record TextInsert : Type := {
  insert_uri : str;
  insert_position : Position;
  insert_text : str
}.

Record CodeAction : Type := {
  title : str;
  kind : CodeActionKind;
  edit : TextInsert
}.

Section Insertion.

(** [indentJMXSnippet] of [codeActions/utils/snippetBuildingUtils], which
    indents a snippet by a number of columns. *)
Variable indentJMXSnippet : str -> nat -> str.

(** The snippet that is handed to [indentJMXSnippet]. *)
Definition snippetFor (textToInsert : str) (document : TextDocument) (range : Range) : str :=
  if lineCount document =? line (start range) + 1
  then nl ++ textToInsert
  else textToInsert.

(** The method is the same, character by character, in both revisions. *)
Definition createInsertAction (actionName textToInsert : str)
    (document : TextDocument) (range : Range) : Result (option CodeAction) :=
  let textToInsert := snippetFor textToInsert document range in
  text <- lineAt document (line (start range)) ;;
  match execLetter text with
  | Some indent =>
      let insertPosition := {| line := line (start range) + 1; character := 0 |} in
      Ok (Some {| title := actionName;
                  kind := QuickFix;
                  edit := {| insert_uri := uri document;
                             insert_position := insertPosition;
                             insert_text := indentJMXSnippet textToInsert indent |} |})
  | None => Ok None
  end.

End Insertion.

(** ** The provider of [src/codeActions/jmx.ts] *)

Module JmxRevision.
Section Provider.

Variable indentJMXSnippet : str -> nat -> str.

(** [getParentBlocks] of [utils/yamlParsing]; this revision calls it and
    does not read the result. *)
Variable getParentBlocks : nat -> str -> list str.

(** [this.jmxData], the cached response, if any. *)
Variable jmxData : option jmxDataResponse.

Definition actionName (data : jmxDataResponse) : str :=
  lit "Insert JMX data for " ++
  match process_name data with Some n => n | None => [] end.

Definition createQueryInsertions (data : jmxDataResponse)
    (document : TextDocument) (range : Range) : Result (list CodeAction) :=
  let codeActions := [] in
  yamlString <- buildYaml data ;;
  action <- createInsertAction indentJMXSnippet (actionName data)
              (render yamlString) document range ;;
  match action with
  | Some a => Ok (codeActions ++ [a])
  | None => Ok codeActions
  end.

(** The early return is taken when no line starts with [jmx:] or when
    nothing is cached ([!this.jmxData]). *)
Definition provideCodeActions (document : TextDocument) (range : Range)
    : Result (list CodeAction) :=
  let codeActions := [] in
  match jmxData with
  | None => Ok []
  | Some data =>
      if negb (testAtLineStart (lit "jmx:") true (getText document)) then Ok []
      else
        lineText <- lineAt document (line (start range)) ;;
        let parentBlocks := getParentBlocks (line (start range)) (getText document) in
        if includes lineText (lit "jmx:")
        then
          inserted <- createQueryInsertions data document range ;;
          Ok (codeActions ++ inserted)
        else Ok codeActions
  end.

End Provider.
End JmxRevision.

(** ** The provider of the sibling revision ([src/unnamed/part_000]) *)

Module MetricsRevision.
Section Provider.

Variable indentJMXSnippet : str -> nat -> str.
Variable getParentBlocks : nat -> str -> list str.

(** [this.jmxData]: here the cache is the list of the responses scraped so
    far, and the last one is inserted as text. *)
Variable jmxData : list str.

Definition createMetricInsertions (document : TextDocument) (range : Range)
    : Result (list CodeAction) :=
  let codeActions := [] in
  action <- createInsertAction indentJMXSnippet (lit "Insert JMX Response")
              (nth (length jmxData - 1) jmxData (lit "undefined")) document range ;;
  match action with
  | Some a => Ok (codeActions ++ [a])
  | None => Ok codeActions
  end.

(** [parentBlocks[parentBlocks.length - 1] === name] *)
Definition lastBlockIs (parentBlocks : list str) (name : str) : bool :=
  match parentBlocks with
  | [] => false
  | _ => str_eqb (nth (length parentBlocks - 1) parentBlocks []) name
  end.

Definition provideCodeActions (document : TextDocument) (range : Range)
    : Result (list CodeAction) :=
  let codeActions := [] in
  if negb (testAtLineStart (lit "jmx:") true (getText document))
     || (length jmxData =? 0)
  then Ok []
  else
    lineText <- lineAt document (line (start range)) ;;
    let parentBlocks := getParentBlocks (line (start range)) (getText document) in
    if lastBlockIs parentBlocks (lit "jmx") || lastBlockIs parentBlocks (lit "subgroups")
    then
      if includes lineText (lit "metrics:")
      then
        inserted <- createMetricInsertions document range ;;
        Ok (codeActions ++ inserted)
      else Ok codeActions
    else Ok codeActions.

End Provider.
End MetricsRevision.

(** ** Reading the scrape data and the fragment *)

Definition isString (v : JsValue) : bool :=
  match v with JStr _ => true | _ => false end.

Definition wellFormedMetric (metric : Metric) : bool := isString (name metric).

(** An element is well formed when it has what the scrape-data contract
    promises and the generator reads: a string [fullPath], a [properties]
    mapping, and a [metrics] sequence of named attributes. *)
Definition wellFormedElement (element : Element) : bool :=
  isString (fullPath element)
  && match properties element with Some _ => true | None => false end
  && match metrics element with
     | Some ms => forallb wellFormedMetric ms
     | None => false
     end.

Definition isPresent {A : Type} (o : option A) : bool :=
  match o with Some _ => true | None => false end.

(** The three levels above the elements can all be enumerated. *)
Definition levelsPresent (jmxJSON : jmxDataResponse) : bool :=
  isPresent (jmxData jmxJSON)
  && forallb (fun domain =>
                isPresent (domain_data (snd domain))
                && forallb (fun mbean => isPresent (mbean_data (snd mbean)))
                     (entries (domain_data (snd domain))))
       (entries (jmxData jmxJSON)).

(** Scrape data that has the declared shape down to the names of the
    attributes. *)
Definition wellFormedResponse (jmxJSON : jmxDataResponse) : bool :=
  levelsPresent jmxJSON && forallb wellFormedElement (elementsOf jmxJSON).

(** The cache after [setJMXData ({})]. *)
Definition emptyCache : jmxDataResponse :=
  {| process_name := None; jmxData := None |}.

(** The numeric attributes of an element, as the generator tells them. *)
Definition numericMetrics (element : Element) : list Metric :=
  match metrics element with
  | Some ms => filter (fun metric => truthy (numeric metric)) ms
  | None => []
  end.

(** The name that a group header gives its group. *)
Definition groupName (groupCount : nat) : str := lit "group_" ++ toString groupCount.

(** One pass over the pieces that counts the subgroups of each group; the
    group that is being filled comes first. *)
Definition tallyPiece (acc : list (nat * nat)) (p : Piece) : list (nat * nat) :=
  match p with
  | GroupHeader n => (n, 0) :: acc
  | SubgroupHeader _ _ _ =>
      match acc with
      | (n, k) :: acc' => (n, S k) :: acc'
      | [] => []
      end
  | _ => acc
  end.

(** The groups of a fragment, in order, each with its number of subgroups. *)
Definition groupTally (ps : list Piece) : list (nat * nat) :=
  rev (fold_left tallyPiece ps []).

Definition namedTally (ps : list Piece) : list (str * nat) :=
  map (fun gk => (groupName (fst gk), snd gk)) (groupTally ps).

(** The paths of the subgroups of a fragment, in order. *)
Definition subgroupPaths (ps : list Piece) : list str :=
  flat_map (fun p => match p with
                     | SubgroupHeader _ path _ => [path]
                     | _ => []
                     end) ps.

Definition isDimension (p : Piece) : bool :=
  match p with
  | PropertyDimension _ | AttributeDimension _ => true
  | _ => false
  end.

(** The entries of the metrics lists of a fragment. *)
Definition isMetricEntry (p : Piece) : bool :=
  match p with
  | GaugeMetric _ _ | ConstMetric => true
  | _ => false
  end.

Definition isHeader (p : Piece) : bool :=
  match p with
  | GroupsHeader | GroupHeader _ | SubgroupHeader _ _ _ => true
  | _ => false
  end.

(** [g] groups of ten subgroups each, numbered from 0. *)
Definition fullGroups (g : nat) : list (nat * nat) :=
  map (fun i => (i, 10)) (seq 0 g).

(** The counters agree with the fragment after [n] elements. *)
Definition GroupInvariant (n : nat) (st : GenState) : Prop :=
  fold_left tallyPiece (yamlString st) []
    = (groupCount st, subgroupCount st) :: rev (fullGroups (groupCount st))
  /\ subgroupCount st <= 10
  /\ 10 * groupCount st + subgroupCount st = n
  /\ (0 < n -> 1 <= subgroupCount st).

Definition raisesOnlyTypeError {A : Type} (r : Result A) : Prop :=
  forall e, r = Throw e -> e = TypeError.

(** ** Sample data *)

Definition sampleMetric (n : string) (isNumeric : bool) : Metric :=
  {| name := JStr (lit n); numeric := JBool isNumeric |}.

Definition sampleElement (path : string) (ms : list Metric) : Element :=
  {| fullPath := JStr (lit path);
     properties := Some [(lit "type", JStr (lit "Memory"))];
     metrics := Some ms |}.

Definition memoryElement : Element :=
  sampleElement "java.lang:type=Memory,name="
    [sampleMetric "HeapUsed" true; sampleMetric "Vendor" false].

(** An element whose only attribute is not numeric. *)
Definition runtimeElement : Element :=
  sampleElement "java.lang:type=Runtime" [sampleMetric "VmName" false].

(** An element with an attribute that has no name. *)
Definition namelessElement : Element :=
  {| fullPath := JStr (lit "java.lang:type=Threading");
     properties := Some [];
     metrics := Some [{| name := JUndefined; numeric := JBool true |}] |}.

Definition responseOf (groups : list (list Element)) : jmxDataResponse :=
  {| process_name := Some (lit "demo");
     jmxData :=
       Some [(lit "java.lang",
              {| domain_data :=
                   Some (map (fun es => (lit "mbean", {| mbean_data := Some es |}))
                           groups) |})] |}.

(** 23 elements, spread over two domains and three MBeans. *)
Definition response23 : jmxDataResponse :=
  {| process_name := Some (lit "demo");
     jmxData :=
       Some
         [(lit "java.lang",
           {| domain_data :=
                Some [(lit "Memory", {| mbean_data := Some (repeat memoryElement 5) |});
                      (lit "Runtime", {| mbean_data := Some (repeat runtimeElement 7) |})] |});
          (lit "java.nio",
           {| domain_data :=
                Some [(lit "BufferPool",
                       {| mbean_data := Some (repeat memoryElement 11) |})] |})] |}.

Definition jmxLineDocument : TextDocument :=
  {| uri := lit "extension.yaml"; lines := [lit "name: custom:demo"; lit "jmx:"] |}.

Definition atLine (n : nat) : Range :=
  {| start := {| line := n; character := 0 |};
     end_ := {| line := n; character := 0 |} |}.

(** [jmxLineDocument] with more lines below its last line, as after an
    insertion below the anchor. *)
Definition withLinesBelow (first : str) (rest : list str) : TextDocument :=
  {| uri := uri jmxLineDocument;
     lines := lines jmxLineDocument ++ first :: rest |}.

(** ** Further readings of the code *)

(** What the three passes of [ConvertMetricKey] make of one character. *)
Definition sanitizeChar (c : ascii) : str :=
  if isColonBarComma c then ["."]
  else if isEqualsBarSpace c then ["_"]
  else if isKeyChar c then [c]
  else [].

(** The name of an attribute that has one. *)
Definition nameOf (metric : Metric) : str :=
  match name metric with
  | JStr s => s
  | _ => []
  end.

(** The test of both loops over [element.metrics]. *)
Definition isNumeric (metric : Metric) : bool := truthy (numeric metric).

(** For every subgroup of a fragment, in order, whether it was written by
    the branch that opens a group. *)
Definition subgroupFlags (ps : list Piece) : list bool :=
  flat_map (fun p => match p with
                     | SubgroupHeader rolled _ _ => [rolled]
                     | _ => []
                     end) ps.

(** The positions 10, 20, 30, ... *)
Definition opensLaterGroup (i : nat) : bool := (0 <? i) && (i mod 10 =? 0).

(** ** Reading the text of a fragment

    The fragment is text.  What it holds is read off its lines: a group
    entry is a line [  - group: name], a subgroup entry a line
    [       - subgroup: path], and the metrics list of a subgroup is made of
    the lines between its [metrics:] line and the next entry. *)

(** [text.split] at the line terminators. *)
Fixpoint splitLines (text : str) : list str :=
  match text with
  | [] => [[]]
  | c :: text' =>
      if isLineTerminator c then [] :: splitLines text'
      else
        match splitLines text' with
        | l :: ls => (c :: l) :: ls
        | [] => [[c]]
        end
  end.

(** The lines of a text that ends with a line terminator. *)
Definition linesOf (text : str) : list str := removelast (splitLines text).

Definition isGroupLine (l : str) : bool := startsWith l (lit "  - group: ").

Definition isSubgroupLine (l : str) : bool :=
  startsWith l (lit "       - subgroup: ").

Definition isMetricsLine (l : str) : bool := str_eqb l (lit "         metrics: ").

Definition isDimensionsLine (l : str) : bool :=
  startsWith l (lit "         dimensions").

(** One pass over the lines that counts the subgroup entries of each group
    entry; the group that is being filled comes first. *)
Definition tallyLine (acc : list (str * nat)) (l : str) : list (str * nat) :=
  if isGroupLine l then (skipn 11 l, 0) :: acc
  else if isSubgroupLine l then
    match acc with
    | (n, k) :: acc' => (n, S k) :: acc'
    | [] => []
    end
  else acc.

(** The group entries of a text, in order: the name of each and the number
    of its subgroup entries. *)
Definition groupEntries (text : str) : list (str * nat) :=
  rev (fold_left tallyLine (linesOf text) []).

(** The subgroup entries of a text, in order. *)
Definition subgroupLines (text : str) : list str :=
  filter isSubgroupLine (linesOf text).

(** The [dimensions] lines of a text, in order. *)
Definition dimensionsLines (text : str) : list str :=
  filter isDimensionsLine (linesOf text).

Inductive ReadMode : Type :=
| Outside      (* before the first subgroup entry, or after a group entry *)
| InHead       (* in a subgroup entry, before its metrics line *)
| InMetrics.   (* in a subgroup entry, after its metrics line *)

(** One pass over the lines that collects the metrics list of every
    subgroup entry; the subgroup that is being read comes first, its lines
    last first. *)
Definition readLine (st : ReadMode * list (list str)) (l : str)
    : ReadMode * list (list str) :=
  let '(mode, acc) := st in
  if isSubgroupLine l then (InHead, [] :: acc)
  else if isGroupLine l then (Outside, acc)
  else
    match mode with
    | Outside => (Outside, acc)
    | InHead => if isMetricsLine l then (InMetrics, acc) else (InHead, acc)
    | InMetrics =>
        match acc with
        | cur :: acc' => (InMetrics, (l :: cur) :: acc')
        | [] => (InMetrics, [])
        end
    end.

(** For every subgroup entry of a text, in order, the lines of its metrics
    list. *)
Definition metricsLists (text : str) : list (list str) :=
  rev (map (@rev str) (snd (fold_left readLine (linesOf text) (Outside, [])))).

(** The three lines of the constant entry. *)
Definition constantEntry : list str :=
  [lit "          - key: jmx.const.value ";
   lit "            type: gauge ";
   lit "            value: const:1 "].

(** A string without a line break. *)
Definition singleLine (s : str) : bool := negb (existsb isLineTerminator s).

Definition singleLineValue (v : JsValue) : bool :=
  match v with
  | JStr s => singleLine s
  | _ => true
  end.

(** The strings of an element that reach the text hold no line break. *)
Definition singleLineElement (element : Element) : bool :=
  singleLineValue (fullPath element)
  && forallb (fun kv => singleLine (fst kv)) (entries (properties element))
  && forallb (fun metric => singleLineValue (name metric))
       (entries (metrics element)).

Definition singleLineResponse (jmxJSON : jmxDataResponse) : bool :=
  forallb singleLineElement (elementsOf jmxJSON).

(** The lines that a piece appends, without their line feeds. *)
Definition pieceLines (p : Piece) : list str :=
  match p with
  | GroupsHeader => [lit "  groups:"]
  | GroupHeader groupCount =>
      [lit "  - group: group_" ++ toString groupCount; lit "    subgroups: "]
  | SubgroupHeader rolled fullPath query =>
      [lit "       - subgroup: " ++ fullPath;
       lit "         query: " ++ query;
       if rolled then lit "         dimensions : " else lit "         dimensions: "]
  | PropertyDimension key =>
      [lit "          - key: " ++ toLowerCase key;
       lit "            value: property:" ++ key]
  | AttributeDimension name =>
      [lit "          - key: " ++ toLowerCase name;
       lit "            value: attribute:" ++ name]
  | MetricsHeader => [lit "         metrics: "]
  | GaugeMetric key name =>
      [lit "          - key: " ++ key;
       lit "            type: gauge ";
       lit "            value: attribute:" ++ name]
  | ConstMetric => constantEntry
  end.

Definition cleanPiece (p : Piece) : bool := forallb singleLine (pieceLines p).

(** The path of an element that has one. *)
Definition pathOf (element : Element) : str :=
  match fullPath element with
  | JStr s => s
  | _ => []
  end.

(** The metric entries that the generator writes for an element. *)
Definition metricPieces (element : Element) : list Piece :=
  match filter isNumeric (entries (metrics element)) with
  | [] => [ConstMetric]
  | numerics =>
      map (fun metric =>
             GaugeMetric (trueMetricKey (pathOf element) (nameOf metric))
               (nameOf metric)) numerics
  end.

(** The dimension entries that the generator writes for an element. *)
Definition dimensionPieces (element : Element) : list Piece :=
  map (fun kv => PropertyDimension (fst kv)) (entries (properties element))
  ++ map (fun metric => AttributeDimension (nameOf metric))
       (filter (fun metric => negb (isNumeric metric)) (entries (metrics element))).

(** The spelling of the dimensions line of the two branches. *)
Definition dimensionsLine (rolled : bool) : str :=
  if rolled then lit "         dimensions : " else lit "         dimensions: ".

(** 23 elements, one of them with a line break in its path. *)
Definition brokenPathElement : Element :=
  {| fullPath := JStr (lit "java.lang:type=Memory" ++ nl ++ lit "  - group: intruder");
     properties := Some [];
     metrics := Some [] |}.

Definition responseBroken23 : jmxDataResponse :=
  responseOf [brokenPathElement :: repeat runtimeElement 22].

(** An element without numeric attribute whose attribute name breaks the
    line. *)
Definition brokenNameElement : Element :=
  {| fullPath := JStr (lit "java.lang:type=Runtime");
     properties := Some [];
     metrics := Some [{| name := JStr (lit "VmName" ++ nl ++ lit "         metrics: ");
                         numeric := JBool false |}] |}.

(** ** The scraper of [src/codeLens/jmxScraper.ts]

    [JMXCodeLensProvider] asks the user for the details of an endpoint,
    requests it, and keeps the time of the last scrape for its lenses.  The
    answers of the user, the outcome of the request and the time of day are
    inputs of the model; what the provider shows and sends is a trace of
    events. *)

Module Scraper.

Inductive ScrapingMethod : Type := Endpoint | File.

Inductive JMXAuth : Type :=
| NoAuthentication | BearerToken | UsernamePassword | AwsKey.

Record JMXDetails : Type := {
  details_type : option str;
  details_dimensions : option (list str);
  details_description : option str
}.

(** The fields of the provider that its methods read or write, with the
    cached [JMXData] ([this.jmxData], written by [cachedData.setJMXData]). *)
Record Provider : Type := {
  lastScrape : str;
  method : option ScrapingMethod;
  jmxUrl : option str;
  jmxAuth : option JMXAuth;
  jmxToken : option str;
  jmxUsername : option str;
  jmxPassword : option str;
  jmxData : list (str * JMXDetails)
}.

(** The provider as its constructor leaves it, over a given cache. *)
Definition initial (cache : list (str * JMXDetails)) : Provider :=
  {| lastScrape := lit "N/A"; method := None; jmxUrl := None; jmxAuth := None;
     jmxToken := None; jmxUsername := None; jmxPassword := None;
     jmxData := cache |}.

(** What the user answers to the quick picks and input boxes of one run;
    [None] is a dismissed prompt. *)
Record User : Type := {
  pickMethod : option ScrapingMethod;
  enterUrl : option str;
  pickAuth : option JMXAuth;
  enterUsername : option str;
  enterPassword : option str
}.

Inductive Event : Type :=
| QuickPick (title : str) (items : list str)
| InputBox (title : str) (password : bool)
| Get (url : str) (auth : option (str * str))
| Fire.                               (* [_onDidChangeCodeLenses.fire ()] *)

(** [!value] is false for a string that is not empty. *)
Definition given (value : option str) : bool :=
  match value with
  | Some (_ :: _) => true
  | _ => false
  end.

Definition text (value : option str) : str :=
  match value with Some s => s | None => [] end.

Definition setMethod (p : Provider) (v : option ScrapingMethod) : Provider :=
  {| lastScrape := lastScrape p; method := v; jmxUrl := jmxUrl p;
     jmxAuth := jmxAuth p; jmxToken := jmxToken p;
     jmxUsername := jmxUsername p; jmxPassword := jmxPassword p;
     jmxData := jmxData p |}.

Definition setUrl (p : Provider) (v : option str) : Provider :=
  {| lastScrape := lastScrape p; method := method p; jmxUrl := v;
     jmxAuth := jmxAuth p; jmxToken := jmxToken p;
     jmxUsername := jmxUsername p; jmxPassword := jmxPassword p;
     jmxData := jmxData p |}.

Definition setAuth (p : Provider) (v : option JMXAuth) : Provider :=
  {| lastScrape := lastScrape p; method := method p; jmxUrl := jmxUrl p;
     jmxAuth := v; jmxToken := jmxToken p;
     jmxUsername := jmxUsername p; jmxPassword := jmxPassword p;
     jmxData := jmxData p |}.

Definition setUsername (p : Provider) (v : option str) : Provider :=
  {| lastScrape := lastScrape p; method := method p; jmxUrl := jmxUrl p;
     jmxAuth := jmxAuth p; jmxToken := jmxToken p;
     jmxUsername := v; jmxPassword := jmxPassword p;
     jmxData := jmxData p |}.

Definition setPassword (p : Provider) (v : option str) : Provider :=
  {| lastScrape := lastScrape p; method := method p; jmxUrl := jmxUrl p;
     jmxAuth := jmxAuth p; jmxToken := jmxToken p;
     jmxUsername := jmxUsername p; jmxPassword := v;
     jmxData := jmxData p |}.

Definition setJMXData (p : Provider) (v : list (str * JMXDetails)) : Provider :=
  {| lastScrape := lastScrape p; method := method p; jmxUrl := jmxUrl p;
     jmxAuth := jmxAuth p; jmxToken := jmxToken p;
     jmxUsername := jmxUsername p; jmxPassword := jmxPassword p;
     jmxData := v |}.

Definition setLastScrape (p : Provider) (v : str) : Provider :=
  {| lastScrape := v; method := method p; jmxUrl := jmxUrl p;
     jmxAuth := jmxAuth p; jmxToken := jmxToken p;
     jmxUsername := jmxUsername p; jmxPassword := jmxPassword p;
     jmxData := jmxData p |}.

Definition methodPrompt : Event :=
  QuickPick (lit "Scrape data - method selection") [lit "Endpoint"].

Definition urlPrompt : Event := InputBox (lit "Scrape data - endpoint URL") false.

Definition authPrompt : Event :=
  QuickPick (lit "Scrape data - endpoint authentication")
    [lit "No authentication"; lit "Username & password"].

Definition usernamePrompt : Event :=
  InputBox (lit "Scrape data - endpoint authentication") false.

Definition passwordPrompt : Event :=
  InputBox (lit "Scrape data - endpoint authentication") true.

(** The returned value, the provider afterwards, and the prompts shown. *)
Definition collectJMXScrapingDetails (p : Provider) (user : User)
    : bool * Provider * list Event :=
  let p := setMethod p (pickMethod user) in
  match method p with
  | Some Endpoint =>
      let p := setUrl p (enterUrl user) in
      if negb (given (jmxUrl p)) then (false, p, [methodPrompt; urlPrompt])
      else
        let p := setAuth p (pickAuth user) in
        match jmxAuth p with
        | Some NoAuthentication => (true, p, [methodPrompt; urlPrompt; authPrompt])
        | Some UsernamePassword =>
            let p := setUsername p (enterUsername user) in
            let p := setPassword p (enterPassword user) in
            let prompts := [methodPrompt; urlPrompt; authPrompt;
                            usernamePrompt; passwordPrompt] in
            if negb (given (jmxUsername p)) || negb (given (jmxPassword p))
            then (false, p, prompts)
            else (true, p, prompts)
        | _ => (false, p, [methodPrompt; urlPrompt; authPrompt])
        end
  | _ => (false, p, [methodPrompt])
  end.

(** [fulfilled] tells whether the awaited promise, the request followed by
    [processJMXData] (which stores nothing: its call of [setJMXData] is
    commented out), is fulfilled; a rejection is caught.  The result [None]
    is the [undefined] of a run that leaves the outer [switch], which has
    no default, without a [return]. *)
Definition JMXscrape (p : Provider) (fulfilled : bool)
    : option bool * list Event :=
  if negb (given (jmxUrl p)) then (Some false, [])
  else
    match method p with
    | Some Endpoint =>
        match jmxAuth p with
        | Some NoAuthentication =>
            (Some fulfilled, [Get (text (jmxUrl p)) None])
        | Some UsernamePassword =>
            if negb (given (jmxUsername p)) || negb (given (jmxPassword p))
            then (Some false, [])
            else (Some fulfilled,
                  [Get (text (jmxUrl p))
                       (Some (text (jmxUsername p), text (jmxPassword p)))])
        | _ => (Some false, [])
        end
    | _ => (None, [])
    end.

Definition succeeded (scrapeSuccess : option bool) : bool :=
  match scrapeSuccess with Some true => true | _ => false end.

(** The part of [scrapeJMXMetrics] after the details are known; [now] is
    [new Date ().toLocaleTimeString ()]. *)
Definition scrapeWithDetails (p : Provider) (fulfilled : bool) (now : str)
    : Provider * list Event :=
  let '(scrapeSuccess, requests) := JMXscrape p fulfilled in
  if succeeded scrapeSuccess
  then (setLastScrape p (lit "Last scraped at: " ++ now), requests ++ [Fire])
  else (p, requests).

Definition scrapeJMXMetrics (changeConfig : bool) (p : Provider)
    (user : User) (fulfilled : bool) (now : str) : Provider * list Event :=
  if negb (given (jmxUrl p)) || changeConfig then
    let '(details, p, prompts) := collectJMXScrapingDetails p user in
    if negb details then (p, prompts)
    else
      let p := setJMXData p [] in
      let '(p, events) := scrapeWithDetails p fulfilled now in
      (p, prompts ++ events)
  else scrapeWithDetails p fulfilled now.

(** One invocation of the command, with its inputs. *)
Record Run : Type := {
  changeConfig : bool;
  user : User;
  fulfilled : bool;
  now : str
}.

(** The provider and the whole trace after a sequence of invocations. *)
Fixpoint runs (p : Provider) (rs : list Run) : Provider * list Event :=
  match rs with
  | [] => (p, [])
  | r :: rs' =>
      let '(p1, events) :=
        scrapeJMXMetrics (changeConfig r) p (user r) (fulfilled r) (now r) in
      let '(p2, events') := runs p1 rs' in
      (p2, events ++ events')
  end.

Record Command : Type := {
  command_title : str;
  tooltip : str;
  command : str;
  arguments : list bool
}.

Record CodeLens : Type := { lens_range : Range; lens_command : Command }.

(** The body of the loop of [provideCodeLenses]: the lenses pushed for one
    match of [/^(jmx:)/gm] whose word range is [range]. *)
Definition lensesFor (p : Provider) (range : Range) : list CodeLens :=
  let scrapedMetrics := length (jmxData p) in
  let neverScraped := str_eqb (lastScrape p) (lit "N/A") in
  [{| lens_range := range;
      lens_command :=
        {| command_title := lit "Scrape data";
           tooltip := lit "Connect to an exporter or read a file and scrape metrics, then use them in the Extension.";
           command := lit "dynatrace-extensions.codelens.scrapeJMXMetrics";
           arguments := [] |} |}]
  ++ (if negb neverScraped
      then [{| lens_range := range;
               lens_command :=
                 {| command_title := lit "Edit config";
                    tooltip := lit "Make changes to the scraping configuration.";
                    command := lit "dynatrace-extensions.codelens.scrapeJMXMetrics";
                    arguments := [true] |} |}]
      else [])
  ++ [{| lens_range := range;
         lens_command :=
           {| command_title :=
                if neverScraped then lastScrape p
                else toString scrapedMetrics ++ lit " metrics ("
                       ++ skipn 5 (lastScrape p) ++ lit ")";
              tooltip :=
                if neverScraped then lit "Data has not been scraped yet."
                else lastScrape p ++ lit ". Found " ++ toString scrapedMetrics
                       ++ lit " metrics.";
              command := [];
              arguments := [] |} |}].

Definition isFire (e : Event) : bool :=
  match e with Fire => true | _ => false end.

Definition isGet (e : Event) : bool :=
  match e with Get _ _ => true | _ => false end.

Definition isPrompt (e : Event) : bool :=
  match e with QuickPick _ _ | InputBox _ _ => true | _ => false end.

End Scraper.

(** ** Opening a screen ([openScreen] of [src/unnamed/part_001])

    The awaited calls are inputs: the current environment and the entities
    found on it may each be a value or a rejection; the opening of a page is
    taken to succeed.  What the method does is the list of its calls to the
    editor and to the API client. *)

Module Screens.

Inductive Awaited (A : Type) : Type :=
| Fulfilled (a : A)
| Rejected.

Arguments Fulfilled {A} a.
Arguments Rejected {A}.

Inductive ScreenType : Type := ListScreen | DetailsScreen.

Record Tenant : Type := { url : str }.

Inductive Effect : Type :=
| OpenExternal (uri : str)
| ListEntities (selector from : str)
| ShowMessage (level message : str).

Definition couldNotOpen : Effect :=
  ShowMessage (lit "warn") (lit "Could not open screen.").

(** [tenant] is [None] when no environment is connected; the method reads
    [tenant.url] before it tests [tenant], which throws into the [catch]. *)
Definition openScreen (entityType : str) (screenType : ScreenType)
    (environment : Awaited (option Tenant))
    (entities : Awaited (list str)) : list Effect :=
  match environment with
  | Rejected => [couldNotOpen]
  | Fulfilled None => [couldNotOpen]
  | Fulfilled (Some tenant) =>
      let baseUrl :=
        if includes (url tenant) (lit ".apps")
        then url tenant ++ lit "/ui/apps/dynatrace.classic.technologies"
        else url tenant in
      match screenType with
      | ListScreen =>
          [OpenExternal (baseUrl ++ lit "/ui/entity/list/" ++ entityType)]
      | DetailsScreen =>
          ListEntities (lit "type(" ++ ["034"] ++ entityType ++ ["034"] ++ lit ")")
                       (lit "now-5m")
          :: match entities with
             | Rejected => [couldNotOpen]
             | Fulfilled [] =>
                 [ShowMessage (lit "error")
                    (lit "No entities of this type were found in your tenant.")]
             | Fulfilled (entityId :: _) =>
                 [OpenExternal (baseUrl ++ lit "/ui/entity/" ++ entityId)]
             end
      end
  end.

(** What the user gets to see of an effect. *)
Definition isVisible (e : Effect) : bool :=
  match e with
  | ListEntities _ _ => false
  | _ => true
  end.

End Screens.

(** ** The catalogue of diagnostics ([src/unnamed/part_002]) *)

Module Diagnostics.

Inductive DiagnosticSeverity : Type := Error | Warning.

Record ExtensionDiagnostic : Type := {
  code : str;
  severity : DiagnosticSeverity;
  message : str
}.

Record Diagnostic : Type := {
  diagnostic_range : Range;
  diagnostic_message : str;
  diagnostic_code : str;
  diagnostic_severity : DiagnosticSeverity;
  source : str
}.

Definition extensionDiagnostic (startPos endPos : Position)
    (diagnostic : ExtensionDiagnostic) : Diagnostic :=
  {| diagnostic_range := {| start := startPos; end_ := endPos |};
     diagnostic_message := message diagnostic;
     diagnostic_code := code diagnostic;
     diagnostic_severity := severity diagnostic;
     source := lit "Dynatrace Extensions" |}.

Definition quoted (s : string) : str := ["034"] ++ lit s ++ ["034"].

Definition EXTENSION_NAME_MISSING : ExtensionDiagnostic :=
  {| code := lit "DED001"; severity := Error;
     message := lit "Extension name is mandatory, but missing." |}.

Definition EXTENSION_NAME_TOO_LONG : ExtensionDiagnostic :=
  {| code := lit "DED002"; severity := Error;
     message := lit "Extension name must not be longer than 50 characters." |}.

Definition EXTENSION_NAME_INVALID : ExtensionDiagnostic :=
  {| code := lit "DED003"; severity := Error;
     message :=
       lit "Extension name is invalid. "
       ++ lit "Must only contain lowercase letters, numbers, hyphens, underscores, or dots." |}.

Definition EXTENSION_NAME_NON_CUSTOM : ExtensionDiagnostic :=
  {| code := lit "DED004"; severity := Error;
     message :=
       lit "Only custom extensions can be built (name must start with "
       ++ quoted "custom:" ++ lit ")" |}.

Definition EXTENSION_NAME_CUSTOM_ON_BITBUCKET : ExtensionDiagnostic :=
  {| code := lit "DED005"; severity := Warning;
     message := lit "BitBucket-linked extensions should not have custom names" |}.

Definition COUNT_METRIC_KEY_SUFFIX : ExtensionDiagnostic :=
  {| code := lit "DED006"; severity := Warning;
     message :=
       lit "Metrics of type count should have keys ending in "
       ++ quoted ".count" ++ lit " or " ++ quoted "_count" |}.

Definition GAUGE_METRIC_KEY_SUFFIX : ExtensionDiagnostic :=
  {| code := lit "DED007"; severity := Warning;
     message :=
       lit "Metrics of type gauge should not have keys ending in "
       ++ quoted ".count" ++ lit " or " ++ quoted "_count" |}.

Definition REFERENCED_CARD_NOT_DEFINED : ExtensionDiagnostic :=
  {| code := lit "DED008"; severity := Error;
     message := lit "This card is referenced in layout but does not have a definition within this screen" |}.

Definition DEFINED_CARD_NOT_REFERENCED : ExtensionDiagnostic :=
  {| code := lit "DED009"; severity := Warning;
     message := lit "This card is defined but is not referenced within the screen layout" |}.

Definition OID_DOES_NOT_EXIST : ExtensionDiagnostic :=
  {| code := lit "DED010"; severity := Warning;
     message := lit "The existence of this OID could not be verified." |}.

Definition OID_NOT_READABLE : ExtensionDiagnostic :=
  {| code := lit "DED011"; severity := Error;
     message := lit "This OID is not readable (MAX-ACCESS does not allow reading)." |}.

Definition OID_STRING_AS_METRIC : ExtensionDiagnostic :=
  {| code := lit "DED012"; severity := Error;
     message := lit "This OID returns a string but it's being used as a numerical metric value." |}.

Definition OID_COUNTER_AS_GAUGE : ExtensionDiagnostic :=
  {| code := lit "DED013"; severity := Warning;
     message := lit "This OID returns a Counter but is being used as a Gauge metric." |}.

Definition OID_GAUGE_AS_COUNTER : ExtensionDiagnostic :=
  {| code := lit "DED014"; severity := Warning;
     message := lit "This OID returns a Gauge but is being used as a Counter metric." |}.

Definition OID_SYNTAX_INVALID : ExtensionDiagnostic :=
  {| code := lit "DED015"; severity := Error;
     message := lit "Invalid OID syntax. OID must not start/end with '.' and may only contain dots and digits." |}.

Definition OID_DOT_ZERO_IN_TABLE : ExtensionDiagnostic :=
  {| code := lit "DED016"; severity := Error;
     message := lit "Invalid OID syntax. OIDs must not end in '.0' when part of a 'table' subgroup." |}.

Definition OID_DOT_ZERO_MISSING : ExtensionDiagnostic :=
  {| code := lit "DED017"; severity := Error;
     message := lit "Invalid OID syntax. OIDs must end in '.0' when they are not part of a 'table' subgroup." |}.

Definition OID_STATIC_OBJ_IN_TABLE : ExtensionDiagnostic :=
  {| code := lit "DED018"; severity := Error;
     message := lit "Type conflict. This OID is static but being used inside a 'table' subgroup." |}.

Definition OID_TABLE_OBJ_AS_STATIC : ExtensionDiagnostic :=
  {| code := lit "DED019"; severity := Error;
     message :=
       lit "Type conflict. "
       ++ lit "This OID maps to table entries but is not being used inside a 'table' subgroup." |}.

(** The exported constants, in the order of the file. *)
Definition catalogue : list ExtensionDiagnostic :=
  [EXTENSION_NAME_MISSING; EXTENSION_NAME_TOO_LONG; EXTENSION_NAME_INVALID;
   EXTENSION_NAME_NON_CUSTOM; EXTENSION_NAME_CUSTOM_ON_BITBUCKET;
   COUNT_METRIC_KEY_SUFFIX; GAUGE_METRIC_KEY_SUFFIX;
   REFERENCED_CARD_NOT_DEFINED; DEFINED_CARD_NOT_REFERENCED;
   OID_DOES_NOT_EXIST; OID_NOT_READABLE; OID_STRING_AS_METRIC;
   OID_COUNTER_AS_GAUGE; OID_GAUGE_AS_COUNTER; OID_SYNTAX_INVALID;
   OID_DOT_ZERO_IN_TABLE; OID_DOT_ZERO_MISSING; OID_STATIC_OBJ_IN_TABLE;
   OID_TABLE_OBJ_AS_STATIC].

End Diagnostics.

(** * Properties *)

(** ** Characters and strings *)

Ltac by_cases_on_char c :=
  destruct c as [[] [] [] [] [] [] [] []]; reflexivity.

Lemma toLowerChar_idem (c : ascii) : toLowerChar (toLowerChar c) = toLowerChar c.
Proof. by_cases_on_char c. Qed.

Lemma toLowerChar_not_upper (c : ascii) : isUpper (toLowerChar c) = false.
Proof. by_cases_on_char c. Qed.

Lemma toLowerChar_keyChar (c : ascii) : isKeyChar (toLowerChar c) = isKeyChar c.
Proof. by_cases_on_char c. Qed.

Lemma toLowerChar_fixed (c : ascii) : toLowerChar c = c <-> isUpper c = false.
Proof.
  destruct c as [[] [] [] [] [] [] [] []]; vm_compute;
    split; intro H; solve [reflexivity | discriminate H].
Qed.

Lemma toLowerCase_idem (s : str) : toLowerCase (toLowerCase s) = toLowerCase s.
Proof.
  unfold toLowerCase. rewrite map_map. apply map_ext. apply toLowerChar_idem.
Qed.

Lemma toLowerCase_app (a b : str) :
  toLowerCase (a ++ b) = toLowerCase a ++ toLowerCase b.
Proof. apply map_app. Qed.

Lemma toLowerCase_fixed (s : str) :
  toLowerCase s = s <-> Forall (fun c => isUpper c = false) s.
Proof.
  induction s as [|c s IH]; simpl.
  - split; auto.
  - split.
    + intro H. injection H as Hc Hs. constructor.
      * now apply toLowerChar_fixed.
      * now apply IH.
    + intro H. inversion H as [|? ? Hc Hs]; subst. f_equal.
      * now apply toLowerChar_fixed.
      * now apply IH.
Qed.

Lemma replaceClass_Forall (P : ascii -> Prop) cls (r s : str) :
  Forall P r -> Forall P s -> Forall P (replaceClass cls r s).
Proof.
  intros Hr Hs. induction Hs as [|c s Hc Hs IH]; simpl.
  - constructor.
  - apply Forall_app. split; [|exact IH].
    destruct (cls c); [exact Hr | now constructor].
Qed.

Lemma remove_Forall (keep : ascii -> bool) (s : str) :
  Forall (fun c => keep c = true) (replaceClass (fun c => negb (keep c)) [] s).
Proof.
  induction s as [|c s IH]; simpl.
  - constructor.
  - destruct (keep c) eqn:K; simpl; [constructor|]; assumption.
Qed.

Lemma slice0_prefix (s : str) (e : Z) :
  exists rest, s = slice0 s e ++ rest.
Proof.
  unfold slice0. eexists. symmetry. apply firstn_skipn.
Qed.

Lemma slice0_length (s : str) (e : Z) :
  (0 <= e)%Z -> length (slice0 s e) <= Z.to_nat e.
Proof.
  intro He. unfold slice0.
  destruct (e <? 0)%Z eqn:Neg; [apply Z.ltb_lt in Neg; lia|].
  rewrite length_firstn. lia.
Qed.

Lemma Forall_prefix {A} (P : A -> Prop) (a b : list A) :
  Forall P (a ++ b) -> Forall P a.
Proof. intro H. apply Forall_app in H. tauto. Qed.

Lemma slice0_Forall (P : ascii -> Prop) (s : str) (e : Z) :
  Forall P s -> Forall P (slice0 s e).
Proof.
  intro H. destruct (slice0_prefix s e) as [rest E].
  rewrite E in H. exact (Forall_prefix _ _ _ H).
Qed.

(** ** The metric key *)

Lemma ConvertMetricKey_keyChars (fullPath : str) :
  Forall (fun c => isKeyChar c = true) (ConvertMetricKey fullPath).
Proof.
  unfold ConvertMetricKey. apply Forall_app. split.
  - apply remove_Forall.
  - now repeat constructor.
Qed.

Lemma ConvertMetricKey_case (fullPath : str) :
  Forall (fun c => isUpper c = false) fullPath ->
  Forall (fun c => isUpper c = false) (ConvertMetricKey fullPath).
Proof.
  intro H. unfold ConvertMetricKey. apply Forall_app. split.
  - repeat apply replaceClass_Forall; solve [exact H | now repeat constructor].
  - now repeat constructor.
Qed.

(** The emitted key is a prefix of the sanitized path, possibly a dot, and
    the lower-cased attribute name. *)
Lemma trueMetricKey_shape (fullPath name : str) :
  exists p sep rest,
    trueMetricKey fullPath name = p ++ sep ++ toLowerCase name
    /\ ConvertMetricKey fullPath = p ++ rest
    /\ (sep = [] \/ sep = ["."]).
Proof.
  unfold trueMetricKey. cbv zeta.
  destruct (250 <? _).
  - destruct (slice0_prefix (ConvertMetricKey fullPath)
                (249 - Z.of_nat (length (toLowerCase name)))) as [rest E].
    exists (slice0 (ConvertMetricKey fullPath)
              (249 - Z.of_nat (length (toLowerCase name)))), ["."], rest.
    auto.
  - exists (ConvertMetricKey fullPath), [], []. rewrite app_nil_r. auto.
Qed.

(** C1, as amended.  The length bound holds when the attribute name has at
    most 249 characters; the key has only characters of [[a-zA-Z0-9_.]] when
    the attribute name has; the key is lowercase when the path has no
    upper-case letter.  The path is not lower-cased and the attribute name
    is not sanitized. *)
Theorem C1_sanitized_key (fullPath name : str) :
  (length name <= 249 -> length (trueMetricKey fullPath name) <= 250)
  /\ (forallb isKeyChar name = true ->
      forallb isKeyChar (trueMetricKey fullPath name) = true)
  /\ (toLowerCase fullPath = fullPath ->
      toLowerCase (trueMetricKey fullPath name) = trueMetricKey fullPath name).
Proof.
  split; [|split].
  - intro Hn. unfold trueMetricKey. cbv zeta.
    destruct (250 <? _) eqn:Long.
    + pose proof (slice0_length (ConvertMetricKey fullPath)
                    (249 - Z.of_nat (length (toLowerCase name)))) as Hs.
      unfold toLowerCase in *. rewrite !length_app, !length_map in *.
      change (length ["."]) with 1. lia.
    + apply Nat.ltb_ge in Long. exact Long.
  - intro Hn. apply forallb_forall. apply Forall_forall.
    rewrite forallb_forall in Hn. apply Forall_forall in Hn.
    destruct (trueMetricKey_shape fullPath name) as (p & sep & rest & -> & E & Hsep).
    pose proof (ConvertMetricKey_keyChars fullPath) as K. rewrite E in K.
    apply Forall_app. split; [exact (Forall_prefix _ _ _ K)|].
    apply Forall_app. split.
    + destruct Hsep as [-> | ->]; now repeat constructor.
    + unfold toLowerCase. apply Forall_map.
      eapply Forall_impl; [|exact Hn]. intros c Hc.
      now rewrite toLowerChar_keyChar.
  - intro Hp. apply toLowerCase_fixed in Hp. apply toLowerCase_fixed.
    destruct (trueMetricKey_shape fullPath name) as (p & sep & rest & -> & E & Hsep).
    pose proof (ConvertMetricKey_case fullPath Hp) as K. rewrite E in K.
    apply Forall_app. split; [exact (Forall_prefix _ _ _ K)|].
    apply Forall_app. split.
    + destruct Hsep as [-> | ->]; now repeat constructor.
    + unfold toLowerCase. apply Forall_map. apply Forall_forall.
      intros c _. apply toLowerChar_not_upper.
Qed.

(** C1, as the specification states it, fails: the path keeps its case,
    the attribute name keeps characters outside of the whitelist, and an
    attribute name of 250 characters makes a key longer than 250. *)
Lemma C1_counterexample :
  let key := trueMetricKey (lit "Domain:type=Foo") (lit "Heap-Used") in
  key = lit "Domain.type_Foo.heap-used"
  /\ toLowerCase key <> key
  /\ forallb isKeyChar key = false
  /\ length (trueMetricKey (lit "a") (repeat "x" 250)) = 252.
Proof.
  vm_compute. repeat split; try reflexivity. discriminate.
Qed.

Lemma C1_sanitized_key_witness :
  let key := trueMetricKey (lit "java.lang:type=memory") (lit "HeapUsed") in
  length key <= 250 /\ forallb isKeyChar key = true /\ toLowerCase key = key.
Proof.
  destruct (C1_sanitized_key (lit "java.lang:type=memory") (lit "HeapUsed"))
    as (Hlen & Hchars & Hcase).
  split; [|split].
  - apply Hlen. vm_compute. lia.
  - apply Hchars. reflexivity.
  - apply Hcase. reflexivity.
Defined.

Lemma str_eqb_refl (s : str) : str_eqb s s = true.
Proof.
  induction s as [|c s IH]; simpl; [reflexivity|].
  now rewrite Ascii.eqb_refl, IH.
Qed.

Lemma endsWith_app (a x : str) : endsWith (a ++ x) x = true.
Proof.
  unfold endsWith. rewrite length_app.
  replace (length a + length x - length x) with (length a) by lia.
  rewrite skipn_app, skipn_all, Nat.sub_diag. simpl.
  rewrite str_eqb_refl, andb_true_r. apply Nat.leb_le. lia.
Qed.

Lemma endsWith_snoc (q : str) (x c : ascii) :
  endsWith (q ++ [x]) [c] = Ascii.eqb x c.
Proof.
  unfold endsWith. rewrite length_app. simpl length.
  replace (length q + 1 - 1) with (length q) by lia.
  assert (L : (1 <=? length q + 1) = true) by (apply Nat.leb_le; lia).
  rewrite L, skipn_app, skipn_all, Nat.sub_diag. simpl.
  now rewrite andb_true_r.
Qed.

(** C2.  When the concatenated key is longer than 250 characters, the final
    key is a prefix of the sanitized path followed by a dot and the whole
    lower-cased attribute name. *)
Theorem C2_truncation_keeps_suffix (fullPath name : str) :
  250 < length (ConvertMetricKey fullPath ++ toLowerCase name) ->
  exists p rest,
    trueMetricKey fullPath name = p ++ ["."] ++ toLowerCase name
    /\ ConvertMetricKey fullPath = p ++ rest
    /\ endsWith (trueMetricKey fullPath name) ("." :: toLowerCase name) = true.
Proof.
  intro Long. apply Nat.ltb_lt in Long.
  unfold trueMetricKey. cbv zeta. rewrite Long.
  destruct (slice0_prefix (ConvertMetricKey fullPath)
              (249 - Z.of_nat (length (toLowerCase name)))) as [rest E].
  exists (slice0 (ConvertMetricKey fullPath)
            (249 - Z.of_nat (length (toLowerCase name)))), rest.
  split; [reflexivity|]. split; [exact E|].
  apply (endsWith_app _ ("." :: toLowerCase name)).
Qed.

Lemma C2_truncation_keeps_suffix_witness :
  exists p rest,
    trueMetricKey (repeat "a" 250) (lit "Count") = p ++ ["."] ++ lit "count"
    /\ ConvertMetricKey (repeat "a" 250) = p ++ rest
    /\ endsWith (trueMetricKey (repeat "a" 250) (lit "Count")) (lit ".count") = true.
Proof.
  apply (C2_truncation_keeps_suffix (repeat "a" 250) (lit "Count")).
  apply Nat.ltb_lt. vm_compute. reflexivity.
Defined.

(** ** The query *)

Lemma pair_induction (P : str -> Prop) :
  P [] ->
  (forall c, P [c]) ->
  (forall c d s, P s -> P (d :: s) -> P (c :: d :: s)) ->
  forall s, P s.
Proof.
  intros H0 H1 H2 s.
  assert (P s /\ forall c, P (c :: s)) as [H _]; [|exact H].
  induction s as [|d s [IHs IHc]]; split; auto.
Qed.

Lemma replaceEqualsComma_cons2 (c d : ascii) (rest : str) :
  replaceEqualsComma (c :: d :: rest) =
  if Ascii.eqb c "=" && Ascii.eqb d ","
  then "=" :: "*" :: "," :: replaceEqualsComma rest
  else c :: replaceEqualsComma (d :: rest).
Proof. reflexivity. Qed.

Lemma replaceEqualsComma_head (s : str) :
  hd_error (replaceEqualsComma s) = hd_error s.
Proof.
  destruct s as [|c [|d rest]]; try reflexivity.
  rewrite replaceEqualsComma_cons2.
  destruct (Ascii.eqb c "=") eqn:Ec; simpl; [|reflexivity].
  apply Ascii.eqb_eq in Ec. subst c. now destruct (Ascii.eqb d ",").
Qed.

Lemma replaceEqualsComma_app (a b : str) :
  replaceEqualsComma (a ++ lit "=," ++ b) =
  replaceEqualsComma a ++ lit "=*," ++ replaceEqualsComma b.
Proof.
  induction a as [|c|c d a IHa IHda] using pair_induction.
  - reflexivity.
  - change (replaceEqualsComma ("=" :: "," :: b))
      with ("=" :: "*" :: "," :: replaceEqualsComma b) in *.
    change (([c] ++ lit "=," ++ b)) with (c :: "=" :: "," :: b).
    rewrite replaceEqualsComma_cons2, andb_false_r.
    reflexivity.
  - change ((c :: d :: a) ++ lit "=," ++ b) with (c :: d :: (a ++ lit "=," ++ b)).
    rewrite !replaceEqualsComma_cons2.
    destruct (Ascii.eqb c "=" && Ascii.eqb d ",").
    + rewrite IHa. reflexivity.
    + change (d :: a ++ lit "=," ++ b) with ((d :: a) ++ lit "=," ++ b).
      rewrite IHda. reflexivity.
Qed.

Lemma replaceEqualsComma_last (s : str) (x : ascii) :
  exists q, replaceEqualsComma (s ++ [x]) = q ++ [x].
Proof.
  induction s as [|c|c d s IHs IHds] using pair_induction.
  - now exists [].
  - change ([c] ++ [x]) with [c; x]. rewrite replaceEqualsComma_cons2.
    destruct (Ascii.eqb c "=") eqn:Ec, (Ascii.eqb x ",") eqn:Ex; simpl.
    + apply Ascii.eqb_eq in Ex. subst x. now exists (lit "=*").
    + now exists [c].
    + now exists [c].
    + now exists [c].
  - change ((c :: d :: s) ++ [x]) with (c :: d :: (s ++ [x])).
    rewrite replaceEqualsComma_cons2.
    destruct (Ascii.eqb c "=" && Ascii.eqb d ",").
    + destruct IHs as [q ->]. now exists ("=" :: "*" :: "," :: q).
    + change (d :: s ++ [x]) with ((d :: s) ++ [x]).
      destruct IHds as [q ->]. now exists (c :: q).
Qed.

Lemma replaceEqualsComma_endsWith (s : str) (c : ascii) :
  endsWith (replaceEqualsComma s) [c] = endsWith s [c].
Proof.
  destruct s as [|x s _] using rev_ind; [reflexivity|].
  destruct (replaceEqualsComma_last s x) as [q ->].
  now rewrite !endsWith_snoc.
Qed.

Lemma replaceEqualsComma_clean (s : str) :
  includes (replaceEqualsComma s) (lit "=,") = false.
Proof.
  induction s as [|c|c d s IHs IHds] using pair_induction.
  - reflexivity.
  - simpl. now rewrite !andb_false_r.
  - rewrite replaceEqualsComma_cons2.
    destruct (Ascii.eqb c "=" && Ascii.eqb d ",") eqn:M.
    + simpl. simpl in IHs. rewrite IHs. reflexivity.
    + change (includes (c :: replaceEqualsComma (d :: s)) (lit "=,"))
        with (startsWith (c :: replaceEqualsComma (d :: s)) (lit "=,")
              || includes (replaceEqualsComma (d :: s)) (lit "=,")).
      rewrite IHds, orb_false_r.
      pose proof (replaceEqualsComma_head (d :: s)) as Hd.
      destruct (replaceEqualsComma (d :: s)) as [|d' t]; [discriminate Hd|].
      injection Hd as ->. cbn [startsWith list_ascii_of_string].
      rewrite (Ascii.eqb_sym "=" c), (Ascii.eqb_sym "," d), andb_true_r.
      exact M.
Qed.

(** C4.  [formatQuery] rewrites every [=,] to [=*,], leaving none behind,
    and appends a star to a path that ends with [=]; the two selectors of
    the specification come out as stated. *)
Theorem C4_formatQuery :
  formatQuery (lit "Domain:type=Foo,name=") = lit "Domain:type=Foo,name=*"
  /\ formatQuery (lit "Domain:type=Foo,name=,sub=X") = lit "Domain:type=Foo,name=*,sub=X"
  /\ (forall s : str,
        formatQuery s =
        replaceEqualsComma s ++ (if endsWith s ["="] then ["*"] else []))
  /\ (forall a b : str,
        replaceEqualsComma (a ++ lit "=," ++ b) =
        replaceEqualsComma a ++ lit "=*," ++ replaceEqualsComma b)
  /\ (forall s : str, includes (replaceEqualsComma s) (lit "=,") = false)
  /\ (forall s : str, endsWith (formatQuery s) ["="] = false).
Proof.
  repeat split; try reflexivity.
  - intro s. unfold formatQuery. cbv zeta.
    rewrite replaceEqualsComma_endsWith.
    destruct (endsWith s ["="]); [reflexivity | now rewrite app_nil_r].
  - apply replaceEqualsComma_app.
  - apply replaceEqualsComma_clean.
  - intro s. unfold formatQuery. cbv zeta.
    destruct (endsWith (replaceEqualsComma s) ["="]) eqn:E; [|exact E].
    now rewrite endsWith_snoc.
Qed.

(** ** The generator *)

Lemma bind_Ok {A B : Type} (c : Result A) (k : A -> Result B) (b : B) :
  bind c k = Ok b -> exists a, c = Ok a /\ k a = Ok b.
Proof. destruct c; simpl; intro H; [eauto | discriminate]. Qed.

Lemma bind_Throw {A B : Type} (c : Result A) (k : A -> Result B) (e : Exn) :
  bind c k = Throw e -> c = Throw e \/ exists a, c = Ok a /\ k a = Throw e.
Proof.
  destruct c; simpl; intro H; [right; eauto | injection H as ->; now left].
Qed.

Ltac invert_bind H :=
  let a := fresh "a" in
  let Ha := fresh "H" a in
  apply bind_Ok in H; destruct H as (a & Ha & H).

Lemma foldM_app {A S : Type} (f : S -> A -> Result S) (a b : list A) (s : S) :
  foldM f (a ++ b) s = (s' <- foldM f a s ;; foldM f b s').
Proof.
  revert s. induction a as [|x a IH]; intro s; simpl; [reflexivity|].
  destruct (f s x); simpl; auto.
Qed.

Lemma foldM_flat_map {A B S : Type}
    (f : S -> B -> Result S) (g : A -> list B) (l : list A) (s : S) :
  foldM (fun s x => foldM f (g x) s) l s = foldM f (flat_map g l) s.
Proof.
  revert s. induction l as [|x l IH]; intro s; simpl; [reflexivity|].
  rewrite foldM_app. destruct (foldM f (g x) s); simpl; auto.
Qed.

Lemma flat_map_flat_map {A B C : Type}
    (f : B -> list C) (g : A -> list B) (l : list A) :
  flat_map f (flat_map g l) = flat_map (fun x => flat_map f (g x)) l.
Proof.
  induction l as [|x l IH]; simpl; [reflexivity|].
  now rewrite flat_map_app, IH.
Qed.

Lemma foldM_mbeans (mbeans : list (str * MBean)) (st : GenState) :
  forallb (fun mbean => isPresent (mbean_data (snd mbean))) mbeans = true ->
  foldM addMBean mbeans st
  = foldM addElement
      (flat_map (fun mbean => entries (mbean_data (snd mbean))) mbeans) st.
Proof.
  revert st. induction mbeans as [|mbean mbeans IH]; intros st H; [reflexivity|].
  simpl in H. apply andb_true_iff in H as [Hm Hrest].
  simpl. rewrite foldM_app. unfold addMBean at 1.
  destruct (mbean_data (snd mbean)) as [es|]; [|discriminate Hm]. simpl.
  destruct (foldM addElement es st); simpl; [now apply IH | reflexivity].
Qed.

Lemma foldM_domains (domains : list (str * Domain)) (st : GenState) :
  forallb (fun domain =>
             isPresent (domain_data (snd domain))
             && forallb (fun mbean => isPresent (mbean_data (snd mbean)))
                  (entries (domain_data (snd domain)))) domains = true ->
  foldM addDomain domains st
  = foldM addElement
      (flat_map (fun domain =>
                   flat_map (fun mbean => entries (mbean_data (snd mbean)))
                     (entries (domain_data (snd domain)))) domains) st.
Proof.
  revert st. induction domains as [|domain domains IH]; intros st H; [reflexivity|].
  simpl in H. apply andb_true_iff in H as [Hd Hrest].
  apply andb_true_iff in Hd as [Hd Hmbeans].
  simpl. rewrite foldM_app. unfold addDomain at 1.
  destruct (domain_data (snd domain)) as [mbeans|]; [|discriminate Hd]. simpl.
  simpl in Hmbeans. rewrite (foldM_mbeans mbeans st Hmbeans).
  destruct (foldM addElement _ st); simpl; [now apply IH | reflexivity].
Qed.

(** When every level can be enumerated, the three nested loops visit the
    elements of [elementsOf] in order. *)
Lemma buildYaml_flat (jmxJSON : jmxDataResponse) :
  levelsPresent jmxJSON = true ->
  buildYaml jmxJSON =
  (st <- foldM addElement (elementsOf jmxJSON) initialState ;; Ok (yamlString st)).
Proof.
  unfold levelsPresent, buildYaml, elementsOf. intro H.
  apply andb_true_iff in H as [Hp Hlevels].
  destruct (jmxData jmxJSON) as [domains|]; [|discriminate Hp]. simpl.
  simpl in Hlevels. now rewrite (foldM_domains domains initialState Hlevels).
Qed.

Lemma mapM_Forall {A B : Type} (f : A -> Result B) (P : B -> Prop)
    (l : list A) (bs : list B) :
  (forall a b, f a = Ok b -> P b) -> mapM f l = Ok bs -> Forall P bs.
Proof.
  intro Hf. revert bs. induction l as [|x l IH]; simpl; intros bs H.
  - injection H as <-. constructor.
  - invert_bind H. invert_bind H. injection H as <-. constructor; eauto.
Qed.

Lemma dimensionOf_entries (metric : Metric) (ps : list Piece) :
  dimensionOf metric = Ok ps -> Forall (fun p => isDimension p = true) ps.
Proof.
  unfold dimensionOf. destruct (truthy (numeric metric)); simpl.
  - intros [= <-]. constructor.
  - intro H. invert_bind H. injection H as <-. now repeat constructor.
Qed.

Lemma gaugeOf_entries (path : str) (metric : Metric) (ps : list Piece) :
  gaugeOf path metric = Ok ps -> Forall (fun p => isMetricEntry p = true) ps.
Proof.
  unfold gaugeOf. destruct (truthy (numeric metric)); simpl.
  - intro H. invert_bind H. injection H as <-. now repeat constructor.
  - intros [= <-]. constructor.
Qed.

(** What a successful run of the loop body appends for one element. *)
Lemma subgroupPieces_Ok (rolled : bool) (element : Element) (body : list Piece) :
  subgroupPieces rolled element = Ok body ->
  exists path props ms dims gauges,
    fullPath element = JStr path
    /\ properties element = Some props
    /\ metrics element = Some ms
    /\ mapM dimensionOf ms = Ok dims
    /\ mapM (gaugeOf path) ms = Ok gauges
    /\ body = [SubgroupHeader rolled path (formatQuery path)]
                ++ map (fun kv => PropertyDimension (fst kv)) props
                ++ concat dims
                ++ [MetricsHeader]
                ++ concat gauges
                ++ (if hasMetric ms then [] else [ConstMetric]).
Proof.
  unfold subgroupPieces. intro H.
  destruct (fullPath element) as [| | | |path|]; try discriminate H.
  destruct (properties element) as [props|]; [|discriminate H].
  destruct (metrics element) as [ms|]; [|discriminate H].
  simpl in H. invert_bind H. invert_bind H. injection H as <-.
  exists path, props, ms, a, a0. auto 10.
Qed.

Lemma subgroupPieces_shape (rolled : bool) (element : Element) (body : list Piece) :
  subgroupPieces rolled element = Ok body ->
  exists path rest,
    fullPath element = JStr path
    /\ body = SubgroupHeader rolled path (formatQuery path) :: rest
    /\ Forall (fun p => isHeader p = false) rest.
Proof.
  intro H. apply subgroupPieces_Ok in H.
  destruct H as (path & props & ms & dims & gauges & Hp & _ & _ & Hd & Hg & ->).
  exists path. eexists. split; [exact Hp|]. split; [reflexivity|].
  repeat (apply Forall_app; split).
  - apply Forall_map. apply Forall_forall. reflexivity.
  - apply Forall_concat.
    eapply mapM_Forall; [|exact Hd]. intros m ps Hm.
    eapply Forall_impl; [|exact (dimensionOf_entries _ _ Hm)].
    intros [] ?; easy.
  - now repeat constructor.
  - apply Forall_concat.
    eapply mapM_Forall; [|exact Hg]. intros m ps Hm.
    eapply Forall_impl; [|exact (gaugeOf_entries _ _ _ Hm)].
    intros [] ?; easy.
  - destruct (hasMetric ms); now repeat constructor.
Qed.

Lemma tally_entries (ps : list Piece) (acc : list (nat * nat)) :
  Forall (fun p => isHeader p = false) ps -> fold_left tallyPiece ps acc = acc.
Proof.
  intro H. induction H as [|p ps Hp _ IH]; simpl; [reflexivity|].
  rewrite <- IH at 2. f_equal. now destruct p.
Qed.

Lemma subgroupPaths_entries (ps : list Piece) :
  Forall (fun p => isHeader p = false) ps -> subgroupPaths ps = [].
Proof.
  intro H. unfold subgroupPaths.
  induction H as [|p ps Hp _ IH]; simpl; [reflexivity|].
  rewrite IH. now destruct p.
Qed.

(** *** Group rollover *)

Lemma initialState_invariant : GroupInvariant 0 initialState.
Proof. repeat split; simpl; lia. Qed.

Lemma addElement_invariant (n : nat) (st st' : GenState) (element : Element) :
  GroupInvariant n st -> addElement st element = Ok st' ->
  GroupInvariant (S n) st'.
Proof.
  intros (Ht & Hs & Hn & _) H. unfold addElement in H.
  destruct (subgroupCount st <? 10) eqn:Room.
  - apply Nat.ltb_lt in Room. invert_bind H. injection H as <-.
    apply subgroupPieces_shape in Ha as (path & rest & _ & -> & Hrest).
    unfold GroupInvariant. cbn [groupCount subgroupCount yamlString].
    repeat split; try lia.
    rewrite fold_left_app, Ht. cbn [fold_left tallyPiece].
    rewrite (tally_entries _ _ Hrest), Nat.add_1_r. reflexivity.
  - apply Nat.ltb_ge in Room. invert_bind H. injection H as <-.
    apply subgroupPieces_shape in Ha as (path & rest & _ & -> & Hrest).
    unfold GroupInvariant. cbn [groupCount subgroupCount yamlString].
    repeat split; try lia.
    rewrite fold_left_app, Ht. cbn [fold_left tallyPiece app].
    rewrite (tally_entries _ _ Hrest).
    replace (subgroupCount st) with 10 by lia.
    unfold fullGroups.
    rewrite Nat.add_1_r, seq_S, map_app, rev_app_distr. reflexivity.
Qed.

Lemma foldM_invariant (es : list Element) (n : nat) (st st' : GenState) :
  GroupInvariant n st -> foldM addElement es st = Ok st' ->
  GroupInvariant (n + length es) st'.
Proof.
  revert n st. induction es as [|e es IH]; simpl; intros n st Hinv H.
  - injection H as <-. now rewrite Nat.add_0_r.
  - invert_bind H. rewrite Nat.add_succ_r.
    apply (IH (S n) a); [|exact H].
    eapply addElement_invariant; eassumption.
Qed.

(** *** Which elements make the generator fail *)

Lemma isOk_mapM {A B : Type} (f : A -> Result B) (l : list A) :
  isOk (mapM f l) = forallb (fun a => isOk (f a)) l.
Proof.
  induction l as [|x l IH]; simpl; [reflexivity|].
  destruct (f x); simpl; [|reflexivity].
  rewrite <- IH. now destruct (mapM f l).
Qed.

Lemma wellFormedMetric_loops (path : str) (ms : list Metric) :
  forallb wellFormedMetric ms =
  isOk (mapM dimensionOf ms) && isOk (mapM (gaugeOf path) ms).
Proof.
  rewrite !isOk_mapM.
  induction ms as [|m ms IH]; simpl; [reflexivity|].
  rewrite IH. unfold wellFormedMetric, dimensionOf, gaugeOf.
  destruct (truthy (numeric m)), (name m); simpl;
    repeat match goal with |- context [forallb ?f ms] => destruct (forallb f ms) end;
    reflexivity.
Qed.

Lemma isOk_subgroupPieces (rolled : bool) (element : Element) :
  isOk (subgroupPieces rolled element) = wellFormedElement element.
Proof.
  unfold subgroupPieces, wellFormedElement.
  destruct (fullPath element) as [| | | |path|]; try reflexivity.
  destruct (properties element) as [props|]; [|reflexivity].
  destruct (metrics element) as [ms|]; [|reflexivity].
  simpl. rewrite (wellFormedMetric_loops path).
  destruct (mapM dimensionOf ms); simpl; [|reflexivity].
  now destruct (mapM (gaugeOf path) ms).
Qed.

Lemma isOk_addElement (st : GenState) (element : Element) :
  isOk (addElement st element) = wellFormedElement element.
Proof.
  unfold addElement.
  destruct (subgroupCount st <? 10);
    [rewrite <- (isOk_subgroupPieces false element)
    |rewrite <- (isOk_subgroupPieces true element)];
    now destruct (subgroupPieces _ element).
Qed.

Lemma isOk_foldM (es : list Element) (st : GenState) :
  isOk (foldM addElement es st) = forallb wellFormedElement es.
Proof.
  revert st. induction es as [|e es IH]; intro st; simpl; [reflexivity|].
  rewrite <- (isOk_addElement st e).
  destruct (addElement st e); simpl; [apply IH | reflexivity].
Qed.

Lemma isOk_foldM_by {A S : Type} (f : S -> A -> Result S) (g : A -> bool)
    (l : list A) (s : S) :
  (forall s a, isOk (f s a) = g a) -> isOk (foldM f l s) = forallb g l.
Proof.
  intro H. revert s. induction l as [|a l IH]; intro s; simpl; [reflexivity|].
  rewrite <- (H s a). destruct (f s a); simpl; [apply IH | reflexivity].
Qed.

Lemma isOk_addMBean (st : GenState) (mbean : str * MBean) :
  isOk (addMBean st mbean)
  = isPresent (mbean_data (snd mbean))
    && forallb wellFormedElement (entries (mbean_data (snd mbean))).
Proof.
  unfold addMBean. destruct (mbean_data (snd mbean)); simpl; [|reflexivity].
  apply isOk_foldM.
Qed.

Lemma isOk_addDomain (st : GenState) (domain : str * Domain) :
  isOk (addDomain st domain)
  = isPresent (domain_data (snd domain))
    && forallb (fun mbean =>
                  isPresent (mbean_data (snd mbean))
                  && forallb wellFormedElement (entries (mbean_data (snd mbean))))
         (entries (domain_data (snd domain))).
Proof.
  unfold addDomain. destruct (domain_data (snd domain)); simpl; [|reflexivity].
  apply isOk_foldM_by. intros. apply isOk_addMBean.
Qed.

Lemma forallb_andb {A : Type} (f g : A -> bool) (l : list A) :
  forallb (fun x => f x && g x) l = forallb f l && forallb g l.
Proof.
  induction l as [|x l IH]; simpl; [reflexivity|]. rewrite IH.
  destruct (f x), (g x), (forallb f l); reflexivity.
Qed.

Lemma forallb_flat_map {A B : Type} (f : B -> bool) (g : A -> list B) (l : list A) :
  forallb f (flat_map g l) = forallb (fun x => forallb f (g x)) l.
Proof.
  induction l as [|x l IH]; simpl; [reflexivity|].
  now rewrite forallb_app, IH.
Qed.

Lemma forallb_pointwise {A : Type} (f g : A -> bool) (l : list A) :
  (forall x, f x = g x) -> forallb f l = forallb g l.
Proof.
  intro H. induction l as [|x l IH]; simpl; [reflexivity|]. now rewrite H, IH.
Qed.

(** The generator returns exactly on well-formed scrape data. *)
Lemma isOk_buildYaml (jmxJSON : jmxDataResponse) :
  isOk (buildYaml jmxJSON) = wellFormedResponse jmxJSON.
Proof.
  unfold wellFormedResponse, levelsPresent, elementsOf, buildYaml.
  destruct (jmxData jmxJSON) as [domains|]; simpl; [|reflexivity].
  rewrite forallb_flat_map, <- forallb_andb.
  transitivity (isOk (foldM addDomain domains initialState)).
  { now destruct (foldM addDomain domains initialState). }
  rewrite (isOk_foldM_by addDomain _ domains initialState isOk_addDomain).
  apply forallb_pointwise. intro domain.
  rewrite forallb_flat_map, forallb_andb.
  destruct (isPresent (domain_data (snd domain))); simpl; reflexivity.
Qed.

Lemma buildYaml_levels (jmxJSON : jmxDataResponse) (ps : list Piece) :
  buildYaml jmxJSON = Ok ps -> levelsPresent jmxJSON = true.
Proof.
  intro H. pose proof (isOk_buildYaml jmxJSON) as E. rewrite H in E.
  unfold wellFormedResponse in E. symmetry in E.
  now apply andb_true_iff in E as [E _].
Qed.

Lemma isOk_true {A : Type} (r : Result A) : isOk r = true -> exists a, r = Ok a.
Proof. destruct r; [eauto | discriminate]. Qed.

Lemma forallb_false {A : Type} (f : A -> bool) (l : list A) :
  forallb f l = false -> exists x, In x l /\ f x = false.
Proof.
  induction l as [|x l IH]; simpl; [discriminate|].
  destruct (f x) eqn:Fx; simpl.
  - intro H. destruct (IH H) as (y & Hy & Fy). eauto.
  - eauto.
Qed.

(** *** The exception *)

Lemma bind_raises {A B : Type} (c : Result A) (k : A -> Result B) :
  raisesOnlyTypeError c -> (forall a, raisesOnlyTypeError (k a)) ->
  raisesOnlyTypeError (bind c k).
Proof.
  intros Hc Hk e H. apply bind_Throw in H as [H | (a & _ & H)].
  - exact (Hc e H).
  - exact (Hk a e H).
Qed.

Lemma Ok_raises {A : Type} (a : A) : raisesOnlyTypeError (Ok a).
Proof. intros e H. discriminate H. Qed.

Lemma asString_raises (v : JsValue) : raisesOnlyTypeError (asString v).
Proof. intros e H. destruct v; simpl in H; congruence. Qed.

Lemma present_raises {A : Type} (o : option A) : raisesOnlyTypeError (present o).
Proof. intros e H. destruct o; simpl in H; congruence. Qed.

Lemma mapM_raises {A B : Type} (f : A -> Result B) (l : list A) :
  (forall a, raisesOnlyTypeError (f a)) -> raisesOnlyTypeError (mapM f l).
Proof.
  intro Hf. induction l as [|x l IH]; simpl; [apply Ok_raises|].
  apply bind_raises; [apply Hf|]. intro b.
  apply bind_raises; [exact IH|]. intro bs. apply Ok_raises.
Qed.

Lemma foldM_raises {A S : Type} (f : S -> A -> Result S) (l : list A) (s : S) :
  (forall s a, raisesOnlyTypeError (f s a)) -> raisesOnlyTypeError (foldM f l s).
Proof.
  intro Hf. revert s. induction l as [|x l IH]; intro s; simpl; [apply Ok_raises|].
  apply bind_raises; [apply Hf | exact IH].
Qed.

Create HintDb raises.

#[local] Hint Resolve Ok_raises asString_raises present_raises : raises.

Lemma subgroupPieces_raises (rolled : bool) (element : Element) :
  raisesOnlyTypeError (subgroupPieces rolled element).
Proof.
  unfold subgroupPieces.
  apply bind_raises; [auto with raises | intro path].
  apply bind_raises; [auto with raises | intro props].
  apply bind_raises; [auto with raises | intro ms].
  apply bind_raises; [|intro dims].
  { apply mapM_raises. intro m. unfold dimensionOf.
    destruct (negb _); auto with raises.
    apply bind_raises; auto with raises. }
  apply bind_raises; [|auto with raises].
  apply mapM_raises. intro m. unfold gaugeOf.
  destruct (truthy _); auto with raises.
  apply bind_raises; auto with raises.
Qed.

Lemma buildYaml_raises (jmxJSON : jmxDataResponse) :
  raisesOnlyTypeError (buildYaml jmxJSON).
Proof.
  unfold buildYaml.
  apply bind_raises; [auto with raises | intro domains].
  apply bind_raises; [|auto with raises].
  apply foldM_raises. intros st domain. unfold addDomain.
  apply bind_raises; [auto with raises | intro mbeans].
  apply foldM_raises. intros st' mbean. unfold addMBean.
  apply bind_raises; [auto with raises | intro es].
  apply foldM_raises. intros st'' e. unfold addElement.
  destruct (_ <? _); (apply bind_raises; [apply subgroupPieces_raises|]);
    auto with raises.
Qed.

(** *** One subgroup per element *)

Lemma addElement_paths (st st' : GenState) (element : Element) :
  addElement st element = Ok st' ->
  map JStr (subgroupPaths (yamlString st'))
  = map JStr (subgroupPaths (yamlString st)) ++ [fullPath element].
Proof.
  unfold addElement. intro H.
  destruct (subgroupCount st <? 10); invert_bind H; injection H as <-;
    apply subgroupPieces_shape in Ha as (path & rest & Hp & -> & Hrest);
    cbn [yamlString]; unfold subgroupPaths; rewrite !flat_map_app;
    cbn [flat_map app]; fold (subgroupPaths rest);
    rewrite (subgroupPaths_entries _ Hrest), Hp, map_app; reflexivity.
Qed.

Lemma foldM_paths (es : list Element) (st st' : GenState) :
  foldM addElement es st = Ok st' ->
  map JStr (subgroupPaths (yamlString st'))
  = map JStr (subgroupPaths (yamlString st)) ++ map fullPath es.
Proof.
  revert st. induction es as [|e es IH]; simpl; intros st H.
  - injection H as <-. now rewrite app_nil_r.
  - invert_bind H. rewrite (IH _ H), (addElement_paths _ _ _ Ha), <- app_assoc.
    reflexivity.
Qed.

(** *** Malformed elements *)

(** C8, as the specification states it, fails: one attribute without a name
    makes the generator throw, and the well-formed elements of the batch get
    no entry; the same batch without that element is generated. *)
Lemma C8_counterexample :
  wellFormedElement memoryElement = true
  /\ buildYaml (responseOf [[memoryElement; namelessElement; runtimeElement]])
     = Throw TypeError
  /\ isOk (buildYaml (responseOf [[memoryElement; runtimeElement]])) = true.
Proof. repeat split. Qed.

(** ** The insertion action *)

Lemma execLetter_None (text : str) :
  existsb isLetter text = false -> execLetter text = None.
Proof.
  induction text as [|c text IH]; simpl; [reflexivity|].
  destruct (isLetter c); simpl; [discriminate|].
  intro H. now rewrite IH.
Qed.

Lemma execLetter_Some (text : str) :
  existsb isLetter text = true -> exists i, execLetter text = Some i.
Proof.
  induction text as [|c text IH]; simpl; [discriminate|].
  destruct (isLetter c); simpl; [eauto|].
  intro H. destruct (IH H) as [i ->]. simpl. eauto.
Qed.

(** A line without a letter does not contain a phrase that starts with one. *)
Lemma includes_letter (text : str) (c : ascii) (phrase : str) :
  isLetter c = true -> existsb isLetter text = false ->
  includes text (c :: phrase) = false.
Proof.
  intros Hc. induction text as [|d text IH]; simpl; [reflexivity|].
  intro H. apply orb_false_iff in H as [Hd Ht].
  rewrite (IH Ht), orb_false_r.
  destruct (Ascii.eqb_spec c d) as [->|]; [congruence | reflexivity].
Qed.

Lemma lineAt_nth (document : TextDocument) (n : nat) (text : str) :
  nth_error (lines document) n = Some text -> lineAt document n = Ok text.
Proof. unfold lineAt. now intros ->. Qed.

(** C7.  On an anchor line without a letter [createInsertAction] returns no
    action and neither revision of the provider offers one; on an anchor
    line with a letter it returns an action, and every action it returns
    inserts into the document at the start of the line after the anchor. *)
Theorem C7_no_anchor_no_action
    (indentJMXSnippet : str -> nat -> str)
    (getParentBlocks : nat -> str -> list str)
    (document : TextDocument) (range : Range) (lineText : str) :
  nth_error (lines document) (line (start range)) = Some lineText ->
  (existsb isLetter lineText = false ->
     (forall actionName textToInsert,
        createInsertAction indentJMXSnippet actionName textToInsert document range
        = Ok None)
     /\ (forall jmxData,
           JmxRevision.provideCodeActions indentJMXSnippet getParentBlocks jmxData
             document range = Ok [])
     /\ (forall jmxData,
           MetricsRevision.provideCodeActions indentJMXSnippet getParentBlocks jmxData
             document range = Ok []))
  /\ (forall actionName textToInsert action,
        createInsertAction indentJMXSnippet actionName textToInsert document range
        = Ok (Some action) ->
        insert_uri (edit action) = uri document
        /\ insert_position (edit action)
           = {| line := line (start range) + 1; character := 0 |})
  /\ (existsb isLetter lineText = true ->
      forall actionName textToInsert,
      exists action,
        createInsertAction indentJMXSnippet actionName textToInsert document range
        = Ok (Some action)).
Proof.
  intro Hline. apply lineAt_nth in Hline.
  split; [|split].
  - intro Hnone.
    assert (Hcreate : forall actionName textToInsert,
               createInsertAction indentJMXSnippet actionName textToInsert
                 document range = Ok None).
    { intros. unfold createInsertAction. rewrite Hline. simpl.
      now rewrite (execLetter_None _ Hnone). }
    split; [exact Hcreate|]. split.
    + intros [data|]; [|reflexivity].
      unfold JmxRevision.provideCodeActions.
      destruct (negb _); [reflexivity|].
      rewrite Hline. cbn [bind].
      change (lit "jmx:") with ("j" :: lit "mx:").
      now rewrite (includes_letter lineText "j" (lit "mx:") eq_refl Hnone).
    + intro responses. unfold MetricsRevision.provideCodeActions.
      destruct (negb _ || _); [reflexivity|].
      rewrite Hline. cbn [bind].
      change (lit "metrics:") with ("m" :: lit "etrics:").
      rewrite (includes_letter lineText "m" (lit "etrics:") eq_refl Hnone).
      now destruct (_ || _).
  - intros actionName textToInsert action H.
    unfold createInsertAction in H. rewrite Hline in H. simpl in H.
    destruct (execLetter lineText); [|discriminate H].
    injection H as <-. split; reflexivity.
  - intros Hsome actionName textToInsert.
    unfold createInsertAction. rewrite Hline. simpl.
    destruct (execLetter_Some _ Hsome) as [i ->]. eauto.
Qed.

Lemma C7_no_anchor_no_action_witness :
  createInsertAction (fun text _ => text) (lit "Insert") (lit "groups:")
    {| uri := lit "extension.yaml"; lines := [lit "jmx:"; lit "  - 42"] |} (atLine 1)
  = Ok None.
Proof.
  destruct (C7_no_anchor_no_action (fun text _ => text) (fun _ _ => [])
              {| uri := lit "extension.yaml"; lines := [lit "jmx:"; lit "  - 42"] |}
              (atLine 1) (lit "  - 42") eq_refl) as [Hnone _].
  destruct (Hnone eq_refl) as [Hcreate _].
  apply Hcreate.
Defined.

(** C10.  When [createInsertAction] returns an action, the text of its edit
    is the indented snippet, and the snippet is the given text with a
    newline in front when the anchor is the last line of the document, and
    the given text as it is otherwise. *)
Theorem C10_newline_on_last_line
    (indentJMXSnippet : str -> nat -> str)
    (actionName textToInsert : str)
    (document : TextDocument) (range : Range) (lineText : str) (indent : nat) :
  nth_error (lines document) (line (start range)) = Some lineText ->
  execLetter lineText = Some indent ->
  exists action,
    createInsertAction indentJMXSnippet actionName textToInsert document range
    = Ok (Some action)
    /\ insert_text (edit action)
       = indentJMXSnippet
           (if lineCount document =? line (start range) + 1
            then nl ++ textToInsert
            else textToInsert)
           indent.
Proof.
  intros Hline Hletter. apply lineAt_nth in Hline.
  unfold createInsertAction. rewrite Hline. simpl. rewrite Hletter.
  eexists. split; reflexivity.
Qed.

Lemma C10_newline_on_last_line_witness :
  exists action action',
    createInsertAction (fun text _ => text) (lit "Insert") (lit "groups:")
      jmxLineDocument (atLine 1) = Ok (Some action)
    /\ insert_text (edit action) = nl ++ lit "groups:"
    /\ createInsertAction (fun text _ => text) (lit "Insert") (lit "groups:")
         jmxLineDocument (atLine 0) = Ok (Some action')
    /\ insert_text (edit action') = lit "groups:".
Proof.
  destruct (C10_newline_on_last_line (fun text _ => text) (lit "Insert")
              (lit "groups:") jmxLineDocument (atLine 1) (lit "jmx:") 0
              eq_refl eq_refl) as (action & H & Htext).
  destruct (C10_newline_on_last_line (fun text _ => text) (lit "Insert")
              (lit "groups:") jmxLineDocument (atLine 0) (lit "name: custom:demo") 0
              eq_refl eq_refl) as (action' & H' & Htext').
  exists action, action'. auto.
Defined.

(** ** The two revisions *)

(** C9.  On the line [jmx:] of a document the revision of
    [codeActions/jmx.ts] offers an insertion and the sibling revision offers
    none, whatever its cache holds. *)
Theorem C9_revisions_differ
    (indentJMXSnippet : str -> nat -> str)
    (getParentBlocks : nat -> str -> list str) :
  exists document range jmxJSON,
    (forall responses,
       MetricsRevision.provideCodeActions indentJMXSnippet getParentBlocks responses
         document range = Ok [])
    /\ exists action,
         JmxRevision.provideCodeActions indentJMXSnippet getParentBlocks (Some jmxJSON)
           document range = Ok [action].
Proof.
  exists jmxLineDocument, (atLine 1), (responseOf [[memoryElement]]). split.
  - intro responses. unfold MetricsRevision.provideCodeActions.
    destruct (negb _ || _); [reflexivity|].
    change (lineAt jmxLineDocument (line (start (atLine 1)))) with (Ok (lit "jmx:")).
    cbn [bind].
    destruct (_ || _); reflexivity.
  - eexists. reflexivity.
Qed.

(** ** Running the generator again *)

(** C5 does not hold of the code.  The fragment is a function of the scrape
    data alone: on the document that already has lines inserted below the
    anchor, the provider offers the same, non-empty fragment again. *)
Theorem C5_rerun_repeats_fragment
    (indentJMXSnippet : str -> nat -> str)
    (getParentBlocks : nat -> str -> list str)
    (first : str) (rest : list str) :
  let jmxJSON := responseOf [[memoryElement]] in
  exists ps action action',
    buildYaml jmxJSON = Ok ps
    /\ render ps <> []
    /\ JmxRevision.provideCodeActions indentJMXSnippet getParentBlocks (Some jmxJSON)
         jmxLineDocument (atLine 1) = Ok [action]
    /\ insert_text (edit action) = indentJMXSnippet (nl ++ render ps) 0
    /\ JmxRevision.provideCodeActions indentJMXSnippet getParentBlocks (Some jmxJSON)
         (withLinesBelow first rest) (atLine 1) = Ok [action']
    /\ insert_text (edit action') = indentJMXSnippet (render ps) 0.
Proof.
  intro jmxJSON.
  destruct (buildYaml jmxJSON) as [ps|] eqn:Hps; [|discriminate Hps].
  exists ps. do 2 eexists.
  split; [reflexivity|]. split.
  { injection Hps as <-. discriminate. }
  split.
  { unfold JmxRevision.provideCodeActions, JmxRevision.createQueryInsertions.
    rewrite Hps. reflexivity. }
  split; [reflexivity|]. split.
  { unfold JmxRevision.provideCodeActions, JmxRevision.createQueryInsertions.
    rewrite Hps.
    unfold createInsertAction, snippetFor, withLinesBelow, lineCount. cbn [lines].
    rewrite length_app. reflexivity. }
  reflexivity.
Qed.

(** * Further properties of the code *)

(** ** [ConvertMetricKey] *)

Lemma replaceClass_cons (cls : ascii -> bool) (r : str) (c : ascii) (s : str) :
  replaceClass cls r (c :: s) = (if cls c then r else [c]) ++ replaceClass cls r s.
Proof. reflexivity. Qed.

Lemma replaceClass_app (cls : ascii -> bool) (r a b : str) :
  replaceClass cls r (a ++ b) = replaceClass cls r a ++ replaceClass cls r b.
Proof. apply flat_map_app. Qed.

Lemma sanitizeChar_passes (c : ascii) :
  replaceClass (fun c => negb (isKeyChar c)) []
    (replaceClass isEqualsBarSpace ["_"]
       (if isColonBarComma c then ["."] else [c]))
  = sanitizeChar c.
Proof. by_cases_on_char c. Qed.

Lemma sanitizeChar_keyChar (c : ascii) :
  isKeyChar c = true -> sanitizeChar c = [c].
Proof.
  destruct c as [[] [] [] [] [] [] [] []]; vm_compute;
    intro H; solve [reflexivity | discriminate H].
Qed.

Lemma sanitizeChar_length (c : ascii) : length (sanitizeChar c) <= 1.
Proof.
  unfold sanitizeChar.
  destruct (isColonBarComma c), (isEqualsBarSpace c), (isKeyChar c); simpl; lia.
Qed.

(** X1.  The three replacement passes of [ConvertMetricKey] amount to one
    pass that treats every character on its own, followed by the final dot;
    the result is at most one character longer than the path. *)
Theorem ConvertMetricKey_per_character (fullPath : str) :
  ConvertMetricKey fullPath = flat_map sanitizeChar fullPath ++ ["."]
  /\ 1 <= length (ConvertMetricKey fullPath) <= length fullPath + 1.
Proof.
  assert (E : ConvertMetricKey fullPath = flat_map sanitizeChar fullPath ++ ["."]).
  { unfold ConvertMetricKey. cbv zeta. f_equal.
    induction fullPath as [|c s IH]; [reflexivity|].
    rewrite replaceClass_cons, !replaceClass_app, IH, sanitizeChar_passes.
    reflexivity. }
  split; [exact E|]. rewrite E, length_app. simpl.
  assert (length (flat_map sanitizeChar fullPath) <= length fullPath); [|lia].
  clear E. induction fullPath as [|c s IH]; simpl; [lia|].
  rewrite length_app. pose proof (sanitizeChar_length c). lia.
Qed.

(** X2.  A sanitized key is left alone by a second sanitization, which only
    appends another dot. *)
Theorem ConvertMetricKey_twice (fullPath : str) :
  ConvertMetricKey (ConvertMetricKey fullPath) = ConvertMetricKey fullPath ++ ["."].
Proof.
  destruct (ConvertMetricKey_per_character (ConvertMetricKey fullPath)) as [-> _].
  f_equal.
  pose proof (ConvertMetricKey_keyChars fullPath) as K.
  induction K as [|c s Hc _ IH]; simpl; [reflexivity|].
  now rewrite (sanitizeChar_keyChar c Hc), IH.
Qed.

(** ** The truncation *)

Lemma ConvertMetricKey_nonempty (fullPath : str) :
  1 <= length (ConvertMetricKey fullPath).
Proof. unfold ConvertMetricKey. cbv zeta. rewrite length_app. simpl. lia. Qed.

Lemma toLowerCase_length (s : str) : length (toLowerCase s) = length s.
Proof. apply length_map. Qed.

(** X3.  When the concatenation is longer than 250 characters and the
    attribute name has at most 249, the emitted key is the first
    [249 - length name] characters of the sanitized path, a dot and the
    lower-cased name: exactly 250 characters. *)
Theorem trueMetricKey_truncated (fullPath name : str) :
  250 < length (ConvertMetricKey fullPath ++ toLowerCase name) ->
  length name <= 249 ->
  trueMetricKey fullPath name
  = firstn (249 - length name) (ConvertMetricKey fullPath) ++ ["."] ++ toLowerCase name
  /\ length (trueMetricKey fullPath name) = 250.
Proof.
  intros Long Hn.
  assert (E : trueMetricKey fullPath name
              = firstn (249 - length name) (ConvertMetricKey fullPath)
                  ++ ["."] ++ toLowerCase name).
  { unfold trueMetricKey. cbv zeta.
    apply Nat.ltb_lt in Long as Long'. rewrite Long'.
    f_equal. unfold slice0. rewrite toLowerCase_length.
    rewrite length_app, toLowerCase_length in Long.
    destruct (249 - Z.of_nat (length name) <? 0)%Z eqn:Neg;
      [apply Z.ltb_lt in Neg; lia|].
    f_equal. lia. }
  split; [exact E|]. rewrite E.
  rewrite length_app, toLowerCase_length in Long.
  rewrite !length_app, length_firstn, toLowerCase_length.
  change (length ["."]) with 1. lia.
Qed.

Lemma trueMetricKey_truncated_witness :
  length (trueMetricKey (repeat "a" 300) (lit "Count")) = 250.
Proof.
  apply (trueMetricKey_truncated (repeat "a" 300) (lit "Count")).
  - apply Nat.ltb_lt. vm_compute. reflexivity.
  - apply Nat.leb_le. vm_compute. reflexivity.
Defined.

(** X4.  An attribute name of 250 characters or more always gives a key
    longer than 250 characters: the truncation never shortens the name and
    signals nothing. *)
Theorem trueMetricKey_long_name (fullPath name : str) :
  250 <= length name ->
  length name < length (trueMetricKey fullPath name)
  /\ 250 < length (trueMetricKey fullPath name).
Proof.
  intro Hn.
  assert (length name < length (trueMetricKey fullPath name)); [|lia].
  pose proof (ConvertMetricKey_nonempty fullPath) as Hk.
  unfold trueMetricKey. cbv zeta.
  destruct (250 <? _).
  - rewrite !length_app, toLowerCase_length. simpl. lia.
  - rewrite !length_app, toLowerCase_length. lia.
Qed.

Lemma trueMetricKey_long_name_witness :
  250 < length (trueMetricKey (lit "java.lang:type=Memory") (repeat "x" 250)).
Proof.
  apply (trueMetricKey_long_name (lit "java.lang:type=Memory") (repeat "x" 250)).
  apply Nat.leb_le. vm_compute. reflexivity.
Defined.

(** X5.  Truncated keys are not kept apart: two paths whose sanitized forms
    agree on the first [249 - length name] characters get the same key for
    the same attribute once both concatenations pass 250 characters. *)
Theorem trueMetricKey_collision (fullPath1 fullPath2 name : str) :
  250 < length (ConvertMetricKey fullPath1 ++ toLowerCase name) ->
  250 < length (ConvertMetricKey fullPath2 ++ toLowerCase name) ->
  length name <= 249 ->
  firstn (249 - length name) (ConvertMetricKey fullPath1)
  = firstn (249 - length name) (ConvertMetricKey fullPath2) ->
  trueMetricKey fullPath1 name = trueMetricKey fullPath2 name.
Proof.
  intros L1 L2 Hn Hp.
  destruct (trueMetricKey_truncated _ _ L1 Hn) as [-> _].
  destruct (trueMetricKey_truncated _ _ L2 Hn) as [-> _].
  now rewrite Hp.
Qed.

Lemma trueMetricKey_collision_witness :
  repeat "a" 250 ++ lit "x" <> repeat "a" 250 ++ lit "y"
  /\ trueMetricKey (repeat "a" 250 ++ lit "x") (lit "Count")
     = trueMetricKey (repeat "a" 250 ++ lit "y") (lit "Count").
Proof.
  split.
  - intro H. apply app_inv_head in H. discriminate H.
  - apply (trueMetricKey_collision (repeat "a" 250 ++ lit "x")
             (repeat "a" 250 ++ lit "y") (lit "Count")).
    + apply Nat.ltb_lt. vm_compute. reflexivity.
    + apply Nat.ltb_lt. vm_compute. reflexivity.
    + apply Nat.leb_le. vm_compute. reflexivity.
    + vm_compute. reflexivity.
Defined.

(** ** [formatQuery] *)

Lemma includes_cons (c : ascii) (s x : str) :
  includes (c :: s) x = startsWith (c :: s) x || includes s x.
Proof. reflexivity. Qed.

Lemma replaceEqualsComma_fixed (s : str) :
  includes s (lit "=,") = false -> replaceEqualsComma s = s.
Proof.
  induction s as [|c|c d s IHs IHds] using pair_induction; try reflexivity.
  rewrite includes_cons. intro H. apply orb_false_iff in H as [Hhere Hlater].
  rewrite replaceEqualsComma_cons2, (IHds Hlater).
  cbn [startsWith list_ascii_of_string] in Hhere.
  rewrite andb_true_r, (Ascii.eqb_sym "=" c), (Ascii.eqb_sym "," d) in Hhere.
  now rewrite Hhere.
Qed.

Lemma includes_star (q : str) :
  includes q (lit "=,") = false -> includes (q ++ ["*"]) (lit "=,") = false.
Proof.
  induction q as [|c q IH]; [reflexivity|].
  rewrite includes_cons. intro H. apply orb_false_iff in H as [Hhere Hlater].
  change ((c :: q) ++ ["*"]) with (c :: (q ++ ["*"])).
  rewrite includes_cons, (IH Hlater), orb_false_r.
  cbn [startsWith list_ascii_of_string] in Hhere |- *.
  destruct (Ascii.eqb "=" c); [|reflexivity].
  destruct q as [|d q]; [reflexivity|exact Hhere].
Qed.

Lemma formatQuery_clean (s : str) :
  includes (formatQuery s) (lit "=,") = false.
Proof.
  unfold formatQuery. cbv zeta.
  destruct (endsWith _ _);
    [apply includes_star|]; apply replaceEqualsComma_clean.
Qed.

Lemma formatQuery_open (s : str) : endsWith (formatQuery s) ["="] = false.
Proof.
  unfold formatQuery. cbv zeta.
  destruct (endsWith (replaceEqualsComma s) ["="]) eqn:E; [|exact E].
  now rewrite endsWith_snoc.
Qed.

(** X6.  A query that has no [=,] and does not end with [=] is returned as
    it is, and these are the only queries that [formatQuery] returns
    unchanged. *)
Theorem formatQuery_fixed_points (s : str) :
  formatQuery s = s
  <-> includes s (lit "=,") = false /\ endsWith s ["="] = false.
Proof.
  split.
  - intro H. rewrite <- H. split; [apply formatQuery_clean | apply formatQuery_open].
  - intros [Hclean Hopen]. unfold formatQuery. cbv zeta.
    now rewrite (replaceEqualsComma_fixed s Hclean), Hopen.
Qed.

(** X7.  Formatting a formatted query changes nothing. *)
Theorem formatQuery_idempotent (s : str) :
  formatQuery (formatQuery s) = formatQuery s.
Proof.
  apply formatQuery_fixed_points.
  split; [apply formatQuery_clean | apply formatQuery_open].
Qed.

(** ** The subgroup of one element *)

Lemma mapM_dimensionOf (ms : list Metric) :
  forallb wellFormedMetric ms = true ->
  exists dims,
    mapM dimensionOf ms = Ok dims
    /\ concat dims
       = map (fun m => AttributeDimension (nameOf m))
           (filter (fun m => negb (isNumeric m)) ms).
Proof.
  induction ms as [|m ms IH]; simpl; intro H.
  - now exists [].
  - apply andb_true_iff in H as [Hm Hms].
    destruct (IH Hms) as (dims & -> & E).
    unfold wellFormedMetric in Hm.
    destruct (name m) as [| | | |n|] eqn:Hn; try discriminate Hm.
    assert (Hname : nameOf m = n) by (unfold nameOf; now rewrite Hn).
    cbn [filter]. unfold dimensionOf.
    change (truthy (numeric m)) with (isNumeric m).
    destruct (isNumeric m); rewrite ?Hn; cbn [negb asString bind map];
      eexists; (split; [reflexivity|]); cbn [concat app];
      rewrite E, ?Hname; reflexivity.
Qed.

Lemma mapM_gaugeOf (path : str) (ms : list Metric) :
  forallb wellFormedMetric ms = true ->
  exists gauges,
    mapM (gaugeOf path) ms = Ok gauges
    /\ concat gauges
       = map (fun m => GaugeMetric (trueMetricKey path (nameOf m)) (nameOf m))
           (filter isNumeric ms).
Proof.
  induction ms as [|m ms IH]; simpl; intro H.
  - now exists [].
  - apply andb_true_iff in H as [Hm Hms].
    destruct (IH Hms) as (gauges & -> & E).
    unfold wellFormedMetric in Hm.
    destruct (name m) as [| | | |n|] eqn:Hn; try discriminate Hm.
    assert (Hname : nameOf m = n) by (unfold nameOf; now rewrite Hn).
    cbn [filter]. unfold gaugeOf.
    change (truthy (numeric m)) with (isNumeric m).
    destruct (isNumeric m); rewrite ?Hn; cbn [asString bind map];
      eexists; (split; [reflexivity|]); cbn [concat app];
      rewrite E, ?Hname; reflexivity.
Qed.

Lemma hasMetric_filter (ms : list Metric) :
  hasMetric ms = match filter isNumeric ms with [] => false | _ => true end.
Proof.
  unfold hasMetric, isNumeric. induction ms as [|m ms IH]; simpl; [reflexivity|].
  now destruct (truthy (numeric m)).
Qed.

(** X8.  Every attribute of a well-formed element lands in exactly one list,
    in the order of the scrape: the properties and then the attributes that
    are not numeric become the dimensions, the numeric attributes become
    the gauges, and the constant entry appears exactly when there is no
    gauge. *)
Theorem subgroupPieces_partition
    (rolled : bool) (element : Element)
    (path : str) (props : list (str * JsValue)) (ms : list Metric) :
  fullPath element = JStr path ->
  properties element = Some props ->
  metrics element = Some ms ->
  forallb wellFormedMetric ms = true ->
  subgroupPieces rolled element
  = Ok (SubgroupHeader rolled path (formatQuery path)
          :: map (fun kv => PropertyDimension (fst kv)) props
          ++ map (fun m => AttributeDimension (nameOf m))
               (filter (fun m => negb (isNumeric m)) ms)
          ++ MetricsHeader
          :: match filter isNumeric ms with
             | [] => [ConstMetric]
             | numerics =>
                 map (fun m => GaugeMetric (trueMetricKey path (nameOf m)) (nameOf m))
                   numerics
             end).
Proof.
  intros Hp Hprops Hms Hwf. unfold subgroupPieces.
  rewrite Hp, Hprops, Hms. cbn [asString present bind].
  destruct (mapM_dimensionOf ms Hwf) as (dims & -> & Ed).
  destruct (mapM_gaugeOf path ms Hwf) as (gauges & -> & Eg).
  cbn [bind]. rewrite Ed, Eg, hasMetric_filter.
  destruct (filter isNumeric ms) as [|m numerics]; simpl.
  - reflexivity.
  - now rewrite app_nil_r.
Qed.

Lemma subgroupPieces_partition_witness :
  subgroupPieces false memoryElement
  = Ok [SubgroupHeader false (lit "java.lang:type=Memory,name=")
          (lit "java.lang:type=Memory,name=*");
        PropertyDimension (lit "type");
        AttributeDimension (lit "Vendor");
        MetricsHeader;
        GaugeMetric (lit "java.lang.type_Memory.name_.heapused") (lit "HeapUsed")].
Proof.
  rewrite (subgroupPieces_partition false memoryElement
             (lit "java.lang:type=Memory,name=")
             [(lit "type", JStr (lit "Memory"))]
             [sampleMetric "HeapUsed" true; sampleMetric "Vendor" false]
             eq_refl eq_refl eq_refl eq_refl).
  vm_compute. reflexivity.
Defined.

(** ** The whole fragment *)

Lemma subgroupFlags_entries (ps : list Piece) :
  Forall (fun p => isHeader p = false) ps -> subgroupFlags ps = [].
Proof.
  intro H. unfold subgroupFlags.
  induction H as [|p ps Hp _ IH]; simpl; [reflexivity|].
  rewrite IH. now destruct p.
Qed.

Lemma opensLaterGroup_inside (g s : nat) :
  s < 10 -> (0 < 10 * g + s -> 1 <= s) -> opensLaterGroup (10 * g + s) = false.
Proof.
  intros Hs Hpos. unfold opensLaterGroup.
  destruct (10 * g + s) as [|n] eqn:E; [reflexivity|].
  rewrite <- E. rewrite <- (Nat.mod_unique (10 * g + s) 10 g s Hs eq_refl).
  assert (s <> 0) by lia.
  rewrite (proj2 (Nat.eqb_neq s 0)) by assumption.
  apply andb_false_r.
Qed.

Lemma opensLaterGroup_full (g : nat) : opensLaterGroup (10 * g + 10) = true.
Proof.
  unfold opensLaterGroup.
  rewrite <- (Nat.mod_unique (10 * g + 10) 10 (g + 1) 0); [|lia|lia].
  replace (0 <? 10 * g + 10) with true; [reflexivity|].
  symmetry. apply Nat.ltb_lt. lia.
Qed.

Lemma addElement_flags (n : nat) (st st' : GenState) (element : Element) :
  GroupInvariant n st -> addElement st element = Ok st' ->
  subgroupFlags (yamlString st')
  = subgroupFlags (yamlString st) ++ [opensLaterGroup n].
Proof.
  intros (_ & Hs & Hn & Hpos) H. unfold addElement in H.
  destruct (subgroupCount st <? 10) eqn:Room.
  - apply Nat.ltb_lt in Room. invert_bind H. injection H as <-.
    apply subgroupPieces_shape in Ha as (path & rest & _ & -> & Hrest).
    cbn [yamlString]. unfold subgroupFlags. rewrite flat_map_app.
    cbn [flat_map app]. fold (subgroupFlags rest).
    rewrite (subgroupFlags_entries _ Hrest), <- Hn.
    rewrite opensLaterGroup_inside; [reflexivity|exact Room|].
    rewrite Hn. exact Hpos.
  - apply Nat.ltb_ge in Room. invert_bind H. injection H as <-.
    apply subgroupPieces_shape in Ha as (path & rest & _ & -> & Hrest).
    cbn [yamlString]. unfold subgroupFlags. rewrite !flat_map_app.
    cbn [flat_map app]. fold (subgroupFlags rest).
    rewrite (subgroupFlags_entries _ Hrest), <- Hn.
    replace (subgroupCount st) with 10 by lia.
    now rewrite opensLaterGroup_full.
Qed.

Lemma foldM_flags (es : list Element) (n : nat) (st st' : GenState) :
  GroupInvariant n st -> foldM addElement es st = Ok st' ->
  subgroupFlags (yamlString st')
  = subgroupFlags (yamlString st) ++ map opensLaterGroup (seq n (length es)).
Proof.
  revert n st. induction es as [|e es IH]; simpl; intros n st Hinv H.
  - injection H as <-. now rewrite app_nil_r.
  - invert_bind H.
    rewrite (IH (S n) a (addElement_invariant _ _ _ _ Hinv Ha) H).
    rewrite (addElement_flags _ _ _ _ Hinv Ha), <- app_assoc. reflexivity.
Qed.

(** ** The providers *)

Lemma includes_has_letter (text : str) (c : ascii) (phrase : str) :
  isLetter c = true -> includes text (c :: phrase) = true ->
  existsb isLetter text = true.
Proof.
  intros Hc H. destruct (existsb isLetter text) eqn:E; [reflexivity|].
  now rewrite (includes_letter text c phrase Hc E) in H.
Qed.

(** X11.  With well-formed scrape data in the cache, on a line that contains
    [jmx:] of a document that has a line starting with [jmx:], the provider
    of [jmx.ts] offers exactly one quick fix: it is named after the scraped
    process, and it inserts the whole fragment, indented by the column of
    the first letter of the line, at the start of the next line. *)
Theorem provideCodeActions_offers
    (indentJMXSnippet : str -> nat -> str)
    (getParentBlocks : nat -> str -> list str)
    (jmxJSON : jmxDataResponse)
    (document : TextDocument) (range : Range) (lineText : str) :
  nth_error (lines document) (line (start range)) = Some lineText ->
  testAtLineStart (lit "jmx:") true (getText document) = true ->
  includes lineText (lit "jmx:") = true ->
  wellFormedResponse jmxJSON = true ->
  exists ps indent,
    buildYaml jmxJSON = Ok ps
    /\ execLetter lineText = Some indent
    /\ JmxRevision.provideCodeActions indentJMXSnippet getParentBlocks (Some jmxJSON)
         document range
       = Ok [{| title := lit "Insert JMX data for "
                         ++ match process_name jmxJSON with
                            | Some n => n
                            | None => []
                            end;
                kind := QuickFix;
                edit := {| insert_uri := uri document;
                           insert_position :=
                             {| line := line (start range) + 1; character := 0 |};
                           insert_text :=
                             indentJMXSnippet
                               (snippetFor (render ps) document range) indent |} |}].
Proof.
  intros Hline Hgate Hphrase Hwf. apply lineAt_nth in Hline.
  rewrite <- isOk_buildYaml in Hwf. apply isOk_true in Hwf as [ps Hps].
  destruct (execLetter_Some lineText
              (includes_has_letter lineText "j" (lit "mx:") eq_refl Hphrase))
    as [indent Hindent].
  exists ps, indent. split; [exact Hps|]. split; [exact Hindent|].
  unfold JmxRevision.provideCodeActions. rewrite Hgate, Hline.
  cbn [negb bind]. rewrite Hphrase.
  unfold JmxRevision.createQueryInsertions, createInsertAction.
  rewrite Hps, Hline. cbn [bind]. rewrite Hindent. reflexivity.
Qed.

Lemma provideCodeActions_offers_witness :
  exists action,
    JmxRevision.provideCodeActions (fun text _ => text) (fun _ _ => [])
      (Some (responseOf [[runtimeElement]]))
      {| uri := lit "extension.yaml"; lines := [lit "jmx:"; lit "  # jmx: groups"; lit ""] |}
      (atLine 1)
    = Ok [action]
    /\ title action = lit "Insert JMX data for demo"
    /\ insert_position (edit action) = {| line := 2; character := 0 |}.
Proof.
  destruct (provideCodeActions_offers (fun text _ => text) (fun _ _ => [])
              (responseOf [[runtimeElement]])
              {| uri := lit "extension.yaml";
                 lines := [lit "jmx:"; lit "  # jmx: groups"; lit ""] |}
              (atLine 1) (lit "  # jmx: groups") eq_refl eq_refl eq_refl eq_refl)
    as (ps & indent & _ & _ & H).
  eexists. split; [exact H|]. split; reflexivity.
Defined.

Lemma createInsertAction_cases
    (indentJMXSnippet : str -> nat -> str) (actionName textToInsert : str)
    (document : TextDocument) (range : Range) :
  (exists e, createInsertAction indentJMXSnippet actionName textToInsert document range
             = Throw e)
  \/ (exists o, createInsertAction indentJMXSnippet actionName textToInsert document range
                = Ok o).
Proof.
  destruct (createInsertAction _ _ _ _ _); eauto.
Qed.

(** X12.  Neither revision of the provider ever returns more than one code
    action. *)
Theorem provideCodeActions_at_most_one
    (indentJMXSnippet : str -> nat -> str)
    (getParentBlocks : nat -> str -> list str)
    (document : TextDocument) (range : Range) :
  (forall jmxData,
     match JmxRevision.provideCodeActions indentJMXSnippet getParentBlocks jmxData
             document range with
     | Ok actions => length actions <= 1
     | Throw _ => True
     end)
  /\ (forall jmxData,
        match MetricsRevision.provideCodeActions indentJMXSnippet getParentBlocks jmxData
                document range with
        | Ok actions => length actions <= 1
        | Throw _ => True
        end).
Proof.
  split.
  - intros [data|]; [|simpl; lia].
    unfold JmxRevision.provideCodeActions.
    destruct (negb _); [simpl; lia|].
    destruct (lineAt document _); [|exact I]. cbn [bind].
    destruct (includes _ _); [|simpl; lia].
    unfold JmxRevision.createQueryInsertions.
    destruct (buildYaml data) as [ps|]; [|exact I]. cbn [bind].
    destruct (createInsertAction _ _ _ _ _) as [[act|]|]; simpl;
      solve [lia | exact I].
  - intro responses. unfold MetricsRevision.provideCodeActions.
    destruct (negb _ || _); [simpl; lia|].
    destruct (lineAt document _); [|exact I]. cbn [bind].
    destruct (_ || _); [|simpl; lia].
    destruct (includes _ _); [|simpl; lia].
    unfold MetricsRevision.createMetricInsertions.
    destruct (createInsertAction _ _ _ _ _) as [[act|]|]; simpl;
      solve [lia | exact I].
Qed.

Lemma nth_last {A : Type} (l : list A) (d : A) : nth (length l - 1) l d = last l d.
Proof.
  induction l as [|x l IH]; [reflexivity|].
  destruct l as [|y l]; [reflexivity|].
  change (last (x :: y :: l) d) with (last (y :: l) d).
  rewrite <- IH. simpl. now rewrite Nat.sub_0_r.
Qed.

(** X13.  The sibling revision offers its quick fix on a line that contains
    [metrics:] directly under a [jmx] or [subgroups] block, when some line
    starts with [jmx:] and something is cached; the quick fix inserts the
    response that was cached last. *)
Theorem MetricsRevision_offers
    (indentJMXSnippet : str -> nat -> str)
    (getParentBlocks : nat -> str -> list str)
    (responses : list str)
    (document : TextDocument) (range : Range) (lineText : str) :
  nth_error (lines document) (line (start range)) = Some lineText ->
  testAtLineStart (lit "jmx:") true (getText document) = true ->
  responses <> [] ->
  (let parentBlocks := getParentBlocks (line (start range)) (getText document) in
   MetricsRevision.lastBlockIs parentBlocks (lit "jmx")
   || MetricsRevision.lastBlockIs parentBlocks (lit "subgroups")) = true ->
  includes lineText (lit "metrics:") = true ->
  exists indent,
    execLetter lineText = Some indent
    /\ MetricsRevision.provideCodeActions indentJMXSnippet getParentBlocks responses
         document range
       = Ok [{| title := lit "Insert JMX Response";
                kind := QuickFix;
                edit := {| insert_uri := uri document;
                           insert_position :=
                             {| line := line (start range) + 1; character := 0 |};
                           insert_text :=
                             indentJMXSnippet
                               (snippetFor (last responses (lit "undefined"))
                                  document range) indent |} |}].
Proof.
  intros Hline Hgate Hsome Hblock Hphrase. apply lineAt_nth in Hline.
  destruct (execLetter_Some lineText
              (includes_has_letter lineText "m" (lit "etrics:") eq_refl Hphrase))
    as [indent Hindent].
  exists indent. split; [exact Hindent|].
  unfold MetricsRevision.provideCodeActions. rewrite Hgate, Hline.
  assert (Hlen : (length responses =? 0) = false).
  { apply Nat.eqb_neq. destruct responses; [congruence | discriminate]. }
  rewrite Hlen. cbn [negb orb bind]. cbv zeta in Hblock. rewrite Hblock, Hphrase.
  unfold MetricsRevision.createMetricInsertions, createInsertAction.
  rewrite Hline. cbn [bind]. rewrite Hindent, nth_last. reflexivity.
Qed.

Lemma MetricsRevision_offers_witness :
  exists action,
    MetricsRevision.provideCodeActions (fun text _ => text)
      (fun n _ => if n =? 0 then [] else [lit "jmx"])
      [lit "first response"; lit "second response"]
      {| uri := lit "extension.yaml"; lines := [lit "jmx:"; lit "  metrics:"; lit ""] |}
      (atLine 1)
    = Ok [action]
    /\ insert_text (edit action) = lit "second response".
Proof.
  destruct (MetricsRevision_offers (fun text _ => text)
              (fun n _ => if n =? 0 then [] else [lit "jmx"])
              [lit "first response"; lit "second response"]
              {| uri := lit "extension.yaml";
                 lines := [lit "jmx:"; lit "  metrics:"; lit ""] |}
              (atLine 1) (lit "  metrics:") eq_refl eq_refl)
    as (indent & _ & H); try reflexivity; try discriminate.
  eexists. split; [exact H|]. reflexivity.
Defined.

(** ** The gate and the indent *)

Lemma startsWith_line (pat l rest : str) :
  existsb isLineTerminator pat = false ->
  startsWith (l ++ "010" :: rest) pat = startsWith l pat.
Proof.
  revert l. induction pat as [|c pat IH]; intros l H; [reflexivity|].
  simpl in H. apply orb_false_iff in H as [Hc Hpat].
  destruct l as [|d l]; simpl.
  - unfold isLineTerminator in Hc. apply orb_false_iff in Hc as [Hc _].
    now rewrite Hc.
  - now rewrite (IH l Hpat).
Qed.

Lemma testAtLineStart_cons (pat : str) (atStart : bool) (c : ascii) (text : str) :
  testAtLineStart pat atStart (c :: text)
  = (atStart && startsWith (c :: text) pat)
    || testAtLineStart pat (isLineTerminator c) text.
Proof. reflexivity. Qed.

Lemma testAtLineStart_skip (pat l rest : str) :
  existsb isLineTerminator l = false ->
  testAtLineStart pat false (l ++ rest) = testAtLineStart pat false rest.
Proof.
  induction l as [|c l IH]; [reflexivity|]. simpl existsb. intro H.
  apply orb_false_iff in H as [Hc Hl].
  change ((c :: l) ++ rest) with (c :: (l ++ rest)).
  rewrite testAtLineStart_cons, Hc. cbn [andb orb]. exact (IH Hl).
Qed.

Lemma testAtLineStart_last (pat l : str) :
  existsb isLineTerminator l = false ->
  testAtLineStart pat true l = startsWith l pat.
Proof.
  destruct l as [|c l]; [simpl; now rewrite orb_false_r|]. simpl existsb.
  intro H. apply orb_false_iff in H as [Hc Hl].
  rewrite testAtLineStart_cons, Hc. cbn [andb].
  rewrite <- (app_nil_r l), (testAtLineStart_skip pat l [] Hl).
  simpl. now rewrite orb_false_r.
Qed.

Lemma testAtLineStart_line (pat l rest : str) :
  existsb isLineTerminator pat = false ->
  existsb isLineTerminator l = false ->
  testAtLineStart pat true (l ++ "010" :: rest)
  = startsWith l pat || testAtLineStart pat true rest.
Proof.
  intros Hpat Hl. destruct l as [|c l].
  - pose proof (startsWith_line pat [] rest Hpat) as E. cbn [app] in E |- *.
    rewrite testAtLineStart_cons, E. reflexivity.
  - simpl existsb in Hl. apply orb_false_iff in Hl as [Hc Hl].
    change ((c :: l) ++ "010" :: rest) with (c :: (l ++ "010" :: rest)).
    rewrite testAtLineStart_cons, Hc. cbn [andb].
    change (c :: l ++ "010" :: rest) with ((c :: l) ++ "010" :: rest).
    rewrite (startsWith_line pat (c :: l) rest Hpat).
    rewrite (testAtLineStart_skip pat l _ Hl), testAtLineStart_cons.
    reflexivity.
Qed.

Lemma testAtLineStart_lines (pat : str) (ls : list str) :
  existsb isLineTerminator pat = false ->
  pat <> [] ->
  Forall (fun l => existsb isLineTerminator l = false) ls ->
  testAtLineStart pat true (join nl ls) = existsb (fun l => startsWith l pat) ls.
Proof.
  intros Hpat Hne H. induction H as [|l ls Hl Hls IH].
  - destruct pat; [congruence | reflexivity].
  - destruct ls as [|l2 ls].
    + cbn [join existsb]. rewrite orb_false_r. now apply testAtLineStart_last.
    + change (join nl (l :: l2 :: ls)) with (l ++ "010" :: join nl (l2 :: ls)).
      rewrite (testAtLineStart_line pat l _ Hpat Hl), IH. reflexivity.
Qed.

(** X14.  For a document whose lines hold no line terminator, the early
    return of both revisions is taken exactly when no line of the document
    starts with [jmx:]. *)
Theorem jmx_gate_by_lines (document : TextDocument) :
  Forall (fun l => existsb isLineTerminator l = false) (lines document) ->
  testAtLineStart (lit "jmx:") true (getText document)
  = existsb (fun l => startsWith l (lit "jmx:")) (lines document).
Proof.
  intro H. unfold getText.
  apply testAtLineStart_lines; [reflexivity | discriminate | exact H].
Qed.

Lemma jmx_gate_by_lines_witness :
  testAtLineStart (lit "jmx:") true
    (getText {| uri := lit "extension.yaml";
                lines := [lit "name: custom:demo"; lit "  jmx:"; lit "metrics:"] |})
  = false.
Proof.
  rewrite (jmx_gate_by_lines
             {| uri := lit "extension.yaml";
                lines := [lit "name: custom:demo"; lit "  jmx:"; lit "metrics:"] |}).
  - reflexivity.
  - repeat constructor.
Defined.

(** X15.  The indent that [createInsertAction] hands to [indentJMXSnippet]
    is the position of the first letter of the anchor line: no character
    before it is a letter, whatever else it is. *)
Theorem execLetter_first_letter (text : str) (indent : nat) :
  execLetter text = Some indent
  <-> existsb isLetter (firstn indent text) = false
      /\ exists c, nth_error text indent = Some c /\ isLetter c = true.
Proof.
  revert indent. induction text as [|c text IH]; intro indent.
  - split; [discriminate|]. intros [_ (c & H & _)]. now destruct indent.
  - simpl execLetter. destruct (isLetter c) eqn:Hc.
    + split.
      * intros [= <-]. split; [reflexivity|]. exists c. now split.
      * intros [Hbefore _]. destruct indent as [|indent]; [reflexivity|].
        simpl in Hbefore. now rewrite Hc in Hbefore.
    + split.
      * destruct (execLetter text) as [i|] eqn:E; [|discriminate].
        intros [= <-]. destruct (proj1 (IH i) eq_refl) as [Hbefore Hat].
        split; [simpl; now rewrite Hc, Hbefore | exact Hat].
      * intros [Hbefore (d & Hd & Hletter)].
        destruct indent as [|indent]; [simpl in Hd; congruence|].
        simpl in Hbefore, Hd. rewrite Hc in Hbefore.
        rewrite (proj2 (IH indent)); [reflexivity|].
        split; [exact Hbefore | eauto].
Qed.

(** ** The scraper *)

Ltac cases_of_user u :=
  destruct u as [[[|]|] [[|? ?]|] [[| | |]|] [[|? ?]|] [[|? ?]|]].

(** X16.  When the collection of the details reports success, the request
    that follows is fully determined by the answers: one request, to the
    URL that was entered, with the entered credentials exactly when
    username and password were chosen, and the scrape reports whether it
    was fulfilled.  The cache and the time of the last scrape are not
    touched by the collection. *)
Theorem collect_then_scrape
    (p p' : Scraper.Provider) (user : Scraper.User)
    (prompts : list Scraper.Event) (fulfilled : bool) :
  Scraper.collectJMXScrapingDetails p user = (true, p', prompts) ->
  Scraper.given (Scraper.enterUrl user) = true
  /\ Scraper.JMXscrape p' fulfilled
     = (Some fulfilled,
        [Scraper.Get (Scraper.text (Scraper.enterUrl user))
           match Scraper.pickAuth user with
           | Some Scraper.UsernamePassword =>
               Some (Scraper.text (Scraper.enterUsername user),
                     Scraper.text (Scraper.enterPassword user))
           | _ => None
           end])
  /\ Scraper.jmxData p' = Scraper.jmxData p
  /\ Scraper.lastScrape p' = Scraper.lastScrape p.
Proof.
  intro H. unfold Scraper.collectJMXScrapingDetails in H.
  cases_of_user user; simpl in H; try discriminate H;
    injection H as <- <-; repeat split.
Qed.

Lemma collect_then_scrape_witness :
  let user := {| Scraper.pickMethod := Some Scraper.Endpoint;
                 Scraper.enterUrl := Some (lit "http://localhost:9999/jmx");
                 Scraper.pickAuth := Some Scraper.UsernamePassword;
                 Scraper.enterUsername := Some (lit "admin");
                 Scraper.enterPassword := Some (lit "secret") |} in
  exists p',
    fst (Scraper.collectJMXScrapingDetails (Scraper.initial []) user) = (true, p')
    /\ Scraper.JMXscrape p' true
       = (Some true,
          [Scraper.Get (lit "http://localhost:9999/jmx")
             (Some (lit "admin", lit "secret"))]).
Proof.
  intro user.
  destruct (Scraper.collectJMXScrapingDetails (Scraper.initial []) user)
    as [[ok p'] prompts] eqn:H.
  assert (ok = true) as -> by (vm_compute in H; congruence).
  exists p'. split; [reflexivity|].
  exact (proj1 (proj2 (collect_then_scrape _ _ _ _ true H))).
Defined.

(** X17.  [JMXscrape] sends at most one request, never to an empty URL and
    never with an empty username or password; it reports success only for
    a request that was sent and fulfilled. *)
Theorem JMXscrape_requests (p : Scraper.Provider) (fulfilled : bool) :
  let '(scrapeSuccess, events) := Scraper.JMXscrape p fulfilled in
  length events <= 1
  /\ (forall e, In e events ->
        exists url auth,
          e = Scraper.Get url auth /\ url <> []
          /\ forall name password,
               auth = Some (name, password) -> name <> [] /\ password <> [])
  /\ (Scraper.succeeded scrapeSuccess = true -> fulfilled = true /\ events <> []).
Proof.
  unfold Scraper.JMXscrape.
  destruct p as [last [[|]|] [[|c url]|] [[| | |]|] token [[|? ?]|] [[|? ?]|] data];
    simpl; (split; [lia|]); split;
    try (intros e He; simpl in He; contradiction);
    try (intro Hs; discriminate Hs);
    try (intros e [<-|[]]; do 2 eexists; split; [reflexivity|];
         split; [discriminate|]; intros n pw Hauth;
         first [discriminate Hauth
               | injection Hauth as <- <-; split; discriminate]);
    intro Hs; destruct fulfilled; try discriminate Hs;
    (split; [reflexivity | discriminate]).
Qed.

Lemma JMXscrape_requests_witness :
  let p := Scraper.setAuth
             (Scraper.setUrl
                (Scraper.setMethod (Scraper.initial []) (Some Scraper.Endpoint))
                (Some (lit "http://localhost:9999/jmx")))
             (Some Scraper.NoAuthentication) in
  Scraper.JMXscrape p true
  = (Some true, [Scraper.Get (lit "http://localhost:9999/jmx") None])
  /\ lit "http://localhost:9999/jmx" <> [].
Proof.
  intro p. split; [reflexivity|].
  pose proof (JMXscrape_requests p true) as H.
  change (Scraper.JMXscrape p true)
    with (Some true, [Scraper.Get (lit "http://localhost:9999/jmx") None]) in H.
  destruct H as (_ & Hget & _).
  destruct (Hget _ (or_introl eq_refl)) as (url & auth & E & Hurl & _).
  injection E as <- _. exact Hurl.
Defined.

(** X18.  A collection of details that fails after a URL has been entered
    (the authentication pick dismissed, or a credential left empty) ends in
    a state from which the plain command does nothing at all: it shows no
    prompt, sends no request, and leaves the provider as it is, whatever
    the inputs. *)
Theorem failed_collection_dead_end
    (changeConfig : bool) (p p1 : Scraper.Provider) (user : Scraper.User)
    (prompts : list Scraper.Event) (fulfilled : bool) (now : str) :
  Scraper.given (Scraper.jmxUrl p) = false \/ changeConfig = true ->
  Scraper.collectJMXScrapingDetails p user = (false, p1, prompts) ->
  Scraper.given (Scraper.enterUrl user) = true ->
  Scraper.pickMethod user = Some Scraper.Endpoint ->
  Scraper.scrapeJMXMetrics changeConfig p user fulfilled now = (p1, prompts)
  /\ forall user' fulfilled' now',
       Scraper.scrapeJMXMetrics false p1 user' fulfilled' now' = (p1, []).
Proof.
  intros Hgate H Hurl Hmethod. split.
  - unfold Scraper.scrapeJMXMetrics.
    assert (G : negb (Scraper.given (Scraper.jmxUrl p)) || changeConfig = true).
    { destruct Hgate as [-> | ->]; [reflexivity | apply orb_true_r]. }
    rewrite G, H. reflexivity.
  - intros user' fulfilled' now'. clear Hgate.
    unfold Scraper.collectJMXScrapingDetails in H.
    cases_of_user user; simpl in H, Hurl, Hmethod;
      try discriminate H; try discriminate Hurl; try discriminate Hmethod;
      injection H as <- <-; reflexivity.
Qed.

Lemma failed_collection_dead_end_witness :
  let user := {| Scraper.pickMethod := Some Scraper.Endpoint;
                 Scraper.enterUrl := Some (lit "http://localhost:9999/jmx");
                 Scraper.pickAuth := None;
                 Scraper.enterUsername := None;
                 Scraper.enterPassword := None |} in
  let answers := {| Scraper.pickMethod := Some Scraper.Endpoint;
                    Scraper.enterUrl := Some (lit "http://localhost:9999/jmx");
                    Scraper.pickAuth := Some Scraper.NoAuthentication;
                    Scraper.enterUsername := None;
                    Scraper.enterPassword := None |} in
  exists p1 prompts,
    Scraper.scrapeJMXMetrics false (Scraper.initial []) user true (lit "10:00:00")
    = (p1, prompts)
    /\ Scraper.scrapeJMXMetrics false p1 answers true (lit "10:01:00") = (p1, []).
Proof.
  intros user answers.
  destruct (Scraper.collectJMXScrapingDetails (Scraper.initial []) user)
    as [[ok p1] prompts] eqn:H.
  assert (ok = false) as -> by (vm_compute in H; congruence).
  exists p1, prompts.
  destruct (failed_collection_dead_end false (Scraper.initial []) p1 user prompts
              true (lit "10:00:00") (or_introl eq_refl) H eq_refl eq_refl)
    as [Hrun Hdead].
  split; [exact Hrun | apply Hdead].
Defined.

Lemma collect_keeps (p : Scraper.Provider) (user : Scraper.User) :
  let '(details, p', prompts) := Scraper.collectJMXScrapingDetails p user in
  Scraper.jmxData p' = Scraper.jmxData p
  /\ Scraper.lastScrape p' = Scraper.lastScrape p
  /\ forallb Scraper.isPrompt prompts = true
  /\ (details = true -> Scraper.given (Scraper.jmxUrl p') = true).
Proof.
  unfold Scraper.collectJMXScrapingDetails.
  cases_of_user user; simpl; repeat split; discriminate.
Qed.

Lemma prompts_no_fire (events : list Scraper.Event) :
  forallb Scraper.isPrompt events = true ->
  filter Scraper.isFire events = [] /\ filter Scraper.isGet events = [].
Proof.
  induction events as [|e events IH]; simpl; [auto|].
  intro H. apply andb_true_iff in H as [He Hrest].
  destruct (IH Hrest) as [-> ->]. now destruct e.
Qed.

(** What the second half of [scrapeJMXMetrics] does to the provider. *)
Lemma scrapeWithDetails_cases (p : Scraper.Provider) (fulfilled : bool) (now : str) :
  let '(p', events) := Scraper.scrapeWithDetails p fulfilled now in
  (p' = p /\ filter Scraper.isFire events = []
   /\ length (filter Scraper.isGet events) <= 1)
  \/ (p' = Scraper.setLastScrape p (lit "Last scraped at: " ++ now)
      /\ filter Scraper.isFire events = [Scraper.Fire]
      /\ length (filter Scraper.isGet events) = 1
      /\ fulfilled = true).
Proof.
  unfold Scraper.scrapeWithDetails, Scraper.JMXscrape.
  destruct p as [last [[|]|] [[|c url]|] [[| | |]|] token [[|? ?]|] [[|? ?]|] data];
    destruct fulfilled; simpl; auto 6.
Qed.

Lemma scrapeJMXMetrics_step
    (changeConfig : bool) (p : Scraper.Provider) (user : Scraper.User)
    (fulfilled : bool) (now : str) :
  let '(p', events) := Scraper.scrapeJMXMetrics changeConfig p user fulfilled now in
  (Scraper.jmxData p' = Scraper.jmxData p \/ Scraper.jmxData p' = [])
  /\ length (filter Scraper.isFire events) <= length (filter Scraper.isGet events)
  /\ ((filter Scraper.isFire events = []
       /\ Scraper.lastScrape p' = Scraper.lastScrape p)
      \/ (filter Scraper.isFire events = [Scraper.Fire]
          /\ Scraper.lastScrape p' = lit "Last scraped at: " ++ now
          /\ (negb (Scraper.given (Scraper.jmxUrl p)) || changeConfig = true ->
              Scraper.jmxData p' = []))).
Proof.
  unfold Scraper.scrapeJMXMetrics.
  destruct (negb (Scraper.given (Scraper.jmxUrl p)) || changeConfig) eqn:G.
  - pose proof (collect_keeps p user) as K.
    destruct (Scraper.collectJMXScrapingDetails p user) as [[details p1] prompts].
    destruct K as (Kd & Kl & Kp & _).
    destruct (prompts_no_fire prompts Kp) as [Pf Pg].
    destruct details; cbn [negb].
    + pose proof (scrapeWithDetails_cases (Scraper.setJMXData p1 []) fulfilled now) as W.
      destruct (Scraper.scrapeWithDetails (Scraper.setJMXData p1 []) fulfilled now)
        as [p2 events].
      rewrite !filter_app, Pf, Pg. cbn [app].
      destruct W as [(-> & Wf & Wg) | (-> & Wf & Wg & _)]; rewrite Wf; simpl.
      * split; [now right|]. split; [lia|]. left. now split.
      * split; [now right|]. split; [lia|]. right. repeat split.
    + rewrite Pf, Pg. split; [now left|]. split; [simpl; lia|]. left. now split.
  - pose proof (scrapeWithDetails_cases p fulfilled now) as W.
    destruct (Scraper.scrapeWithDetails p fulfilled now) as [p2 events].
    destruct W as [(-> & Wf & Wg) | (-> & Wf & Wg & _)]; rewrite Wf; simpl.
    + split; [now left|]. split; [lia|]. left. now split.
    + split; [now left|]. split; [lia|]. right. repeat split. discriminate.
Qed.

Lemma runs_step (p : Scraper.Provider) (rs : list Scraper.Run) :
  let '(p', events) := Scraper.runs p rs in
  (Scraper.jmxData p' = Scraper.jmxData p \/ Scraper.jmxData p' = [])
  /\ length (filter Scraper.isFire events) <= length (filter Scraper.isGet events)
  /\ ((filter Scraper.isFire events = []
       /\ Scraper.lastScrape p' = Scraper.lastScrape p)
      \/ (filter Scraper.isFire events <> []
          /\ exists t, Scraper.lastScrape p' = lit "Last scraped at: " ++ t)).
Proof.
  revert p. induction rs as [|r rs IH]; intro p; simpl.
  - split; [now left|]. split; [lia|]. left. now split.
  - pose proof (scrapeJMXMetrics_step (Scraper.changeConfig r) p (Scraper.user r)
                  (Scraper.fulfilled r) (Scraper.now r)) as S1.
    destruct (Scraper.scrapeJMXMetrics _ p _ _ _) as [p1 ev1].
    specialize (IH p1). destruct (Scraper.runs p1 rs) as [p2 ev2].
    destruct S1 as (D1 & C1 & L1). destruct IH as (D2 & C2 & L2).
    rewrite !filter_app, !length_app.
    split; [|split; [lia|]].
    + destruct D2 as [D2|D2]; [rewrite D2; exact D1 | now right].
    + destruct L2 as [(F2 & E2) | (F2 & t & E2)].
      * rewrite F2, app_nil_r, E2.
        destruct L1 as [(F1 & E1) | (F1 & E1 & _)]; rewrite F1.
        -- left. now split.
        -- right. split; [discriminate|]. exists (Scraper.now r). exact E1.
      * right. split; [|exists t; exact E2].
        intro H. apply app_eq_nil in H as [_ H]. contradiction.
Qed.

(** X19.  Over any sequence of invocations from the constructed provider:
    the cache is what it was or empty, since the scraped data is never
    stored; [lastScrape] is still [N/A] exactly when the lenses were never
    refreshed; and the lenses are refreshed at most once per request. *)
Theorem runs_invariants (cache : list (str * Scraper.JMXDetails))
    (rs : list Scraper.Run) :
  let '(p, events) := Scraper.runs (Scraper.initial cache) rs in
  (Scraper.jmxData p = cache \/ Scraper.jmxData p = [])
  /\ str_eqb (Scraper.lastScrape p) (lit "N/A")
     = negb (existsb Scraper.isFire events)
  /\ length (filter Scraper.isFire events) <= length (filter Scraper.isGet events).
Proof.
  pose proof (runs_step (Scraper.initial cache) rs) as H.
  destruct (Scraper.runs (Scraper.initial cache) rs) as [p events].
  destruct H as (D & C & L). split; [exact D|]. split; [|exact C].
  assert (X : existsb Scraper.isFire events
              = match filter Scraper.isFire events with [] => false | _ => true end).
  { clear. induction events as [|e events IH]; simpl; [reflexivity|].
    destruct (Scraper.isFire e); simpl; [reflexivity | exact IH]. }
  rewrite X.
  destruct L as [(F & E) | (F & t & E)].
  - rewrite F, E. reflexivity.
  - rewrite E. destruct (filter Scraper.isFire events); [congruence | reflexivity].
Qed.

Lemma lensesFor_scraped (p : Scraper.Provider) (range : Range) (t : str) :
  Scraper.lastScrape p = lit "Last scraped at: " ++ t ->
  map (fun lens => Scraper.command_title (Scraper.lens_command lens))
      (Scraper.lensesFor p range)
  = [lit "Scrape data"; lit "Edit config";
     toString (length (Scraper.jmxData p)) ++ lit " metrics (scraped at: " ++ t
       ++ lit ")"].
Proof. intro H. unfold Scraper.lensesFor. rewrite H. reflexivity. Qed.

(** X20.  After an invocation on the constructed provider that refreshes
    the lenses, every match carries three lenses, and the status lens
    reports 0 metrics at the time of the scrape, whatever the endpoint
    returned and whatever the cache held; after an invocation that does not,
    it carries the scrape lens and the status [N/A], and no lens to edit
    the configuration. *)
Theorem lenses_after_first_run
    (cache : list (str * Scraper.JMXDetails))
    (changeConfig : bool) (user : Scraper.User) (fulfilled : bool) (now : str)
    (range : Range) :
  let '(p, events) :=
    Scraper.scrapeJMXMetrics changeConfig (Scraper.initial cache) user fulfilled now in
  map (fun lens => Scraper.command_title (Scraper.lens_command lens))
      (Scraper.lensesFor p range)
  = if existsb Scraper.isFire events
    then [lit "Scrape data"; lit "Edit config";
          lit "0 metrics (scraped at: " ++ now ++ lit ")"]
    else [lit "Scrape data"; lit "N/A"].
Proof.
  pose proof (scrapeJMXMetrics_step changeConfig (Scraper.initial cache) user
                fulfilled now) as H.
  destruct (Scraper.scrapeJMXMetrics _ _ _ _ _) as [p events].
  destruct H as (_ & _ & [(F & E) | (F & E & D)]).
  - assert (X : existsb Scraper.isFire events = false).
    { clear -F. induction events as [|e events IH]; simpl in *; [reflexivity|].
      destruct (Scraper.isFire e); [discriminate F | exact (IH F)]. }
    rewrite X. unfold Scraper.lensesFor. rewrite E. reflexivity.
  - assert (X : existsb Scraper.isFire events = true).
    { clear -F. induction events as [|e events IH]; simpl in *; [discriminate F|].
      destruct (Scraper.isFire e); [reflexivity|exact (IH F)]. }
    rewrite X, (lensesFor_scraped p range now E), (D eq_refl). reflexivity.
Qed.

(** ** Opening a screen *)

Lemma startsWith_app (a b : str) : startsWith (a ++ b) a = true.
Proof.
  induction a as [|c a IH]; [reflexivity|].
  simpl. now rewrite Ascii.eqb_refl, IH.
Qed.

(** X21.  Every call of [openScreen] ends in exactly one thing the user
    sees: one page opened on the connected tenant, or one message.  Without
    a connected environment that is the warning that the screen could not
    be opened. *)
Theorem openScreen_one_outcome
    (entityType : str) (screenType : Screens.ScreenType)
    (environment : Screens.Awaited (option Screens.Tenant))
    (entities : Screens.Awaited (list str)) :
  let effects := Screens.openScreen entityType screenType environment entities in
  ((exists uri tenant,
      filter Screens.isVisible effects = [Screens.OpenExternal uri]
      /\ environment = Screens.Fulfilled (Some tenant)
      /\ startsWith uri (Screens.url tenant) = true)
   \/ (exists level message,
         filter Screens.isVisible effects = [Screens.ShowMessage level message]))
  /\ (environment = Screens.Fulfilled None -> effects = [Screens.couldNotOpen]).
Proof.
  cbv zeta. split.
  - unfold Screens.openScreen.
    destruct environment as [[tenant|]|]; try (right; do 2 eexists; reflexivity).
    destruct screenType.
    + left. eexists. exists tenant. split; [reflexivity|]. split; [reflexivity|].
      destruct (includes _ _); rewrite <- ?app_assoc; apply startsWith_app.
    + destruct entities as [[|entityId ids]|];
        try (right; do 2 eexists; reflexivity).
      left. eexists. exists tenant. split; [reflexivity|]. split; [reflexivity|].
      destruct (includes _ _); rewrite <- ?app_assoc; apply startsWith_app.
  - intros ->. reflexivity.
Qed.

Lemma openScreen_one_outcome_witness :
  Screens.openScreen (lit "jmx:memory") Screens.ListScreen
    (Screens.Fulfilled None) Screens.Rejected
  = [Screens.ShowMessage (lit "warn") (lit "Could not open screen.")].
Proof.
  exact (proj2 (openScreen_one_outcome (lit "jmx:memory") Screens.ListScreen
                  (Screens.Fulfilled None) Screens.Rejected) eq_refl).
Defined.

(** ** The catalogue of diagnostics *)

Lemma NoDup_map_In {A B : Type} (f : A -> B) (l : list A) (a b : A) :
  NoDup (map f l) -> In a l -> In b l -> f a = f b -> a = b.
Proof.
  induction l as [|x l IH]; simpl; [contradiction|].
  intros H Ha Hb E. inversion H as [|? ? Hx Hl]; subst.
  destruct Ha as [<-|Ha], Hb as [<-|Hb].
  - reflexivity.
  - exfalso. apply Hx. rewrite E. now apply in_map.
  - exfalso. apply Hx. rewrite <- E. now apply in_map.
  - now apply IH.
Qed.

Lemma catalogue_codes :
  NoDup (map Diagnostics.code Diagnostics.catalogue).
Proof.
  vm_compute.
  repeat (constructor;
          [intro H; repeat (destruct H as [H|H]; [discriminate H|]); exact H|]).
  constructor.
Qed.

(** X22.  The codes of the catalogue are pairwise distinct, so the code of a
    diagnostic made by [extensionDiagnostic] from a catalogued entry tells
    which entry it was; the diagnostic keeps the message and the severity
    of the entry and names the add-on as its source. *)
Theorem catalogued_diagnostic_by_code
    (d1 d2 : Diagnostics.ExtensionDiagnostic)
    (s1 e1 s2 e2 : Position) :
  In d1 Diagnostics.catalogue -> In d2 Diagnostics.catalogue ->
  Diagnostics.diagnostic_code (Diagnostics.extensionDiagnostic s1 e1 d1)
  = Diagnostics.diagnostic_code (Diagnostics.extensionDiagnostic s2 e2 d2) ->
  d1 = d2
  /\ Diagnostics.diagnostic_message (Diagnostics.extensionDiagnostic s1 e1 d1)
     = Diagnostics.message d2
  /\ Diagnostics.diagnostic_severity (Diagnostics.extensionDiagnostic s1 e1 d1)
     = Diagnostics.severity d2
  /\ Diagnostics.source (Diagnostics.extensionDiagnostic s1 e1 d1)
     = lit "Dynatrace Extensions".
Proof.
  intros H1 H2 E. cbn [Diagnostics.extensionDiagnostic Diagnostics.diagnostic_code] in E.
  pose proof (NoDup_map_In Diagnostics.code _ d1 d2 catalogue_codes H1 H2 E) as ->.
  repeat split.
Qed.

Lemma catalogued_diagnostic_by_code_witness :
  Diagnostics.OID_SYNTAX_INVALID = Diagnostics.OID_SYNTAX_INVALID
  /\ Diagnostics.diagnostic_message
       (Diagnostics.extensionDiagnostic
          {| line := 3; character := 4 |} {| line := 3; character := 9 |}
          Diagnostics.OID_SYNTAX_INVALID)
     = Diagnostics.message Diagnostics.OID_SYNTAX_INVALID.
Proof.
  destruct (catalogued_diagnostic_by_code
              Diagnostics.OID_SYNTAX_INVALID Diagnostics.OID_SYNTAX_INVALID
              {| line := 3; character := 4 |} {| line := 3; character := 9 |}
              {| line := 0; character := 0 |} {| line := 0; character := 1 |})
    as (H & M & _).
  - unfold Diagnostics.catalogue. simpl. tauto.
  - unfold Diagnostics.catalogue. simpl. tauto.
  - reflexivity.
  - split; [exact H | exact M].
Defined.

(** * The text of the fragment *)

(** ** Strings without a line break *)

Lemma isLineTerminator_lower (c : ascii) :
  isLineTerminator (toLowerChar c) = isLineTerminator c.
Proof. by_cases_on_char c. Qed.

Lemma keyChar_not_terminator (c : ascii) :
  isKeyChar c = true -> isLineTerminator c = false.
Proof.
  destruct c as [[] [] [] [] [] [] [] []]; vm_compute;
    intro H; solve [reflexivity | discriminate H].
Qed.

Lemma singleLine_cons (c : ascii) (s : str) :
  singleLine (c :: s) = negb (isLineTerminator c) && singleLine s.
Proof. unfold singleLine. simpl. apply negb_orb. Qed.

Lemma singleLine_app (a b : str) :
  singleLine (a ++ b) = singleLine a && singleLine b.
Proof. unfold singleLine. rewrite existsb_app. apply negb_orb. Qed.

Lemma singleLine_toLowerCase (s : str) : singleLine (toLowerCase s) = singleLine s.
Proof.
  induction s as [|c s IH]; [reflexivity|].
  change (toLowerCase (c :: s)) with (toLowerChar c :: toLowerCase s).
  now rewrite !singleLine_cons, isLineTerminator_lower, IH.
Qed.

Lemma singleLine_keyChars (s : str) :
  Forall (fun c => isKeyChar c = true) s -> singleLine s = true.
Proof.
  intro H. induction H as [|c s Hc _ IH]; [reflexivity|].
  now rewrite singleLine_cons, (keyChar_not_terminator c Hc), IH.
Qed.

Lemma singleLine_replaceEqualsComma (s : str) :
  singleLine (replaceEqualsComma s) = singleLine s.
Proof.
  induction s as [|c|c d s IHs IHds] using pair_induction; try reflexivity.
  rewrite replaceEqualsComma_cons2.
  destruct (Ascii.eqb c "=") eqn:Ec, (Ascii.eqb d ",") eqn:Ed; cbn [andb].
  - apply Ascii.eqb_eq in Ec, Ed. subst c d.
    rewrite !singleLine_cons, IHs. reflexivity.
  - now rewrite (singleLine_cons c (d :: s)), singleLine_cons, IHds.
  - now rewrite (singleLine_cons c (d :: s)), singleLine_cons, IHds.
  - now rewrite (singleLine_cons c (d :: s)), singleLine_cons, IHds.
Qed.

Lemma singleLine_formatQuery (s : str) : singleLine (formatQuery s) = singleLine s.
Proof.
  unfold formatQuery. cbv zeta. destruct (endsWith _ _).
  - rewrite singleLine_app, singleLine_replaceEqualsComma. apply andb_true_r.
  - apply singleLine_replaceEqualsComma.
Qed.

Lemma singleLine_trueMetricKey (fullPath name : str) :
  singleLine name = true -> singleLine (trueMetricKey fullPath name) = true.
Proof.
  intro H.
  destruct (trueMetricKey_shape fullPath name) as (p & sep & rest & -> & E & Hsep).
  pose proof (ConvertMetricKey_keyChars fullPath) as K. rewrite E in K.
  rewrite !singleLine_app, singleLine_toLowerCase, H.
  rewrite (singleLine_keyChars p (Forall_prefix _ _ _ K)).
  now destruct Hsep as [-> | ->].
Qed.

Lemma singleLine_digits (u : Decimal.uint) :
  singleLine (lit (NilEmpty.string_of_uint u)) = true.
Proof.
  induction u; simpl; try reflexivity; rewrite singleLine_cons, IHu; reflexivity.
Qed.

Lemma singleLine_toString (n : nat) : singleLine (toString n) = true.
Proof.
  unfold toString, NilZero.string_of_uint.
  destruct (Nat.to_uint n); try reflexivity; apply singleLine_digits.
Qed.

(** ** Lines *)

Lemma splitLines_line (l rest : str) :
  singleLine l = true ->
  splitLines (l ++ "010" :: rest) = l :: splitLines rest.
Proof.
  induction l as [|c l IH]; intro H; [reflexivity|].
  rewrite singleLine_cons in H. apply andb_true_iff in H as [Hc Hl].
  apply negb_true_iff in Hc. simpl. rewrite Hc, (IH Hl). reflexivity.
Qed.

Lemma splitLines_lines (ls : list str) :
  forallb singleLine ls = true ->
  splitLines (flat_map (fun l => l ++ nl) ls) = ls ++ [[]].
Proof.
  induction ls as [|l ls IH]; intro H; [reflexivity|].
  simpl in H. apply andb_true_iff in H as [Hl Hls].
  simpl. rewrite <- app_assoc.
  change (nl ++ flat_map (fun l0 => l0 ++ nl) ls)
    with ("010" :: flat_map (fun l0 => l0 ++ nl) ls).
  now rewrite (splitLines_line l _ Hl), (IH Hls).
Qed.

Lemma linesOf_lines (ls : list str) :
  forallb singleLine ls = true ->
  linesOf (flat_map (fun l => l ++ nl) ls) = ls.
Proof.
  intro H. unfold linesOf. rewrite (splitLines_lines ls H).
  apply removelast_last.
Qed.

Lemma renderPiece_lines (p : Piece) :
  renderPiece p = flat_map (fun l => l ++ nl) (pieceLines p).
Proof.
  destruct p; simpl; rewrite <- ?app_assoc; reflexivity.
Qed.

Lemma render_lines (ps : list Piece) :
  render ps = flat_map (fun l => l ++ nl) (flat_map pieceLines ps).
Proof.
  unfold render. induction ps as [|p ps IH]; [reflexivity|].
  simpl. now rewrite flat_map_app, IH, renderPiece_lines.
Qed.

(** The lines of the text are the lines of its pieces when no string in
    them breaks the line. *)
Lemma linesOf_render (ps : list Piece) :
  forallb cleanPiece ps = true ->
  linesOf (render ps) = flat_map pieceLines ps.
Proof.
  intro H. rewrite render_lines. apply linesOf_lines.
  rewrite forallb_flat_map. exact H.
Qed.

(** ** The pieces of a well-formed element *)

Lemma subgroupPieces_closed (rolled : bool) (element : Element) :
  wellFormedElement element = true ->
  subgroupPieces rolled element
  = Ok (SubgroupHeader rolled (pathOf element) (formatQuery (pathOf element))
          :: dimensionPieces element ++ MetricsHeader :: metricPieces element).
Proof.
  unfold wellFormedElement, dimensionPieces, metricPieces, pathOf, subgroupPieces.
  destruct (fullPath element) as [| | | |path|]; try discriminate.
  destruct (properties element) as [props|]; [|discriminate].
  destruct (metrics element) as [ms|]; [|discriminate].
  cbn [isString andb entries asString present bind]. intro Hwf.
  destruct (mapM_dimensionOf ms Hwf) as (dims & -> & Ed).
  destruct (mapM_gaugeOf path ms Hwf) as (gauges & -> & Eg).
  cbn [bind]. rewrite Ed, Eg, hasMetric_filter.
  destruct (filter isNumeric ms) as [|m numerics]; simpl.
  - now rewrite <- app_assoc.
  - now rewrite <- app_assoc, app_nil_r.
Qed.

Lemma forallb_map {A B : Type} (f : B -> bool) (g : A -> B) (l : list A) :
  forallb f (map g l) = forallb (fun a => f (g a)) l.
Proof. induction l as [|a l IH]; simpl; [reflexivity|]. now rewrite IH. Qed.

Lemma forallb_filter {A : Type} (f g : A -> bool) (l : list A) :
  forallb f l = true -> forallb f (filter g l) = true.
Proof.
  induction l as [|a l IH]; simpl; [reflexivity|].
  intro H. apply andb_true_iff in H as [Ha Hl].
  destruct (g a); simpl; rewrite ?Ha; auto.
Qed.

Lemma forallb_implies {A : Type} (f g : A -> bool) (l : list A) :
  (forall a, f a = true -> g a = true) -> forallb f l = true -> forallb g l = true.
Proof.
  intros Hfg. induction l as [|a l IH]; simpl; [reflexivity|].
  intro H. apply andb_true_iff in H as [Ha Hl].
  now rewrite (Hfg a Ha), (IH Hl).
Qed.

Lemma singleLine_pathOf (element : Element) :
  singleLineValue (fullPath element) = true -> singleLine (pathOf element) = true.
Proof. unfold pathOf. now destruct (fullPath element). Qed.

Lemma singleLine_nameOf (metric : Metric) :
  singleLineValue (name metric) = true -> singleLine (nameOf metric) = true.
Proof. unfold nameOf. now destruct (name metric). Qed.

Lemma cleanPiece_GroupHeader (n : nat) : cleanPiece (GroupHeader n) = true.
Proof.
  unfold cleanPiece. cbn [pieceLines forallb].
  now rewrite singleLine_app, singleLine_toString.
Qed.

Lemma cleanPiece_SubgroupHeader (rolled : bool) (path : str) :
  singleLine path = true ->
  cleanPiece (SubgroupHeader rolled path (formatQuery path)) = true.
Proof.
  intro H. unfold cleanPiece. cbn [pieceLines forallb].
  rewrite !singleLine_app, singleLine_formatQuery, H. now destruct rolled.
Qed.

Lemma cleanPiece_PropertyDimension (key : str) :
  singleLine key = true -> cleanPiece (PropertyDimension key) = true.
Proof.
  intro H. unfold cleanPiece. cbn [pieceLines forallb].
  now rewrite !singleLine_app, singleLine_toLowerCase, H.
Qed.

Lemma cleanPiece_AttributeDimension (n : str) :
  singleLine n = true -> cleanPiece (AttributeDimension n) = true.
Proof.
  intro H. unfold cleanPiece. cbn [pieceLines forallb].
  now rewrite !singleLine_app, singleLine_toLowerCase, H.
Qed.

Lemma cleanPiece_GaugeMetric (path n : str) :
  singleLine n = true -> cleanPiece (GaugeMetric (trueMetricKey path n) n) = true.
Proof.
  intro H. unfold cleanPiece. cbn [pieceLines forallb].
  now rewrite !singleLine_app, (singleLine_trueMetricKey path n H), H.
Qed.

Lemma clean_dimensionPieces (element : Element) :
  singleLineElement element = true ->
  forallb cleanPiece (dimensionPieces element) = true.
Proof.
  unfold singleLineElement, dimensionPieces. intro H.
  apply andb_true_iff in H as [H Hms]. apply andb_true_iff in H as [_ Hprops].
  rewrite forallb_app, !forallb_map. apply andb_true_iff. split.
  - revert Hprops. apply forallb_implies.
    intros kv. apply cleanPiece_PropertyDimension.
  - apply forallb_filter. revert Hms. apply forallb_implies.
    intros m Hm. apply cleanPiece_AttributeDimension. now apply singleLine_nameOf.
Qed.

Lemma clean_metricPieces (element : Element) :
  singleLineElement element = true ->
  forallb cleanPiece (metricPieces element) = true.
Proof.
  unfold singleLineElement, metricPieces. intro H.
  apply andb_true_iff in H as [_ Hms].
  assert (Hn : forallb (fun m => cleanPiece
                          (GaugeMetric (trueMetricKey (pathOf element) (nameOf m))
                             (nameOf m)))
                 (filter isNumeric (entries (metrics element))) = true).
  { apply forallb_filter. revert Hms. apply forallb_implies.
    intros m Hm. apply cleanPiece_GaugeMetric. now apply singleLine_nameOf. }
  destruct (filter isNumeric (entries (metrics element))); [reflexivity|].
  now rewrite forallb_map.
Qed.

Lemma addElement_clean (st st' : GenState) (element : Element) :
  singleLineElement element = true ->
  forallb cleanPiece (yamlString st) = true ->
  addElement st element = Ok st' ->
  forallb cleanPiece (yamlString st') = true.
Proof.
  intros Hsl Hst H.
  assert (Hwf : wellFormedElement element = true).
  { rewrite <- (isOk_addElement st), H. reflexivity. }
  assert (Hbody : forall rolled,
             forallb cleanPiece
               (SubgroupHeader rolled (pathOf element) (formatQuery (pathOf element))
                  :: dimensionPieces element ++ MetricsHeader :: metricPieces element)
             = true).
  { intro rolled. cbn [forallb]. rewrite forallb_app. cbn [forallb].
    rewrite (clean_dimensionPieces _ Hsl), (clean_metricPieces _ Hsl).
    rewrite cleanPiece_SubgroupHeader; [reflexivity|].
    apply singleLine_pathOf. unfold singleLineElement in Hsl.
    apply andb_true_iff in Hsl as [Hsl _]. now apply andb_true_iff in Hsl as [Hsl _]. }
  unfold addElement in H.
  destruct (subgroupCount st <? 10);
    rewrite (subgroupPieces_closed _ _ Hwf) in H; cbn [bind] in H;
    injection H as <-; cbn [yamlString app]; rewrite forallb_app, Hst.
  - apply Hbody.
  - cbn [forallb andb]. fold (forallb cleanPiece).
    rewrite cleanPiece_GroupHeader. apply (Hbody true).
Qed.

Lemma foldM_clean (es : list Element) (st st' : GenState) :
  forallb singleLineElement es = true ->
  forallb cleanPiece (yamlString st) = true ->
  foldM addElement es st = Ok st' ->
  forallb cleanPiece (yamlString st') = true.
Proof.
  revert st. induction es as [|e es IH]; simpl; intros st Hsl Hst H.
  - now injection H as <-.
  - apply andb_true_iff in Hsl as [He Hes]. invert_bind H.
    apply (IH a Hes); [|exact H].
    eapply addElement_clean; eassumption.
Qed.

Lemma buildYaml_clean (jmxJSON : jmxDataResponse) (ps : list Piece) :
  singleLineResponse jmxJSON = true ->
  buildYaml jmxJSON = Ok ps ->
  forallb cleanPiece ps = true.
Proof.
  intros Hsl H. pose proof (buildYaml_levels _ _ H) as Hlv.
  rewrite (buildYaml_flat _ Hlv) in H. invert_bind H. injection H as <-.
  apply (foldM_clean _ initialState a Hsl); [reflexivity|exact Ha].
Qed.

(** ** The entries in the lines *)

Lemma filter_flat_map {A B : Type} (f : B -> bool) (g : A -> list B) (l : list A) :
  filter f (flat_map g l) = flat_map (fun a => filter f (g a)) l.
Proof.
  induction l as [|a l IH]; simpl; [reflexivity|]. now rewrite filter_app, IH.
Qed.

Lemma map_flat_map {A B C : Type} (f : B -> C) (g : A -> list B) (l : list A) :
  map f (flat_map g l) = flat_map (fun a => map f (g a)) l.
Proof.
  induction l as [|a l IH]; simpl; [reflexivity|]. now rewrite map_app, IH.
Qed.

Lemma tallyLine_piece (acc : list (nat * nat)) (p : Piece) :
  fold_left tallyLine (pieceLines p)
    (map (fun gk => (groupName (fst gk), snd gk)) acc)
  = map (fun gk => (groupName (fst gk), snd gk)) (tallyPiece acc p).
Proof.
  destruct p as [| |rolled ? ?| | | | |]; try reflexivity.
  destruct acc as [|[g k] acc]; destruct rolled; reflexivity.
Qed.

Lemma tallyLine_pieces (ps : list Piece) (acc : list (nat * nat)) :
  fold_left tallyLine (flat_map pieceLines ps)
    (map (fun gk => (groupName (fst gk), snd gk)) acc)
  = map (fun gk => (groupName (fst gk), snd gk)) (fold_left tallyPiece ps acc).
Proof.
  revert acc. induction ps as [|p ps IH]; intro acc; [reflexivity|].
  cbn [flat_map fold_left]. now rewrite fold_left_app, tallyLine_piece, IH.
Qed.

(** The group entries of the text are the groups of the pieces. *)
Lemma groupEntries_render (ps : list Piece) :
  forallb cleanPiece ps = true -> groupEntries (render ps) = namedTally ps.
Proof.
  intro H. unfold groupEntries, namedTally, groupTally.
  rewrite (linesOf_render ps H), map_rev. f_equal.
  exact (tallyLine_pieces ps []).
Qed.

Lemma subgroupLines_render (ps : list Piece) :
  forallb cleanPiece ps = true ->
  subgroupLines (render ps)
  = map (fun path => lit "       - subgroup: " ++ path) (subgroupPaths ps).
Proof.
  intro H. unfold subgroupLines, subgroupPaths.
  rewrite (linesOf_render ps H), filter_flat_map, map_flat_map.
  apply flat_map_ext. intros [| |rolled ? ?| | | | |]; try reflexivity.
  destruct rolled; reflexivity.
Qed.

Lemma dimensionsLines_render (ps : list Piece) :
  forallb cleanPiece ps = true ->
  dimensionsLines (render ps) = map dimensionsLine (subgroupFlags ps).
Proof.
  intro H. unfold dimensionsLines, subgroupFlags.
  rewrite (linesOf_render ps H), filter_flat_map, map_flat_map.
  apply flat_map_ext. intros [| |rolled ? ?| | | | |]; try reflexivity.
  destruct rolled; reflexivity.
Qed.

(** ** The metrics lists in the lines *)

Lemma readLine_GroupHeader (n : nat) (mode : ReadMode) (acc : list (list str)) :
  fold_left readLine (pieceLines (GroupHeader n)) (mode, acc) = (Outside, acc).
Proof. reflexivity. Qed.

Lemma readLine_SubgroupHeader (rolled : bool) (path query : str)
    (mode : ReadMode) (acc : list (list str)) :
  fold_left readLine (pieceLines (SubgroupHeader rolled path query)) (mode, acc)
  = (InHead, [] :: acc).
Proof. destruct rolled; reflexivity. Qed.

Lemma readLine_dimensions (ps : list Piece) (acc : list (list str)) :
  forallb isDimension ps = true ->
  fold_left readLine (flat_map pieceLines ps) (InHead, acc) = (InHead, acc).
Proof.
  induction ps as [|p ps IH]; intro H; [reflexivity|].
  cbn [forallb] in H. apply andb_true_iff in H as [Hp Hps].
  cbn [flat_map]. rewrite fold_left_app.
  destruct p; try discriminate Hp; exact (IH Hps).
Qed.

Lemma readLine_metrics (ps : list Piece) (cur : list str) (acc : list (list str)) :
  forallb isMetricEntry ps = true ->
  fold_left readLine (flat_map pieceLines ps) (InMetrics, cur :: acc)
  = (InMetrics, (rev (flat_map pieceLines ps) ++ cur) :: acc).
Proof.
  revert cur. induction ps as [|p ps IH]; intros cur H; [reflexivity|].
  cbn [forallb] in H. apply andb_true_iff in H as [Hp Hps].
  cbn [flat_map]. rewrite fold_left_app, rev_app_distr, <- app_assoc.
  destruct p; try discriminate Hp; exact (IH _ Hps).
Qed.

Lemma isDimension_dimensionPieces (element : Element) :
  forallb isDimension (dimensionPieces element) = true.
Proof.
  unfold dimensionPieces. rewrite forallb_app, !forallb_map.
  apply andb_true_iff. split; apply forallb_forall; reflexivity.
Qed.

Lemma isMetricEntry_metricPieces (element : Element) :
  forallb isMetricEntry (metricPieces element) = true.
Proof.
  unfold metricPieces.
  destruct (filter isNumeric (entries (metrics element))); [reflexivity|].
  rewrite forallb_map. apply forallb_forall. reflexivity.
Qed.

(** Whatever was read before, the lines of one element open a subgroup
    entry whose metrics list is the lines of its metric pieces. *)
Lemma readLine_element (rolled : bool) (element : Element)
    (mode : ReadMode) (acc : list (list str)) :
  fold_left readLine
    (flat_map pieceLines
       (SubgroupHeader rolled (pathOf element) (formatQuery (pathOf element))
          :: dimensionPieces element ++ MetricsHeader :: metricPieces element))
    (mode, acc)
  = (InMetrics, rev (flat_map pieceLines (metricPieces element)) :: acc).
Proof.
  cbn [flat_map]. rewrite fold_left_app, readLine_SubgroupHeader.
  rewrite flat_map_app, fold_left_app.
  rewrite (readLine_dimensions _ _ (isDimension_dimensionPieces element)).
  cbn [flat_map]. rewrite fold_left_app.
  change (fold_left readLine (pieceLines MetricsHeader) (InHead, [] :: acc))
    with (InMetrics, [] :: acc).
  rewrite (readLine_metrics _ _ _ (isMetricEntry_metricPieces element)).
  now rewrite app_nil_r.
Qed.

Lemma readLine_cons (p : Piece) (ps : list Piece) (s : ReadMode * list (list str)) :
  fold_left readLine (flat_map pieceLines (p :: ps)) s
  = fold_left readLine (flat_map pieceLines ps) (fold_left readLine (pieceLines p) s).
Proof. cbn [flat_map]. apply fold_left_app. Qed.

Lemma addElement_read (st st' : GenState) (element : Element)
    (s0 : ReadMode * list (list str)) :
  addElement st element = Ok st' ->
  snd (fold_left readLine (flat_map pieceLines (yamlString st')) s0)
  = rev (flat_map pieceLines (metricPieces element))
      :: snd (fold_left readLine (flat_map pieceLines (yamlString st)) s0).
Proof.
  intro H.
  assert (Hwf : wellFormedElement element = true).
  { rewrite <- (isOk_addElement st), H. reflexivity. }
  unfold addElement in H.
  destruct (subgroupCount st <? 10);
    rewrite (subgroupPieces_closed _ _ Hwf) in H; cbn [bind] in H;
    injection H as <-; cbn [yamlString]; rewrite flat_map_app, fold_left_app;
    destruct (fold_left readLine (flat_map pieceLines (yamlString st)) s0)
      as [mode acc].
  - now rewrite readLine_element.
  - cbv zeta. cbn [app].
    rewrite (readLine_cons (GroupHeader (groupCount st + 1))).
    rewrite readLine_GroupHeader. now rewrite readLine_element.
Qed.

Lemma foldM_read (es : list Element) (st st' : GenState)
    (s0 : ReadMode * list (list str)) :
  foldM addElement es st = Ok st' ->
  snd (fold_left readLine (flat_map pieceLines (yamlString st')) s0)
  = rev (map (fun e => rev (flat_map pieceLines (metricPieces e))) es)
      ++ snd (fold_left readLine (flat_map pieceLines (yamlString st)) s0).
Proof.
  revert st. induction es as [|e es IH]; simpl; intros st H.
  - now injection H as <-.
  - invert_bind H. rewrite (IH a H), (addElement_read _ _ _ _ Ha), <- app_assoc.
    reflexivity.
Qed.

(** The metrics lists of the text are the metric pieces of the elements. *)
Lemma metricsLists_render (jmxJSON : jmxDataResponse) (ps : list Piece) :
  singleLineResponse jmxJSON = true ->
  buildYaml jmxJSON = Ok ps ->
  metricsLists (render ps)
  = map (fun e => flat_map pieceLines (metricPieces e)) (elementsOf jmxJSON).
Proof.
  intros Hsl H. unfold metricsLists.
  rewrite (linesOf_render ps (buildYaml_clean _ _ Hsl H)).
  pose proof (buildYaml_levels _ _ H) as Hlv.
  rewrite (buildYaml_flat _ Hlv) in H. invert_bind H. injection H as <-.
  rewrite (foldM_read _ _ _ (Outside, []) Ha).
  change (snd (fold_left readLine (flat_map pieceLines (yamlString initialState))
                 (Outside, []))) with (@nil (list str)).
  rewrite app_nil_r, map_rev, rev_involutive, map_map.
  apply map_ext. intro e. apply rev_involutive.
Qed.

Lemma paths_pathOf (paths : list str) (es : list Element) :
  map JStr paths = map fullPath es -> paths = map pathOf es.
Proof.
  revert paths. induction es as [|e es IH]; intros [|q paths] Hq;
    try discriminate Hq; [reflexivity|].
  cbn [map] in *. injection Hq as Hq1 Hq2.
  unfold pathOf at 1. rewrite <- Hq1. f_equal. exact (IH _ Hq2).
Qed.

Lemma subgroupLines_buildYaml (jmxJSON : jmxDataResponse) (ps : list Piece) :
  singleLineResponse jmxJSON = true ->
  buildYaml jmxJSON = Ok ps ->
  subgroupLines (render ps)
  = map (fun e => lit "       - subgroup: " ++ pathOf e) (elementsOf jmxJSON).
Proof.
  intros Hsl H.
  rewrite (subgroupLines_render ps (buildYaml_clean _ _ Hsl H)).
  pose proof (buildYaml_levels _ _ H) as Hlv.
  rewrite (buildYaml_flat _ Hlv) in H. invert_bind H. injection H as <-.
  pose proof (foldM_paths _ _ _ Ha) as Hp.
  rewrite (paths_pathOf _ _ Hp). apply map_map.
Qed.

(** The text of every action of [createQueryInsertions] is the indented
    text of the fragment. *)
Lemma createQueryInsertions_text
    (indentJMXSnippet : str -> nat -> str) (jmxJSON : jmxDataResponse)
    (document : TextDocument) (range : Range)
    (ps : list Piece) (actions : list CodeAction) (action : CodeAction) :
  buildYaml jmxJSON = Ok ps ->
  JmxRevision.createQueryInsertions indentJMXSnippet jmxJSON document range
  = Ok actions ->
  In action actions ->
  exists indent,
    insert_text (edit action)
    = indentJMXSnippet (snippetFor (render ps) document range) indent.
Proof.
  intros Hps H Hin. unfold JmxRevision.createQueryInsertions in H.
  rewrite Hps in H. cbn [bind] in H. unfold createInsertAction in H.
  destruct (lineAt document (line (start range))) as [text|]; [|discriminate H].
  cbn [bind] in H. destruct (execLetter text) as [indent|]; cbn [bind] in H;
    injection H as <-; [|destruct Hin].
  destruct Hin as [<-|[]]. now exists indent.
Qed.

Lemma numericMetrics_filter (element : Element) :
  numericMetrics element = filter isNumeric (entries (metrics element)).
Proof. unfold numericMetrics. now destruct (metrics element). Qed.

(** ** Group rollover *)

(** C3, as the specification states it, fails: a path is any string, and
    with a line break in the path of the first of 23 well-formed elements
    the text of the fragment has five group entries, two of them named
    [intruder]. *)
Lemma C3_counterexample :
  wellFormedResponse responseBroken23 = true
  /\ length (elementsOf responseBroken23) = 23
  /\ exists ps,
       buildYaml responseBroken23 = Ok ps
       /\ groupEntries (render ps)
          = [(lit "group_0", 1); (lit "intruder", 0); (lit "intruder", 9);
             (lit "group_1", 10); (lit "group_2", 3)].
Proof.
  split; [vm_compute; reflexivity|]. split; [vm_compute; reflexivity|].
  eexists. split; vm_compute; reflexivity.
Qed.

(** C3, as amended.  For scrape data that is well formed and whose paths,
    property keys and attribute names hold no line break, the generator
    returns a fragment in whose text the group entries are [group_0],
    [group_1], ... in this order, each of them with ten subgroup entries but
    the last, which has the remainder (at least one when there is an
    element); for 23 elements these are [group_0], [group_1] and [group_2]
    with 10, 10 and 3 subgroup entries.  This text is what an action of
    [createQueryInsertions] inserts. *)
Theorem C3_group_rollover (jmxJSON : jmxDataResponse) :
  wellFormedResponse jmxJSON = true ->
  singleLineResponse jmxJSON = true ->
  exists ps g s,
    buildYaml jmxJSON = Ok ps
    /\ groupEntries (render ps)
       = map (fun i => (lit "group_" ++ toString i, 10)) (seq 0 g)
         ++ [(lit "group_" ++ toString g, s)]
    /\ s <= 10
    /\ 10 * g + s = length (elementsOf jmxJSON)
    /\ (0 < length (elementsOf jmxJSON) -> 1 <= s)
    /\ (length (elementsOf jmxJSON) = 23 ->
        groupEntries (render ps)
        = [(lit "group_0", 10); (lit "group_1", 10); (lit "group_2", 3)])
    /\ (forall indentJMXSnippet document range actions action,
          JmxRevision.createQueryInsertions indentJMXSnippet jmxJSON document range
          = Ok actions ->
          In action actions ->
          exists indent,
            insert_text (edit action)
            = indentJMXSnippet (snippetFor (render ps) document range) indent).
Proof.
  intros Hwf Hsl. pose proof Hwf as Hok.
  rewrite <- isOk_buildYaml in Hok. apply isOk_true in Hok as [ps Hps].
  pose proof (groupEntries_render ps (buildYaml_clean _ _ Hsl Hps)) as Htext.
  pose proof Hps as Hflat.
  rewrite (buildYaml_flat _ (buildYaml_levels _ _ Hps)) in Hflat.
  invert_bind Hflat. injection Hflat as <-. rename a into st.
  destruct (foldM_invariant _ _ _ _ initialState_invariant Ha)
    as (Ht & Hs & Hn & Hpos).
  cbn [Nat.add] in Hn, Hpos.
  assert (Tally : groupEntries (render (yamlString st))
                  = map (fun i => (lit "group_" ++ toString i, 10))
                      (seq 0 (groupCount st))
                    ++ [(lit "group_" ++ toString (groupCount st), subgroupCount st)]).
  { rewrite Htext. unfold namedTally, groupTally. rewrite Ht.
    cbn [rev]. rewrite rev_involutive, map_app. unfold fullGroups.
    rewrite map_map. reflexivity. }
  exists (yamlString st), (groupCount st), (subgroupCount st).
  split; [exact Hps|]. split; [exact Tally|].
  split; [exact Hs|]. split; [exact Hn|]. split; [exact Hpos|]. split.
  - intro H23. rewrite Tally.
    assert (groupCount st = 2 /\ subgroupCount st = 3) as [-> ->] by lia.
    reflexivity.
  - intros indentJMXSnippet document range actions action.
    apply createQueryInsertions_text. exact Hps.
Qed.

Lemma C3_group_rollover_witness :
  exists ps,
    buildYaml response23 = Ok ps
    /\ groupEntries (render ps)
       = [(lit "group_0", 10); (lit "group_1", 10); (lit "group_2", 3)].
Proof.
  assert (Hwf : wellFormedResponse response23 = true) by (vm_compute; reflexivity).
  assert (Hsl : singleLineResponse response23 = true) by (vm_compute; reflexivity).
  destruct (C3_group_rollover response23 Hwf Hsl)
    as (ps & g & s & Hps & _ & _ & _ & _ & H23 & _).
  exists ps. split; [exact Hps|]. apply H23. vm_compute. reflexivity.
Defined.

(** ** The placeholder metric in the text *)

(** C6, as the specification states it, fails: the name of an attribute is
    any string, and with a line break in the name of its only, non-numeric
    attribute the subgroup of an element has a metrics list in the text that
    holds more than the constant entry. *)
Lemma C6_counterexample :
  wellFormedResponse (responseOf [[brokenNameElement]]) = true
  /\ length (numericMetrics brokenNameElement) = 0
  /\ exists ps,
       buildYaml (responseOf [[brokenNameElement]]) = Ok ps
       /\ metricsLists (render ps)
          = [[lit "            value: attribute:VmName";
              lit "         metrics: ";
              lit "         metrics: ";
              lit "          - key: jmx.const.value ";
              lit "            type: gauge ";
              lit "            value: const:1 "]].
Proof.
  split; [vm_compute; reflexivity|]. split; [vm_compute; reflexivity|].
  eexists. split; vm_compute; reflexivity.
Qed.

(** C6, as amended.  For scrape data that is well formed and whose paths,
    property keys and attribute names hold no line break, the text of the
    fragment has one subgroup entry per element, in order, and the metrics
    list of the subgroup of an element without numeric attribute is exactly
    the three lines of the constant entry.  This text is what an action of
    [createQueryInsertions] inserts. *)
Theorem C6_constant_placeholder
    (jmxJSON : jmxDataResponse) (i : nat) (element : Element) :
  wellFormedResponse jmxJSON = true ->
  singleLineResponse jmxJSON = true ->
  nth_error (elementsOf jmxJSON) i = Some element ->
  length (numericMetrics element) = 0 ->
  exists ps,
    buildYaml jmxJSON = Ok ps
    /\ length (metricsLists (render ps)) = length (elementsOf jmxJSON)
    /\ nth_error (subgroupLines (render ps)) i
       = Some (lit "       - subgroup: " ++ pathOf element)
    /\ nth_error (metricsLists (render ps)) i
       = Some [lit "          - key: jmx.const.value ";
               lit "            type: gauge ";
               lit "            value: const:1 "]
    /\ (forall indentJMXSnippet document range actions action,
          JmxRevision.createQueryInsertions indentJMXSnippet jmxJSON document range
          = Ok actions ->
          In action actions ->
          exists indent,
            insert_text (edit action)
            = indentJMXSnippet (snippetFor (render ps) document range) indent).
Proof.
  intros Hwf Hsl Hi Hnum. pose proof Hwf as Hok.
  rewrite <- isOk_buildYaml in Hok. apply isOk_true in Hok as [ps Hps].
  exists ps. split; [exact Hps|].
  rewrite (metricsLists_render _ _ Hsl Hps), (subgroupLines_buildYaml _ _ Hsl Hps).
  split; [apply length_map|]. split; [|split].
  - now rewrite nth_error_map, Hi.
  - rewrite nth_error_map, Hi. cbn [option_map]. f_equal.
    apply length_zero_iff_nil in Hnum. rewrite numericMetrics_filter in Hnum.
    unfold metricPieces. rewrite Hnum. reflexivity.
  - intros indentJMXSnippet document range actions action.
    apply createQueryInsertions_text. exact Hps.
Qed.

Lemma C6_constant_placeholder_witness :
  exists ps,
    buildYaml response23 = Ok ps
    /\ nth_error (metricsLists (render ps)) 5
       = Some [lit "          - key: jmx.const.value ";
               lit "            type: gauge ";
               lit "            value: const:1 "].
Proof.
  assert (Hwf : wellFormedResponse response23 = true) by (vm_compute; reflexivity).
  assert (Hsl : singleLineResponse response23 = true) by (vm_compute; reflexivity).
  assert (Hi : nth_error (elementsOf response23) 5 = Some runtimeElement)
    by (vm_compute; reflexivity).
  assert (Hnum : length (numericMetrics runtimeElement) = 0)
    by (vm_compute; reflexivity).
  destruct (C6_constant_placeholder response23 5 runtimeElement Hwf Hsl Hi Hnum)
    as (ps & Hps & _ & _ & Hconst & _).
  exists ps. split; [exact Hps | exact Hconst].
Defined.

(** ** Malformed scrape data *)

(** C8, as amended.  The generator returns a fragment exactly when the
    scrape data is well formed: [jmxData], the [data] of every domain and
    the [data] of every MBean can be enumerated, and every element is well
    formed.  Then the fragment has one subgroup per element, in order (and
    so has its text, when no string breaks the line).  Otherwise a level is
    missing, as in the empty cache, or some element is malformed; the
    generator throws a [TypeError], and so does [createQueryInsertions]:
    nothing is skipped and nothing is emitted. *)
Theorem C8_generation_all_or_nothing (jmxJSON : jmxDataResponse) :
  isOk (buildYaml jmxJSON) = wellFormedResponse jmxJSON
  /\ buildYaml emptyCache = Throw TypeError
  /\ match buildYaml jmxJSON with
     | Ok ps =>
         map JStr (subgroupPaths ps) = map fullPath (elementsOf jmxJSON)
         /\ (singleLineResponse jmxJSON = true ->
             subgroupLines (render ps)
             = map (fun e => lit "       - subgroup: " ++ pathOf e)
                 (elementsOf jmxJSON))
     | Throw e =>
         e = TypeError
         /\ (levelsPresent jmxJSON = false
             \/ exists element,
                  In element (elementsOf jmxJSON)
                  /\ wellFormedElement element = false)
         /\ (forall indentJMXSnippet document range,
               JmxRevision.createQueryInsertions indentJMXSnippet jmxJSON document range
               = Throw TypeError)
     end.
Proof.
  split; [apply isOk_buildYaml|]. split; [reflexivity|].
  pose proof (isOk_buildYaml jmxJSON) as Hok.
  pose proof (buildYaml_raises jmxJSON) as Hraise.
  destruct (buildYaml jmxJSON) as [ps|e] eqn:Hb.
  - split.
    + pose proof Hb as Hflat.
      rewrite (buildYaml_flat _ (buildYaml_levels _ _ Hb)) in Hflat.
      invert_bind Hflat. injection Hflat as <-.
      now rewrite (foldM_paths _ _ _ Ha).
    + intro Hsl. exact (subgroupLines_buildYaml _ _ Hsl Hb).
  - rewrite (Hraise e eq_refl) in *. split; [reflexivity|]. split.
    + cbn [isOk] in Hok. symmetry in Hok. unfold wellFormedResponse in Hok.
      apply andb_false_iff in Hok as [Hlv|Hel]; [now left|right].
      now apply forallb_false.
    + intros. unfold JmxRevision.createQueryInsertions. now rewrite Hb.
Qed.

Lemma C8_generation_all_or_nothing_witness :
  isOk (buildYaml (responseOf [[memoryElement; namelessElement; runtimeElement]]))
  = false
  /\ exists ps,
       buildYaml (responseOf [[memoryElement; runtimeElement]]) = Ok ps
       /\ subgroupLines (render ps)
          = [lit "       - subgroup: java.lang:type=Memory,name=";
             lit "       - subgroup: java.lang:type=Runtime"].
Proof.
  split.
  - rewrite (proj1 (C8_generation_all_or_nothing
                      (responseOf [[memoryElement; namelessElement; runtimeElement]]))).
    vm_compute. reflexivity.
  - assert (Hb : exists ps,
               buildYaml (responseOf [[memoryElement; runtimeElement]]) = Ok ps)
      by (vm_compute; eexists; reflexivity).
    destruct Hb as [ps Hb]. exists ps. split; [exact Hb|].
    destruct (C8_generation_all_or_nothing
                (responseOf [[memoryElement; runtimeElement]])) as (_ & _ & H).
    rewrite Hb in H. destruct H as [_ H].
    rewrite H by (vm_compute; reflexivity). vm_compute. reflexivity.
Defined.

(** ** Scrape data without elements, and the two spellings *)

(** X9.  Scrape data without any element gives a fragment when its levels
    can all be enumerated: the text is the groups header and an empty first
    group.  When a level is missing, as in the empty cache, the generator
    throws a [TypeError] although there is no element to read. *)
Theorem buildYaml_no_elements (jmxJSON : jmxDataResponse) :
  elementsOf jmxJSON = [] ->
  if levelsPresent jmxJSON
  then exists ps,
         buildYaml jmxJSON = Ok ps
         /\ ps = [GroupsHeader; GroupHeader 0]
         /\ render ps
            = lit "  groups:
  - group: group_0
    subgroups: 
"
  else buildYaml jmxJSON = Throw TypeError.
Proof.
  intro H. destruct (levelsPresent jmxJSON) eqn:Hlv.
  - exists [GroupsHeader; GroupHeader 0].
    rewrite (buildYaml_flat _ Hlv), H. repeat split.
  - pose proof (isOk_buildYaml jmxJSON) as Hok.
    unfold wellFormedResponse in Hok. rewrite Hlv in Hok.
    pose proof (buildYaml_raises jmxJSON) as Hraise.
    destruct (buildYaml jmxJSON) as [ps|e]; [discriminate Hok|].
    now rewrite (Hraise e eq_refl).
Qed.

Lemma buildYaml_no_elements_witness :
  (exists ps,
     buildYaml {| process_name := None;
                  jmxData :=
                    Some [(lit "java.lang", {| domain_data := Some [] |});
                          (lit "java.nio",
                           {| domain_data :=
                                Some [(lit "BufferPool",
                                       {| mbean_data := Some [] |})] |})] |}
     = Ok ps
     /\ ps = [GroupsHeader; GroupHeader 0]
     /\ render ps
        = lit "  groups:
  - group: group_0
    subgroups: 
")
  /\ buildYaml emptyCache = Throw TypeError
  /\ buildYaml {| process_name := None;
                  jmxData := Some [(lit "java.lang", {| domain_data := None |})] |}
     = Throw TypeError.
Proof.
  split; [|split].
  - apply (buildYaml_no_elements
             {| process_name := None;
                jmxData :=
                  Some [(lit "java.lang", {| domain_data := Some [] |});
                        (lit "java.nio",
                         {| domain_data :=
                              Some [(lit "BufferPool",
                                     {| mbean_data := Some [] |})] |})] |}).
    reflexivity.
  - apply (buildYaml_no_elements emptyCache). reflexivity.
  - apply (buildYaml_no_elements
             {| process_name := None;
                jmxData := Some [(lit "java.lang", {| domain_data := None |})] |}).
    reflexivity.
Defined.

(** X10.  The branch that opens a group writes [dimensions :] where the
    other branch writes [dimensions:]: it writes the subgroups of the
    elements at the positions 10, 20, 30, ... (counting from 0) and no
    other, so, when no string of the scrape data breaks the line, the
    [dimensions] lines of the text are spelled with the blank at these
    positions and without it at all others. *)
Theorem rollover_spelling (jmxJSON : jmxDataResponse) (ps : list Piece) :
  buildYaml jmxJSON = Ok ps ->
  subgroupFlags ps = map opensLaterGroup (seq 0 (length (elementsOf jmxJSON)))
  /\ (singleLineResponse jmxJSON = true ->
      dimensionsLines (render ps)
      = map (fun i => if (0 <? i) && (i mod 10 =? 0)
                      then lit "         dimensions : "
                      else lit "         dimensions: ")
          (seq 0 (length (elementsOf jmxJSON)))).
Proof.
  intro H.
  assert (Hflags : subgroupFlags ps
                   = map opensLaterGroup (seq 0 (length (elementsOf jmxJSON)))).
  { pose proof H as Hflat.
    rewrite (buildYaml_flat _ (buildYaml_levels _ _ H)) in Hflat.
    invert_bind Hflat. injection Hflat as <-.
    exact (foldM_flags _ _ _ _ initialState_invariant Ha). }
  split; [exact Hflags|]. intro Hsl.
  rewrite (dimensionsLines_render ps (buildYaml_clean _ _ Hsl H)), Hflags, map_map.
  reflexivity.
Qed.

Lemma rollover_spelling_witness :
  exists ps,
    buildYaml response23 = Ok ps
    /\ dimensionsLines (render ps)
       = repeat (lit "         dimensions: ") 10
         ++ [lit "         dimensions : "]
         ++ repeat (lit "         dimensions: ") 9
         ++ [lit "         dimensions : ";
             lit "         dimensions: "; lit "         dimensions: "].
Proof.
  assert (H : exists ps, buildYaml response23 = Ok ps).
  { vm_compute. eexists. reflexivity. }
  destruct H as [ps H]. exists ps. split; [exact H|].
  rewrite (proj2 (rollover_spelling response23 ps H)) by (vm_compute; reflexivity).
  vm_compute. reflexivity.
Defined.

(** ** Examples *)

Example ConvertMetricKey_ex :
  ConvertMetricKey (lit "Domain:type=Foo,name=a b|c-d")
  = lit "Domain.type_Foo.name_a_b.cd.".
Proof. reflexivity. Qed.

Example slice0_ex :
  slice0 (lit "abcdef") 4 = lit "abcd"
  /\ slice0 (lit "abcdef") (-2) = lit "abcd"
  /\ slice0 (lit "abcdef") (-20) = []
  /\ slice0 (lit "abcdef") 20 = lit "abcdef".
Proof. repeat split. Qed.

Example toString_ex : toString 0 = lit "0" /\ toString 12 = lit "12".
Proof. split; reflexivity. Qed.

Example buildYaml_ex :
  match buildYaml (responseOf [[memoryElement; runtimeElement]]) with
  | Ok ps => render ps
  | Throw _ => []
  end
  = lit "  groups:
  - group: group_0
    subgroups: 
       - subgroup: java.lang:type=Memory,name=
         query: java.lang:type=Memory,name=*
         dimensions: 
          - key: type
            value: property:type
          - key: vendor
            value: attribute:Vendor
         metrics: 
          - key: java.lang.type_Memory.name_.heapused
            type: gauge 
            value: attribute:HeapUsed
       - subgroup: java.lang:type=Runtime
         query: java.lang:type=Runtime
         dimensions: 
          - key: type
            value: property:type
          - key: vmname
            value: attribute:VmName
         metrics: 
          - key: jmx.const.value 
            type: gauge 
            value: const:1 
".
Proof. vm_compute. reflexivity. Qed.
